(** * Ibali Farm Platform: yield estimator, sensor monitor, alert store,
      conversational responder

    A shallow embedding of the decision logic of [ai_models.py] and
    [firebase_service.py], of the forecast panel of [app.py], of the
    alerts of [database.py] and of the status badge of [utils.py], with
    the properties stated about it.

    - [PyStr]: the Python [str] operations the code calls.
    - [FarmChatbot]: the keyword responder.
    - [PyNum], [PyDatetime]: Python numbers under comparison, and naive
      [datetime] values under [+ timedelta(days=...)] and [.month].
    - [FirebaseService]: the alert collection, a JSON tree addressed by
      references, and the sensor monitor.
    - [DatabaseManager]: the alerts [database.py] pushes to that tree.
    - [YieldPredictor]: feature preparation, [train_model] and
      [predict_future_yields] over a heap of DataFrame objects.
    - [FeatureSpec]: what feature preparation writes, column by column.
    - [Dashboard]: the forecast panel that calls the estimator.
    - [AlertHistory]: runs of the alert store and what a listing selects.
    - [RealtimeData]: sensor readings and equipment status.
    - [Listeners]: the real-time listener registry.
    - [ChartUtils]: the status badge. *)

From Stdlib Require Import ZArith QArith Lqa String Ascii List Permutation Sorted Lia Bool.
From stdpp Require Import gmap strings list fin_maps.

Close Scope Q_scope.
Local Open Scope string_scope.
Local Open Scope list_scope.

(* ===================================================================== *)
(** ** Python [str] operations (ASCII text)                               *)
(* ===================================================================== *)

Module PyStr.

(** Strings are sequences of ASCII characters; the keyword table, the
    metric names and the titles built from them are all ASCII. *)

Definition is_upper (c : ascii) : bool :=
  let n := nat_of_ascii c in (65 <=? n)%nat && (n <=? 90)%nat.

Definition is_lower (c : ascii) : bool :=
  let n := nat_of_ascii c in (97 <=? n)%nat && (n <=? 122)%nat.

(** [c.isspace()] on ASCII: tab, LF, VT, FF, CR, FS, GS, RS, US, space. *)
Definition isspace (c : ascii) : bool :=
  let n := nat_of_ascii c in
  ((9 <=? n)%nat && (n <=? 13)%nat) || ((28 <=? n)%nat && (n <=? 32)%nat).

Definition is_cased (c : ascii) : bool := is_upper c || is_lower c.

Definition to_lower (c : ascii) : ascii :=
  if is_upper c then ascii_of_nat (nat_of_ascii c + 32) else c.

Definition to_upper (c : ascii) : ascii :=
  if is_lower c then ascii_of_nat (nat_of_ascii c - 32) else c.

(** [s.lower()] *)
Fixpoint lower (s : string) : string :=
  match s with
  | EmptyString => EmptyString
  | String c t => String (to_lower c) (lower t)
  end.

(** [s.title()]: a character that follows a cased character is lowercased,
    any other character is title-cased. *)
Fixpoint title_from (previous_is_cased : bool) (s : string) : string :=
  match s with
  | EmptyString => EmptyString
  | String c t =>
      String (if previous_is_cased then to_lower c else to_upper c)
             (title_from (is_cased c) t)
  end.

Definition title (s : string) : string := title_from false s.

(** [s.replace(old, new)] for one-character [old] and [new], the only form
    the code uses ([replace('_', ' ')]). *)
Fixpoint replace (old new : ascii) (s : string) : string :=
  match s with
  | EmptyString => EmptyString
  | String c t =>
      String (if Ascii.eqb c old then new else c) (replace old new t)
  end.

(** [needle in hay] *)
Fixpoint contains (needle hay : string) : bool :=
  String.prefix needle hay ||
  match hay with
  | EmptyString => false
  | String _ t => contains needle t
  end.

(** [s.split()]: the maximal runs of non-whitespace characters, in order.
    [cur] is the run being read. *)
Fixpoint split_from (cur : string) (s : string) : list string :=
  match s with
  | EmptyString => match cur with EmptyString => [] | _ => [cur] end
  | String c t =>
      if isspace c
      then match cur with
           | EmptyString => split_from EmptyString t
           | _ => cur :: split_from EmptyString t
           end
      else split_from (cur ++ String c EmptyString) t
  end.

Definition split (s : string) : list string := split_from EmptyString s.

(** Truth value of a string: empty is false. *)
Definition truthy (s : string) : bool :=
  match s with EmptyString => false | _ => true end.

Definition newline : string := String (ascii_of_nat 10) EmptyString.

End PyStr.

(* ===================================================================== *)
(** ** [FarmChatbot]                                                      *)
(* ===================================================================== *)

Module FarmChatbot.
Import PyStr.

(** [self.knowledge_base]: a dict of dicts; iteration follows insertion
    order, so both levels are association lists. *)
Definition knowledge_base : list (string * list (string * string)) :=
  [ ("crop_care",
     [ ("corn", "Corn requires well-drained soil, regular watering, and nitrogen-rich fertilizer. Plant after last frost.");
       ("wheat", "Wheat grows best in cool, moist conditions. Requires good drainage and moderate fertilization.");
       ("soybeans", "Soybeans fix their own nitrogen. Need warm soil and moderate water. Avoid overwatering.") ]);
    ("livestock",
     [ ("cattle", "Cattle need fresh water, quality pasture, and regular health checks. Rotate grazing areas.");
       ("chickens", "Chickens need secure housing, balanced feed, and clean water. Collect eggs daily.");
       ("pigs", "Pigs require shelter, balanced diet, and clean environment. Monitor for diseases.") ]);
    ("pest_control",
     [ ("aphids", "Use ladybugs, neem oil, or insecticidal soap. Remove affected leaves.");
       ("caterpillars", "Hand-pick or use Bt (Bacillus thuringiensis) spray. Check plants regularly.");
       ("fungal_diseases", "Improve air circulation, avoid overhead watering, use fungicides if needed.") ]) ].

(** [key in message or any(word in message for word in key.split())] *)
Definition key_matches (key message : string) : bool :=
  contains key message ||
  existsb (fun word => contains word message) (split key).

(** [f"**{key.title()} Care Tips:**\n\n{response}"] *)
Definition care_tips (key response : string) : string :=
  "**" ++ title key ++ " Care Tips:**" ++ newline ++ newline ++ response.

(** The inner loop [for key, response in items.items()]. *)
Fixpoint check_items (items : list (string * string)) (message : string)
  : option string :=
  match items with
  | [] => None
  | (key, response) :: rest =>
      if key_matches key message then Some (care_tips key response)
      else check_items rest message
  end.

(** The outer loop [for category, items in self.knowledge_base.items()]. *)
Fixpoint check_categories (kb : list (string * list (string * string)))
  (message : string) : option string :=
  match kb with
  | [] => None
  | (_, items) :: rest =>
      match check_items items message with
      | Some r => Some r
      | None => check_categories rest message
      end
  end.

Definition _check_knowledge_base (message : string) : option string :=
  check_categories knowledge_base message.

(** The one external effect of the responder: a request to the completion
    service, recorded with the system prompt and the user message sent. *)
Inductive event :=
  | CompletionRequest (system_prompt user_message : string).

(** The configured completion client: given the system prompt and the user
    message it answers, or fails ([None], any exception of the call). *)
Definition completion_client := string -> string -> option string.

Definition fallback_responses : list string :=
  [ "That's a great question about farming! I'd recommend checking with your local agricultural extension office for specific advice.";
    "For detailed farming guidance, consider consulting agricultural experts in your area or checking reputable farming resources online.";
    "I understand you're looking for farming advice. The dashboard data might have relevant insights, or you could consult with agricultural specialists." ].

(** [np.random.choice(responses)]; [rnd] is the index drawn. *)
Definition _get_fallback_response (rnd : nat) (message : string) : string :=
  nth (rnd mod 3) fallback_responses "".

Definition system_context (context_data : option string) : string :=
  "You are an agricultural expert assistant for the Ibali Farm Platform. " ++
  "Provide helpful, practical advice about farming, livestock, and agricultural management. " ++
  match context_data with
  | Some d => if truthy d then "Current farm data: " ++ d ++ ". " else ""
  | None => ""
  end.

Definition _get_ai_response (client : completion_client) (rnd : nat)
  (message : string) (context_data : option string) : string * list event :=
  let context := system_context context_data in
  match client context message with
  | Some content => (content, [CompletionRequest context message])
  | None => (_get_fallback_response rnd message,
             [CompletionRequest context message])
  end.

(** [get_response]: the reply and the external requests made, in order.
    [client] is [self.client] ([None] when no API key is configured).
    Nothing in the body raises on a [str] message ([_get_ai_response]
    catches the failures of the request itself), so the outer [except]
    with its apology is never entered. *)
Definition get_response (client : option completion_client) (rnd : nat)
  (user_message : string) (context_data : option string)
  : string * list event :=
  match _check_knowledge_base (lower user_message) with
  | Some local_response =>
      if truthy local_response then (local_response, [])
      else match client with
           | Some c => _get_ai_response c rnd user_message context_data
           | None => (_get_fallback_response rnd user_message, [])
           end
  | None =>
      match client with
      | Some c => _get_ai_response c rnd user_message context_data
      | None => (_get_fallback_response rnd user_message, [])
      end
  end.

(** The table flattened in iteration order, and its keywords. *)
Definition entries : list (string * string) :=
  concat (map snd knowledge_base).






(** The advice stored under "corn" and under "aphids". *)
Definition corn_advice : string :=
  "Corn requires well-drained soil, regular watering, and nitrogen-rich fertilizer. Plant after last frost.".

Definition aphid_advice : string :=
  "Use ladybugs, neem oil, or insecticidal soap. Remove affected leaves.".

End FarmChatbot.

(* ===================================================================== *)
(** ** Python numbers under comparison                                    *)
(* ===================================================================== *)

Module PyNum.

(** A float is a rational, an infinity or NaN; an int is an integer. The
    code under study never does arithmetic on these values itself: it
    stores them, compares them and hands them to libraries. Comparison of
    ints and floats in Python is by exact value, and every comparison with
    NaN is false. A decimal literal stands for the value it is written as. *)
Inductive pyfloat :=
  | FFin (q : Q)
  | FInf
  | FNegInf
  | FNaN.

Inductive pynum :=
  | PyInt (z : Z)
  | PyFloat (x : pyfloat).

Definition value_of (a : pynum) : pyfloat :=
  match a with
  | PyInt z => FFin (inject_Z z)
  | PyFloat x => x
  end.

Definition Qltb (p q : Q) : bool :=
  match Qcompare p q with Lt => true | _ => false end.

Definition float_lt (a b : pyfloat) : bool :=
  match a, b with
  | FNaN, _ | _, FNaN => false
  | FFin p, FFin q => Qltb p q
  | FNegInf, FNegInf => false
  | FNegInf, _ => true
  | FInf, _ => false
  | FFin _, FInf => true
  | FFin _, FNegInf => false
  end.

Definition float_eq (a b : pyfloat) : bool :=
  match a, b with
  | FFin p, FFin q => Qeq_bool p q
  | FInf, FInf | FNegInf, FNegInf => true
  | _, _ => false
  end.

(** [a < b], [a > b], [a <= b], [a == b] *)
Definition py_lt (a b : pynum) : bool := float_lt (value_of a) (value_of b).
Definition py_gt (a b : pynum) : bool := py_lt b a.
Definition py_eq (a b : pynum) : bool := float_eq (value_of a) (value_of b).
Definition py_le (a b : pynum) : bool := py_lt a b || py_eq a b.

(** The builtin [max(a, b)]: [b] when [b > a], otherwise [a]. *)
Definition py_max (a b : pynum) : pynum := if py_gt b a then b else a.

Definition dec (num den : Z) : pynum :=
  PyFloat (FFin (Qmake num (Z.to_pos den))).

End PyNum.

(* ===================================================================== *)
(** ** Naive [datetime] values                                            *)
(* ===================================================================== *)

Module PyDatetime.

(** A naive datetime is a proleptic Gregorian day number (1 is 0001-01-01)
    and a time of day in microseconds. *)
Record datetime := { toordinal : Z; time_of_day : Z }.

(** 9999-12-31, [datetime.max.toordinal()]. *)
Definition MAXORDINAL : Z := 3652059.

(** [timedelta.max.days] *)
Definition MAX_DELTA_DAYS : Z := 999999999.

Definition valid (d : datetime) : Prop :=
  (1 <= toordinal d <= MAXORDINAL)%Z /\
  (0 <= time_of_day d < 86400000000)%Z.

(** [d + timedelta(days=n)]. Building the timedelta raises OverflowError
    beyond [MAX_DELTA_DAYS], the addition raises it outside year 1..9999. *)
Definition add_days (d : datetime) (n : Z) : option datetime :=
  if (Z.abs n >? MAX_DELTA_DAYS)%Z then None
  else
    let o := (toordinal d + n)%Z in
    if ((0 <? o) && (o <=? MAXORDINAL))%Z
    then Some {| toordinal := o; time_of_day := time_of_day d |}
    else None.

Definition DI400Y : Z := 146097.
Definition DI100Y : Z := 36524.
Definition DI4Y : Z := 1461.

Definition DAYS_IN_MONTH : list Z :=
  [(-1); 31; 28; 31; 30; 31; 30; 31; 31; 30; 31; 30; 31]%Z.

Definition DAYS_BEFORE_MONTH : list Z :=
  [(-1); 0; 31; 59; 90; 120; 151; 181; 212; 243; 273; 304; 334]%Z.

Definition is_leap (year : Z) : bool :=
  ((year mod 4 =? 0) && (negb (year mod 100 =? 0) || (year mod 400 =? 0)))%Z.

Definition b2z (b : bool) : Z := if b then 1%Z else 0%Z.

Definition days_before_year (year : Z) : Z :=
  let y := (year - 1)%Z in (y * 365 + y / 4 - y / 100 + y / 400)%Z.

Definition days_before_month (year month : Z) : Z :=
  (nth (Z.to_nat month) DAYS_BEFORE_MONTH 0 +
   b2z ((month >? 2) && is_leap year))%Z.

(** [_ymd2ord] *)
Definition ymd2ord (year month day : Z) : Z :=
  (days_before_year year + days_before_month year month + day)%Z.

(** [_ord2ymd], the calendar arithmetic behind [.year], [.month], [.day]. *)
Definition ord2ymd (n0 : Z) : Z * Z * Z :=
  let n := (n0 - 1)%Z in
  let n400 := (n / DI400Y)%Z in let n := (n mod DI400Y)%Z in
  let year := (n400 * 400 + 1)%Z in
  let n100 := (n / DI100Y)%Z in let n := (n mod DI100Y)%Z in
  let n4 := (n / DI4Y)%Z in let n := (n mod DI4Y)%Z in
  let n1 := (n / 365)%Z in let n := (n mod 365)%Z in
  let year := (year + n100 * 100 + n4 * 4 + n1)%Z in
  if ((n1 =? 4) || (n100 =? 4))%Z then ((year - 1)%Z, 12%Z, 31%Z)
  else
    let leapyear := ((n1 =? 3) && (negb (n4 =? 24) || (n100 =? 3)))%Z in
    let month := Z.shiftr (n + 50) 5 in
    let preceding :=
      (nth (Z.to_nat month) DAYS_BEFORE_MONTH 0 +
       b2z ((month >? 2)%Z && leapyear))%Z in
    if (preceding >? n)%Z
    then
      let month := (month - 1)%Z in
      let preceding :=
        (preceding - (nth (Z.to_nat month) DAYS_IN_MONTH 0 +
                      b2z ((month =? 2)%Z && leapyear)))%Z in
      (year, month, (n - preceding + 1)%Z)
    else (year, month, (n - preceding + 1)%Z).

(** [d.month] *)
Definition month (d : datetime) : Z := snd (fst (ord2ymd (toordinal d))).

(** The value [d + timedelta(days=30 * k)] has when it exists. *)
Definition date_at (d : datetime) (k : Z) : datetime :=
  {| toordinal := (toordinal d + 30 * k)%Z; time_of_day := time_of_day d |}.

(** [datetime(year, month, day, 0, 0)] *)
Definition midnight (year month day : Z) : datetime :=
  {| toordinal := ymd2ord year month day; time_of_day := 0 |}.

End PyDatetime.

(* ===================================================================== *)
(** ** [FirebaseService]: the alert collection and the sensor monitor     *)
(* ===================================================================== *)

Module FirebaseService.
Import PyNum.

(** *** The database below [alerts/] as a JSON tree *)

(** A value stored below [alerts/]: a boolean, a string, or an object with
    named children. These are the values this application writes there;
    the database stores no nulls, so an entry written as [None] is an
    absent entry. *)
#[warnings="-register-all"]
Inductive json :=
  | JBool (b : bool)
  | JStr (s : string)
  | JObj (entries : gmap string json).

(** The named children of a node; a missing node and a boolean or string
    have none. *)
Definition fields_of (n : option json) : gmap string json :=
  match n with
  | Some (JObj m) => m
  | _ => ∅
  end.

(** A child of [alerts/], as [get()] returns it: for an alert, a dict. *)
Abbreviation alert := json.

(** [a[name]] where [a] is a dict with that entry. *)
Definition field (name : string) (a : alert) : option json :=
  fields_of (Some a) !! name.

Definition text (name : string) (a : alert) : option string :=
  match field name a with Some (JStr s) => Some s | _ => None end.

Definition flag (name : string) (a : alert) : option bool :=
  match field name a with Some (JBool b) => Some b | _ => None end.

(** The entries this service writes into an alert, read back with the
    type it writes them with. *)
Definition title (a : alert) : option string := text "title" a.
Definition message (a : alert) : option string := text "message" a.
Definition priority (a : alert) : option string := text "priority" a.
Definition source (a : alert) : option string := text "source" a.
Definition timestamp (a : alert) : option string := text "timestamp" a.
Definition read (a : alert) : option bool := flag "read" a.
Definition resolved (a : alert) : option bool := flag "resolved" a.
Definition resolved_at (a : alert) : option string := text "resolved_at" a.
Definition resolution_note (a : alert) : option string :=
  text "resolution_note" a.

(** What the service can change outside the process: the children of
    [alerts/] by key, and the push notifications handed to the messaging
    service (title and body, latest first). *)
Record firebase := {
  alerts : gmap string alert;
  notifications : list (string * string)
}.

(** *** References *)

(** The characters [_parse_path] rejects. *)
Definition illegal (c : ascii) : bool :=
  existsb (Ascii.eqb c) (list_ascii_of_string "[].?#$").

Fixpoint has_illegal (s : string) : bool :=
  match s with
  | EmptyString => false
  | String c t => illegal c || has_illegal t
  end.

(** [[seg for seg in path.split('/') if seg]]; [cur] is the segment being
    read. *)
Fixpoint segments_from (cur : string) (s : string) : list string :=
  match s with
  | EmptyString => match cur with EmptyString => [] | _ => [cur] end
  | String c t =>
      if Ascii.eqb c "/"
      then match cur with
           | EmptyString => segments_from EmptyString t
           | _ => cur :: segments_from EmptyString t
           end
      else segments_from (cur ++ String c EmptyString) t
  end.

(** [ref.child(path)] for a reference [ref]: the segments the path adds
    to it, or [None] when [child] raises [ValueError] (an empty path, a
    path that starts with "/", a path with one of the characters above). *)
Definition child_path (path : string) : option (list string) :=
  match path with
  | EmptyString => None
  | String c _ =>
      if Ascii.eqb c "/" then None
      else if has_illegal path then None
      else Some (segments_from EmptyString path)
  end.

(** A key: a string that [child] takes as the name of one child. The ids
    the database gives to pushed children are keys. *)
Definition is_key (k : string) : bool :=
  match child_path k with
  | Some [k'] => String.eqb k' k
  | _ => false
  end.

(** [ref.get()] at the reference [path] segments below the node [n]. *)
Fixpoint get_at (path : list string) (n : option json) : option json :=
  match path with
  | [] => n
  | seg :: rest => get_at rest (fields_of n !! seg)
  end.

(** [ref.update(fields)] at the reference [path] segments below a node
    with the children [m]: the given entries are written at the
    reference and its other children stay; a node on the way that is
    missing, or holds a boolean or a string, becomes an object. *)
Fixpoint patch (path : list string) (fields : gmap string json)
  (m : gmap string json) : gmap string json :=
  match path with
  | [] => fields ∪ m
  | seg :: rest =>
      <[seg := JObj (patch rest fields (fields_of (m !! seg)))]> m
  end.

(** *** The calls *)

(** What the outside supplies to one call: whether the database request
    and the messaging request go through (a request that does not raises
    inside the method's [try]), the key the database assigns to a pushed
    child, and [datetime.now().isoformat()]. A push key is a key: 20
    characters of the server's alphabet, which has neither "/" nor any of
    the characters [child] refuses. *)
Record outside := {
  db_ok : bool;
  fcm_ok : bool;
  push_key : string;
  now_iso : string;
  push_key_is_key : Is_true (is_key push_key)
}.

(** [_send_push_notification]: its own [try] swallows a failed send. *)
Definition _send_push_notification (o : outside) (title_ body : string)
  (fb : firebase) : firebase :=
  if fcm_ok o
  then {| alerts := alerts fb;
          notifications := (title_, body) :: notifications fb |}
  else fb.

(** [alert_data] of [create_alert]; a [source] of [None] is not stored. *)
Definition alert_data (title_ message_ priority_ : string)
  (source_ : option string) (now : string) : alert :=
  JObj (list_to_map
          ([("title", JStr title_); ("message", JStr message_);
            ("priority", JStr priority_)] ++
           match source_ with
           | Some s => [("source", JStr s)]
           | None => []
           end ++
           [("timestamp", JStr now); ("read", JBool false);
            ("resolved", JBool false)])).

(** [create_alert]: the key of the pushed child, or [None]. *)
Definition create_alert (o : outside) (title_ message_ priority_ : string)
  (source_ : option string) (fb : firebase) : option string * firebase :=
  if db_ok o then
    let fb1 :=
      {| alerts := <[push_key o :=
                       alert_data title_ message_ priority_ source_
                                  (now_iso o)]> (alerts fb);
         notifications := notifications fb |} in
    let fb2 := if String.eqb priority_ "high"
               then _send_push_notification o title_ message_ fb1
               else fb1 in
    (Some (push_key o), fb2)
  else (None, fb).

(** [ref.update(fields)] for the reference [path] below [alerts/]. *)
Definition update (path : list string) (fields : gmap string json)
  (fb : firebase) : firebase :=
  {| alerts := patch path fields (alerts fb);
     notifications := notifications fb |}.

(** [{'read': True}] *)
Definition read_fields : gmap string json := {[ "read" := JBool true ]}.

(** [mark_alert_read]: [child(alert_id)] may raise before any request is
    made. *)
Definition mark_alert_read (o : outside) (alert_id : string) (fb : firebase)
  : bool * firebase :=
  match child_path alert_id with
  | Some path =>
      if db_ok o then (true, update path read_fields fb) else (false, fb)
  | None => (false, fb)
  end.

(** [update_data] of [resolve_alert] *)
Definition resolved_fields (now : string) (note : option string)
  : gmap string json :=
  let update_data : gmap string json :=
    <["resolved" := JBool true]>
      (<["resolved_at" := JStr now]> {[ "read" := JBool true ]}) in
  match note with
  | Some n =>
      if PyStr.truthy n then <["resolution_note" := JStr n]> update_data
      else update_data
  | None => update_data
  end.

(** [resolve_alert] *)
Definition resolve_alert (o : outside) (alert_id : string)
  (resolution_note_ : option string) (fb : firebase) : bool * firebase :=
  match child_path alert_id with
  | Some path =>
      if db_ok o
      then (true, update path (resolved_fields (now_iso o) resolution_note_) fb)
      else (false, fb)
  | None => (false, fb)
  end.

(** A stable sort by insertion: [goes_first y x] tells that [y], met later
    in the input, must still come before [x]. *)
Fixpoint insert_sorted {A} (goes_first : A -> A -> bool) (x : A) (l : list A)
  : list A :=
  match l with
  | [] => [x]
  | y :: t =>
      if goes_first y x then y :: insert_sorted goes_first x t
      else x :: y :: t
  end.

Definition stable_sort {A} (goes_first : A -> A -> bool) (l : list A)
  : list A :=
  foldr (insert_sorted goes_first) [] l.

(** The children of [alerts/] in key order. (Push ids and the ids callers
    pass are ordered as strings.) *)
Definition children (fb : firebase) : list (string * alert) :=
  stable_sort (fun y x => String.ltb (fst y) (fst x))
              (map_to_list (alerts fb)).

(** [limit_to_last(n)] *)
Definition limit_to_last {A} (n : nat) (l : list A) : list A :=
  skipn (length l - n) l.

(** [order_by_child('read').equal_to(False)]: the children whose ['read']
    is [False]. *)
Definition is_unread (c : string * alert) : bool :=
  match read (snd c) with Some false => true | _ => false end.

(** [x['timestamp']], the sort key: absent when the child is no dict
    (setting its ['id'] raises) or has no such entry ([KeyError]). *)
Definition sort_key (c : string * alert) : option json :=
  field "timestamp" (snd c).

Definition has_timestamp (c : string * alert) : bool :=
  match sort_key c with Some _ => true | None => false end.

(** [x < y] on two sort keys: strings and booleans compare among
    themselves, anything else raises [TypeError]. *)
Definition key_lt (x y : json) : option bool :=
  match x, y with
  | JStr a, JStr b => Some (String.ltb a b)
  | JBool a, JBool b => Some (negb a && b)
  | _, _ => None
  end.

Definition is_str (v : json) : bool :=
  match v with JStr _ => true | _ => false end.

Definition is_bool (v : json) : bool :=
  match v with JBool _ => true | _ => false end.

(** Whether [sorted] gets through the keys: a sort of two or more
    elements compares every one of them with another. *)
Definition sortable (keys : list json) : bool :=
  match keys with
  | [] | [_] => true
  | _ => forallb is_str keys || forallb is_bool keys
  end.

(** [y] goes before [x] under [reverse=True]: its key is the greater. *)
Definition newer (y x : string * alert) : bool :=
  match sort_key x, sort_key y with
  | Some kx, Some ky => default false (key_lt kx ky)
  | _, _ => false
  end.

Definition timestamp_of (c : string * alert) : string :=
  default "" (timestamp (snd c)).

(** [get_alerts]: each listed alert is paired with its id; the dict the
    method returns for [(id, a)] is [a] with ['id'] set to [id]. A
    negative limit is rejected by [limit_to_last]; a child without
    ['timestamp'] and keys that do not compare make [sorted] raise; all
    of these end in the [except] branch. *)
Definition get_alerts (o : outside) (unread_only : bool) (limit : Z)
  (fb : firebase) : list (string * alert) :=
  if negb (db_ok o) then []
  else if (limit <? 0)%Z then []
  else
    let found :=
      if unread_only
      then limit_to_last (Z.to_nat limit) (filter (fun c => is_unread c = true) (children fb))
      else limit_to_last (Z.to_nat limit) (children fb) in
    match found with
    | [] => []
    | _ =>
        if forallb has_timestamp found && sortable (omap sort_key found)
        then stable_sort newer found
        else []
    end.

(** [alert_thresholds]: metric type, minimum, maximum. *)
Definition alert_thresholds : list (string * (pynum * pynum)) :=
  [ ("soil_moisture", (PyInt 20, PyInt 80));
    ("temperature", (PyInt 5, PyInt 35));
    ("humidity", (PyInt 30, PyInt 90));
    ("ph_level", (dec 60 10, dec 75 10)) ].

Fixpoint lookup_threshold (table : list (string * (pynum * pynum)))
  (sensor_type : string) : option (pynum * pynum) :=
  match table with
  | [] => None
  | (k, v) :: rest =>
      if String.eqb k sensor_type then Some v
      else lookup_threshold rest sensor_type
  end.

(** [sensor_type.replace('_', ' ').title()] *)
Definition display_name (sensor_type : string) : string :=
  PyStr.title (PyStr.replace "_"%char " "%char sensor_type).

Section Monitor.

(** [str(x)] of a number inside an f-string. *)
Variable str_of_num : pynum -> string.

Definition low_message (sensor_id sensor_type : string) (value min_ : pynum)
  : string :=
  "Sensor " ++ sensor_id ++ ": " ++ sensor_type ++ " is " ++
  str_of_num value ++ " (below minimum " ++ str_of_num min_ ++ ")".

Definition high_message (sensor_id sensor_type : string) (value max_ : pynum)
  : string :=
  "Sensor " ++ sensor_id ++ ": " ++ sensor_type ++ " is " ++
  str_of_num value ++ " (above maximum " ++ str_of_num max_ ++ ")".

(** [_check_sensor_alerts] *)
Definition _check_sensor_alerts (o : outside) (sensor_id sensor_type : string)
  (value : pynum) (fb : firebase) : firebase :=
  match lookup_threshold alert_thresholds sensor_type with
  | Some (min_, max_) =>
      if py_lt value min_ then
        snd (create_alert o ("Low " ++ display_name sensor_type)
               (low_message sensor_id sensor_type value min_)
               "high" (Some sensor_id) fb)
      else if py_gt value max_ then
        snd (create_alert o ("High " ++ display_name sensor_type)
               (high_message sensor_id sensor_type value max_)
               "high" (Some sensor_id) fb)
      else fb
  | None => fb
  end.

End Monitor.

Definition unread_count (fb : firebase) : nat :=
  length (filter (fun c => is_unread c = true) (map_to_list (alerts fb))).

(** What [get()] reads at [alerts/<alert_id>]. *)
Definition stored (fb : firebase) (alert_id : string) : option alert :=
  match child_path alert_id with
  | Some path => get_at path (Some (JObj (alerts fb)))
  | None => None
  end.

Definition flags_of (n : option alert) : option (option bool * option bool) :=
  (fun a => (read a, resolved a)) <$> n.

(** The read and resolved flags of the alert stored under [alert_id]. *)
Definition flags (fb : firebase) (alert_id : string)
  : option (option bool * option bool) :=
  flags_of (stored fb alert_id).

(** [q] leads below [p]: it goes on after the last segment of [p]. *)
Fixpoint below (p q : list string) : bool :=
  match p, q with
  | [], _ :: _ => true
  | s :: p', t :: q' => String.eqb s t && below p' q'
  | _, _ => false
  end.

(** The reference [child(k)] points inside the node at
    [child(alert_id)]. *)
Definition inside (k alert_id : string) : bool :=
  match child_path alert_id, child_path k with
  | Some p, Some q => below p q
  | _, _ => false
  end.

(** Every unread alert carries a timestamp, a string. *)
Definition timestamped (fb : firebase) : Prop :=
  map_Forall (fun _ a => read a = Some false -> is_Some (timestamp a))
             (alerts fb).

(** Between [fb] and [fb'] exactly one alert was added, under [key]: a
    high-priority, unread, unresolved alert with the given title. *)
Definition one_alert_raised (fb fb' : firebase) (key title_ : string) : Prop :=
  alerts fb !! key = None /\
  size (alerts fb') = S (size (alerts fb)) /\
  (forall k, k <> key -> alerts fb' !! k = alerts fb !! k) /\
  exists a, alerts fb' !! key = Some a /\
            title a = Some title_ /\ priority a = Some "high" /\
            read a = Some false /\ resolved a = Some false.

(** An empty store, and a call during which every request goes through. *)
Definition empty_store : firebase := {| alerts := ∅; notifications := [] |}.

Abbreviation working key now :=
  {| db_ok := true; fcm_ok := true; push_key := key; now_iso := now;
     push_key_is_key := I |}.

End FirebaseService.

(* ===================================================================== *)
(** ** [YieldPredictor]                                                   *)
(* ===================================================================== *)

Module YieldPredictor.
Import PyNum PyDatetime.

(** *** DataFrames as heap objects *)

(** A cell of a column. [CNone] is a missing value ([None], [NaT]); a float
    NaN is missing as well. *)
Inductive cell :=
  | CNone
  | CNum (x : pynum)
  | CStr (s : string)
  | CTime (t : datetime).

Definition isna (c : cell) : bool :=
  match c with
  | CNone | CNum (PyFloat FNaN) => true
  | _ => false
  end.

Definition cell_eqb (a b : cell) : bool :=
  match a, b with
  | CStr s, CStr t => String.eqb s t
  | CTime s, CTime t =>
      ((toordinal s =? toordinal t) && (time_of_day s =? time_of_day t))%Z
  | _, _ => (isna a && isna b) ||
            match a, b with
            | CNum x, CNum y => py_eq x y
            | _, _ => false
            end
  end.

(** A DataFrame: the length of its index and its columns by name. *)
Record DataFrame := {
  nrows : nat;
  columns : gmap string (list cell)
}.

(** [pd.DataFrame()] *)
Definition empty_frame : DataFrame := {| nrows := 0; columns := ∅ |}.

(** [df.empty]: no rows or no columns. *)
Definition df_empty (d : DataFrame) : bool :=
  (nrows d =? 0)%nat || (size (columns d) =? 0)%nat.

(** DataFrames are mutable objects that callers and callees share by
    reference: the heap maps each reference to the object's current
    contents. *)
Abbreviation ref := positive.
Abbreviation heap := (gmap positive DataFrame).

(** Code that reads and writes the heap and may raise: the result is
    [None] when an exception leaves the code, and the heap is the one at
    that point. *)
Definition M (A : Type) : Type := heap -> option A * heap.

Definition ret {A} (a : A) : M A := fun h => (Some a, h).

Definition bind {A B} (m : M A) (k : A -> M B) : M B :=
  fun h => match m h with
           | (Some a, h') => k a h'
           | (None, h') => (None, h')
           end.

Definition lift {A} (o : option A) : M A :=
  fun h => (o, h).

#[export] Instance M_ret : MRet M := @ret.
#[export] Instance M_bind : MBind M := fun A B k m => bind m k.

(** Reading the object behind a reference. *)
Definition load (l : ref) : M DataFrame := fun h => (h !! l, h).

(** A new object, at a reference not in use. *)
Definition new_frame (d : DataFrame) : M ref :=
  fun h => let l := fresh (dom h) in (Some l, <[l := d]> h).

(** [df.copy()]: a new object with the same rows and columns. *)
Definition copy (l : ref) : M ref := d ← load l; new_frame d.

(** [df[name]], KeyError when there is no such column. *)
Definition get_column (l : ref) (name : string) : M (list cell) :=
  d ← load l; lift (columns d !! name).

(** [df[name] = col]: the object behind [l] is changed in place. *)
Definition set_column (l : ref) (name : string) (col : list cell) : M unit :=
  fun h => match h !! l with
           | Some d =>
               (Some tt,
                <[l := {| nrows := nrows d;
                          columns := <[name := col]> (columns d) |}]> h)
           | None => (None, h)
           end.

(** [touches df Q m]: run from a heap that holds an object at [df],
    [m] leaves every other existing object as it was, keeps an object at
    [df] with the same number of rows, and returns a value in [Q] when
    it returns. *)
Definition touches {A} (df : ref) (Q : A -> Prop) (m : M A) : Prop :=
  forall (h : heap) d, h !! df = Some d ->
  forall r h', m h = (r, h') ->
    (forall l, l <> df -> is_Some (h !! l) -> h' !! l = h !! l) /\
    (exists d', h' !! df = Some d' /\ nrows d' = nrows d) /\
    (forall a, r = Some a -> Q a).

(** [series.fillna(v)] *)
Definition fillna (v : cell) (col : list cell) : list cell :=
  map (fun c => if isna c then v else c) col.

(** [series.unique()]: the distinct values in order of first appearance. *)
Fixpoint unique_from (seen : list cell) (col : list cell) : list cell :=
  match col with
  | [] => []
  | c :: t =>
      if existsb (cell_eqb c) seen then unique_from seen t
      else c :: unique_from (c :: seen) t
  end.

Definition unique (col : list cell) : list cell := unique_from [] col.

(** [{crop: idx for idx, crop in enumerate(crop_types)}] *)
Fixpoint enumerate_from (idx : Z) (l : list cell) : list (cell * Z) :=
  match l with
  | [] => []
  | c :: t => (c, idx) :: enumerate_from (idx + 1) t
  end.

Fixpoint dict_get (d : list (cell * Z)) (c : cell) : option Z :=
  match d with
  | [] => None
  | (k, v) :: t => if cell_eqb k c then Some v else dict_get t c
  end.

(** [series.map(mapping)]: a value that is no key becomes NaN. *)
Definition map_dict (d : list (cell * Z)) (col : list cell) : list cell :=
  map (fun c => match dict_get d c with
                | Some i => CNum (PyInt i)
                | None => CNone
                end) col.

Definition weather_mapping : list (string * pynum) :=
  [ ("sunny", dec 9 10); ("partly_cloudy", dec 7 10); ("cloudy", dec 5 10);
    ("rainy", dec 3 10); ("stormy", dec 1 10); ("drought", dec 1 10) ].

Fixpoint weather_get (d : list (string * pynum)) (s : string)
  : option pynum :=
  match d with
  | [] => None
  | (k, v) :: t => if String.eqb k s then Some v else weather_get t s
  end.

Definition weather_cell (c : cell) : cell :=
  match c with
  | CStr s => match weather_get weather_mapping s with
              | Some v => CNum v
              | None => CNone
              end
  | _ => CNone
  end.

(** [series.dt.month] of a datetime column. *)
Definition month_cell (c : cell) : cell :=
  match c with
  | CTime t => CNum (PyInt (month t))
  | _ => CNone
  end.

Definition time_cell (t : option datetime) : cell :=
  match t with Some t => CTime t | None => CNone end.

Definition feature_columns : list string :=
  ["month"; "crop_type_encoded"; "weather_score"; "soil_quality_score"].

(** A forecast row: ['date'], ['predicted_yield'], ['confidence']. *)
Record forecast := {
  date : datetime;
  predicted_yield : pynum;
  confidence : pynum
}.

(** [range(1, n + 1)] *)
Definition range1 (n : Z) : list Z := seqZ 1 n.

(** The first loop of [predict_future_yields]; an OverflowError at any
    step leaves no list. *)
Definition future_dates (current_date : datetime) (months_ahead : Z)
  : option (list datetime) :=
  mapM (fun i => add_days current_date (30 * i)) (range1 months_ahead).

(** The row handed to [model.predict] for one future date. *)
Definition features_for (d : datetime) : list pynum :=
  [PyInt (month d); PyInt 0; dec 7 10; dec 75 100].

Section Estimator.

(** *** The libraries behind the estimator *)

(** [pd.to_datetime(series)]: raises on what it cannot parse, gives NaT
    ([None]) for missing values. *)
Variable to_datetime : list cell -> option (list (option datetime)).

(** [series.mean()]: raises on a column it cannot average. *)
Variable series_mean : list cell -> option pynum.

(** [train_test_split(X, y, test_size=0.2, random_state=42)]:
    [X_train, X_test, y_train, y_test]. [X] is a list of columns. *)
Variable train_test_split :
  list (list cell) -> list cell ->
  option (list (list cell) * list (list cell) * list cell * list cell).

(** A fitted random forest, and its prediction for one row of features. *)
Variable Forest : Type.
Variable forest_predict : Forest -> list pynum -> pynum.

(** [self.model.fit(X_train, y_train)] either fits the estimator or raises,
    leaving the estimator object in some state: still fitted, or not
    fitted. *)
Inductive fit_outcome :=
  | Fitted (f : Forest)
  | FitRaised (state : option Forest).

Variable rf_fit :
  option Forest -> list (list cell) -> list cell -> fit_outcome.

(** [mean_absolute_error(y_test, self.model.predict(X_test))]; the result
    is only logged. *)
Variable evaluate : Forest -> list (list cell) -> list cell -> option pynum.

(** The estimator object: [self.model] (fitted or not) and
    [self.is_trained]. *)
Record estimator := {
  model : option Forest;
  is_trained : bool
}.

(** [YieldPredictor()] *)
Definition init : estimator := {| model := None; is_trained := false |}.

(** [prepare_features(df)]: works on the object it is given and returns
    a reference to it (or to a new empty frame). *)
Definition prepare_features (df : ref) : M ref :=
  d ← load df;
  if df_empty d then new_frame empty_frame
  else
    ds ← get_column df "ds";
    ds' ← lift (to_datetime ds);
    set_column df "ds" (map time_cell ds');;
    ds ← get_column df "ds";
    set_column df "month" (map month_cell ds);;
    crop ← get_column df "crop_type";
    let crop_types := unique crop in
    let crop_mapping := enumerate_from 0 crop_types in
    crop ← get_column df "crop_type";
    set_column df "crop_type_encoded" (map_dict crop_mapping crop);;
    weather ← get_column df "weather_condition";
    set_column df "weather_score"
      (fillna (CNum (dec 5 10)) (map weather_cell weather));;
    soil ← get_column df "soil_quality_score";
    soil' ← get_column df "soil_quality_score";
    mean ← lift (series_mean soil');
    set_column df "soil_quality_score" (fillna (CNum mean) soil);;
    ret df.

(** The body of [train_model] after feature preparation, on the prepared
    frame [d]. *)
Definition fit_on (self : estimator) (d : DataFrame)
  : bool * estimator :=
  match mapM (fun c => columns d !! c) feature_columns, columns d !! "y" with
  | Some X, Some y =>
      let X := map (fillna (CNum (PyInt 0))) X in
      let y := fillna (CNum (PyInt 0)) y in
      match train_test_split X y with
      | Some (X_train, X_test, y_train, y_test) =>
          match rf_fit (model self) X_train y_train with
          | Fitted f =>
              match evaluate f X_test y_test with
              | Some mae => (true, {| model := Some f; is_trained := true |})
              | None =>
                  (false, {| model := Some f; is_trained := is_trained self |})
              end
          | FitRaised state =>
              (false, {| model := state; is_trained := is_trained self |})
          end
      | None => (false, self)
      end
  | _, _ => (false, self)
  end.

(** [train_model(historical_data)]: the flag returned, the estimator and
    the heap afterwards. Every exception ends in [return False]. *)
Definition train_model (self : estimator) (historical_data : ref) (h : heap)
  : bool * estimator * heap :=
  match load historical_data h with
  | (Some d0, _) =>
      if df_empty d0 then (false, self, h)
      else
        match (c ← copy historical_data; prepare_features c) h with
        | (Some df, h') =>
            match h' !! df with
            | Some d =>
                if df_empty d || (nrows d <? 10)%nat then (false, self, h')
                else let '(ok, self') := fit_on self d in (ok, self', h')
            | None => (false, self, h')
            end
        | (None, h') => (false, self, h')
        end
  | (None, _) => (false, self, h)
  end.

(** [predict_future_yields(months_ahead)] at clock reading [now]: the rows
    of the returned DataFrame, none for an empty one. *)
Definition predict_future_yields (self : estimator) (now : datetime)
  (months_ahead : Z) : list forecast :=
  if negb (is_trained self) then []
  else
    match future_dates now months_ahead with
    | Some dates =>
        match dates, model self with
        | [], _ => []
        | _, None => []
        | _, Some f =>
            map (fun d =>
                   let pred := forest_predict f (features_for d) in
                   {| date := d;
                      predicted_yield := py_max (PyInt 0) pred;
                      confidence := dec 8 10 |}) dates
        end
    | None => []
    end.

(** *** Sequences of calls on one estimator *)

Inductive call :=
  | Fit (batch : ref)
  | Predict (now : datetime) (months_ahead : Z).

Record world := { est : estimator; objects : heap }.

Definition step (w : world) (c : call) : world :=
  match c with
  | Fit b =>
      let '(_, self', h') := train_model (est w) b (objects w) in
      {| est := self'; objects := h' |}
  | Predict _ _ => w
  end.

(** The world each call of the sequence starts in. *)
Fixpoint worlds_before (w : world) (cs : list call) : list world :=
  match cs with
  | [] => []
  | c :: t => w :: worlds_before (step w c) t
  end.

Definition run (w : world) (cs : list call) : world := foldl step w cs.

(** The feature row in the words of the specification: the month of the
    call time, whatever the period. *)
Definition spec_features_for (now : datetime) : list pynum :=
  [PyInt (month now); PyInt 0; dec 7 10; dec 75 100].

(** The forecast a fitted forest [f] would give for periods [1..n] if
    every row were built that way. *)
Definition spec_forecast (f : Forest) (now : datetime) (n : Z)
  : list forecast :=
  map (fun k => {| date := date_at now k;
                   predicted_yield :=
                     py_max (PyInt 0) (forest_predict f (spec_features_for now));
                   confidence := dec 8 10 |}) (range1 n).

End Estimator.

Arguments Fitted {Forest} f.
Arguments FitRaised {Forest} state.
Arguments model {Forest} e.
Arguments is_trained {Forest} e.
Arguments init {Forest}.
Arguments est {Forest} w.
Arguments objects {Forest} w.

End YieldPredictor.

(* ===================================================================== *)
(** ** A concrete instance of the libraries, and a sample batch           *)
(* ===================================================================== *)

Module Sample.
Import PyNum PyDatetime YieldPredictor.

(** Datetime cells and missing cells convert; anything else raises. *)
Definition to_datetime (col : list cell) : option (list (option datetime)) :=
  mapM (fun c => match c with
                 | CTime t => Some (Some t)
                 | CNone => Some None
                 | _ => None
                 end) col.

Definition finite_values (col : list cell) : list Q :=
  omap (fun c => match c with
                 | CNum x => match value_of x with
                             | FFin q => Some q
                             | _ => None
                             end
                 | _ => None
                 end) col.

(** The exact mean of the finite numbers of the column, NaN if none. *)
Definition series_mean (col : list cell) : option pynum :=
  let qs := finite_values col in
  match qs with
  | [] => Some (PyFloat FNaN)
  | _ => Some (PyFloat (FFin (Qred (Qdiv (fold_right Qplus 0%Q qs)
                                         (inject_Z (Z.of_nat (length qs)))))))
  end.

(** The last fifth of the rows (rounded up) is the test set. *)
Definition train_test_split (X : list (list cell)) (y : list cell)
  : option (list (list cell) * list (list cell) * list cell * list cell) :=
  let n := length y in
  let k := (n - (n + 4) / 5)%nat in
  Some (map (take k) X, map (drop k) X, take k y, drop k y).

(** A fitted regressor is any function from feature rows to numbers. *)
Definition Forest : Type := list pynum -> pynum.

Definition forest_predict (f : Forest) (row : list pynum) : pynum := f row.

(** A regressor that answers with the first feature (the month) of the
    row, as one fitted to yields that follow the month would. *)
Definition month_regressor : Forest := fun row => hd (PyInt 0) row.

Definition rf_fit (m : option Forest) (X : list (list cell)) (y : list cell)
  : fit_outcome Forest :=
  match y with
  | [] => FitRaised m
  | _ => Fitted month_regressor
  end.

Definition evaluate (f : Forest) (X : list (list cell)) (y : list cell)
  : option pynum := Some (PyInt 0).

Definition train_model :=
  YieldPredictor.train_model to_datetime series_mean train_test_split
    Forest rf_fit evaluate.

Definition predict_future_yields :=
  YieldPredictor.predict_future_yields Forest forest_predict.

Definition step :=
  YieldPredictor.step to_datetime series_mean train_test_split
    Forest rf_fit evaluate.

(** Ten monthly harvest rows, as [get_historical_yields] selects them. *)
Definition batch : DataFrame :=
  {| nrows := 10;
     columns :=
       <["ds" := map (fun m => CTime (midnight 2025 m 1))
                     [1; 2; 3; 4; 5; 6; 7; 8; 9; 10]%Z]>
       (<["y" := map (fun v => CNum (PyInt v))
                     [12; 14; 9; 20; 22; 18; 25; 30; 28; 16]%Z]>
       (<["crop_type" := map CStr
            ["corn"; "wheat"; "corn"; "soybeans"; "wheat"; "corn"; "corn";
             "wheat"; "soybeans"; "corn"]]>
       (<["weather_condition" := map CStr
            ["sunny"; "rainy"; "cloudy"; "sunny"; "foggy"; "stormy";
             "partly_cloudy"; "sunny"; "drought"; "rainy"]]>
       (<["soil_quality_score" :=
            [CNum (dec 8 10); CNone; CNum (dec 6 10); CNum (dec 7 10); CNone;
             CNum (dec 9 10); CNum (dec 5 10); CNum (dec 8 10);
             CNum (dec 7 10); CNum (dec 6 10)]]> ∅)))) |}.

(** The same query result cut to its first three rows. *)
Definition short_batch : DataFrame :=
  {| nrows := 3; columns := take 3 <$> columns batch |}.

(** The caller holds [batch] at reference 1 and [short_batch] at 2. *)
Definition heap0 : gmap positive DataFrame :=
  <[1%positive := batch]> (<[2%positive := short_batch]> ∅).

Definition trained : estimator Forest :=
  snd (fst (train_model init 1%positive heap0)).

(** 2026-01-15 10:30 *)
Definition mid_january : datetime :=
  {| toordinal := ymd2ord 2026 1 15; time_of_day := 37800000000 |}.

End Sample.

(* ===================================================================== *)
(** ** Feature preparation, column by column                              *)
(* ===================================================================== *)

Module FeatureSpec.
Import PyNum PyDatetime YieldPredictor.

(** The score a weather condition ends up with: the table's value for
    one of its six keys, 0.5 for anything else. *)
Definition weather_score (c : cell) : pynum :=
  match c with
  | CStr s => default (dec 5 10) (weather_get weather_mapping s)
  | _ => dec 5 10
  end.

(** The columns [prepare_features] reads. *)
Definition input_columns : list string :=
  ["ds"; "crop_type"; "weather_condition"; "soil_quality_score"].

(** The columns [prepare_features] assigns. *)
Definition written_columns : list string :=
  ["ds"; "month"; "crop_type_encoded"; "weather_score"; "soil_quality_score"].

(** [df[name] = col] on the contents of a frame. *)
Definition with_column (name : string) (col : list cell) (d : DataFrame)
  : DataFrame :=
  {| nrows := nrows d; columns := <[name := col]> (columns d) |}.

(** What [prepare_features] does to a frame [d] that is not empty and
    sits at [df] in [h], written out step by step: the result ([None]
    for an exception) and the heap at that point. *)
Definition prepare_outcome
  (to_datetime : list cell -> option (list (option datetime)))
  (series_mean : list cell -> option pynum)
  (df : ref) (d : DataFrame) (h : heap) : option ref * heap :=
  match columns d !! "ds" with
  | None => (None, h)
  | Some ds =>
    match to_datetime ds with
    | None => (None, h)
    | Some ds' =>
      let d2 := with_column "month" (map month_cell (map time_cell ds'))
                  (with_column "ds" (map time_cell ds') d) in
      match columns d !! "crop_type" with
      | None => (None, <[df := d2]> h)
      | Some crop =>
        let d3 := with_column "crop_type_encoded"
                    (map_dict (enumerate_from 0 (unique crop)) crop) d2 in
        match columns d !! "weather_condition" with
        | None => (None, <[df := d3]> h)
        | Some weather =>
          let d4 := with_column "weather_score"
                      (fillna (CNum (dec 5 10)) (map weather_cell weather))
                      d3 in
          match columns d !! "soil_quality_score" with
          | None => (None, <[df := d4]> h)
          | Some soil =>
            match series_mean soil with
            | None => (None, <[df := d4]> h)
            | Some mean =>
                (Some df,
                 <[df := with_column "soil_quality_score"
                           (fillna (CNum mean) soil) d4]> h)
            end
          end
        end
      end
    end
  end.

(** The code each crop of a column of names gets. *)
Definition crop_codes (names : list string) : list cell :=
  map_dict (enumerate_from 0 (unique (map CStr names))) (map CStr names).

End FeatureSpec.

(* ===================================================================== *)
(** ** The forecast panel of the dashboard ([app.py])                     *)
(* ===================================================================== *)

Module Dashboard.
Import PyNum PyDatetime YieldPredictor.

(** What the panel draws: the chart of the rows
    [predict_future_yields(6)] returned, or, from the [except] branch,
    the chart of the built-in sample figures. *)
Inductive panel :=
  | ModelForecast (rows : list forecast)
  | SampleForecast.

Section Panel.

Variable to_datetime : list cell -> option (list (option datetime)).
Variable series_mean : list cell -> option pynum.
Variable train_test_split :
  list (list cell) -> list cell ->
  option (list (list cell) * list (list cell) * list cell * list cell).
Variable Forest : Type.
Variable forest_predict : Forest -> list pynum -> pynum.
Variable rf_fit :
  option Forest -> list (list cell) -> list cell -> fit_outcome Forest.
Variable evaluate : Forest -> list (list cell) -> list cell -> option pynum.

(** The [try] block of the "6-Month Yield Forecast" panel, on the cached
    estimator [self] and the frame [get_historical_yields()] returned,
    at clock reading [now]. The flag [train_model] returns is dropped.
    (Drawing the chart is taken not to raise.) *)
Definition forecast_panel (self : estimator Forest) (historical_data : ref)
  (now : datetime) (h : heap) : panel * estimator Forest * heap :=
  match h !! historical_data with
  | Some d0 =>
      if negb (df_empty d0) then
        let '(_, self', h') :=
          train_model to_datetime series_mean train_test_split Forest
            rf_fit evaluate self historical_data h in
        let predictions :=
          predict_future_yields Forest forest_predict self' now 6 in
        match predictions with
        | [] => (SampleForecast, self', h')
        | _ => (ModelForecast predictions, self', h')
        end
      else (SampleForecast, self, h)
  | None => (SampleForecast, self, h)
  end.

End Panel.

End Dashboard.

(* ===================================================================== *)
(** ** [DatabaseManager]: the alerts [database.py] pushes                 *)
(* ===================================================================== *)

Module DatabaseManager.
Import FirebaseService.

(** [new_alert] of [add_firebase_alert]; [now] is
    [pd.Timestamp.now().isoformat()]. *)
Definition new_alert (alert_type message_ priority_ now : string) : alert :=
  JObj (list_to_map
          [("type", JStr alert_type); ("message", JStr message_);
           ("priority", JStr priority_); ("timestamp", JStr now);
           ("read", JBool false)]).

(** [add_firebase_alert]: a push below the same [alerts/] node. *)
Definition add_firebase_alert (o : outside)
  (alert_type message_ priority_ : string) (fb : firebase)
  : bool * firebase :=
  if db_ok o
  then (true,
        {| alerts := <[push_key o :=
                         new_alert alert_type message_ priority_ (now_iso o)]>
                       (alerts fb);
           notifications := notifications fb |})
  else (false, fb).

(** [get_firebase_alerts]: the children of [alerts/] as they are, [{}]
    when there are none or the request fails. *)
Definition get_firebase_alerts (o : outside) (fb : firebase)
  : gmap string alert :=
  if db_ok o then alerts fb else ∅.

End DatabaseManager.

(* ===================================================================== *)
(** ** Runs of the alert store                                            *)
(* ===================================================================== *)

Module AlertHistory.
Import FirebaseService DatabaseManager.

(** The stores the application brings about when the database gives
    every pushed child a key that is not in use, as its push ids are, and
    the ids handed to [mark_alert_read] and [resolve_alert] are keys, as
    the ids of alerts are. *)
Inductive operated : firebase -> Prop :=
  | op_start : operated empty_store
  | op_create o t m p s fb :
      operated fb -> alerts fb !! push_key o = None ->
      operated (snd (create_alert o t m p s fb))
  | op_add o ty m p fb :
      operated fb -> alerts fb !! push_key o = None ->
      operated (snd (add_firebase_alert o ty m p fb))
  | op_read o i fb :
      operated fb -> is_key i = true ->
      operated (snd (mark_alert_read o i fb))
  | op_resolve o i n fb :
      operated fb -> is_key i = true ->
      operated (snd (resolve_alert o i n fb)).

(** The first segment of the reference [child(alert_id)]: the key of the
    child of [alerts/] that a write to the reference lands in. *)
Definition first_segment (alert_id : string) : option string :=
  match child_path alert_id with
  | Some (k :: _) => Some k
  | _ => None
  end.

(** The notification [(t, m)] is that of a stored high-priority alert. *)
Definition announces (fb : firebase) (n : string * string) : Prop :=
  exists k a, alerts fb !! k = Some a /\
              title a = Some (fst n) /\ message a = Some (snd n) /\
              priority a = Some "high".

(** The entries an alert is created with. *)
Definition creation_entries : list string :=
  ["title"; "message"; "priority"; "source"; "timestamp"].

(** Two alerts with the same creation data. *)
Definition same_content (a b : alert) : Prop :=
  title a = title b /\ message a = message b /\ priority a = priority b /\
  source a = source b /\ timestamp a = timestamp b.

(** A flag that is set stays set. *)
Definition flag_kept (before after : option bool) : Prop :=
  before = Some true -> after = Some true.

(** The alerts a listing selects before it sorts them. *)
Definition selected (unread_only : bool) (limit : Z) (fb : firebase)
  : list (string * alert) :=
  if unread_only
  then limit_to_last (Z.to_nat limit)
         (filter (fun c => is_unread c = true) (children fb))
  else limit_to_last (Z.to_nat limit) (children fb).

(** Newest first. *)
Definition newest_first (l : list (string * alert)) : Prop :=
  StronglySorted
    (fun a b => String.leb (timestamp_of b) (timestamp_of a) = true) l.

End AlertHistory.

(* ===================================================================== *)
(** ** [FirebaseService]: sensor readings and equipment                   *)
(* ===================================================================== *)

Module RealtimeData.
Import PyNum FirebaseService.

(** [{'lat': ..., 'lng': ...}] *)
Record geo := { lat : pynum; lng : pynum }.

Definition default_geo : geo := {| lat := PyInt 0; lng := PyInt 0 |}.

(** A node under [sensors/<sensor_id>/<timestamp>], with the keys
    ['value'], ['unit'], ['timestamp'], ['sensor_type'], ['location']. *)
Record reading := {
  r_value : pynum;
  r_unit : string;
  r_timestamp : string;
  r_sensor_type : string;
  r_location : geo
}.

(** [status_data]: ['status'], ['location'], ['operator'] (absent when
    [None]), ['timestamp']. *)
Record status_data := {
  e_status : string;
  e_location : geo;
  e_operator : option string;
  e_timestamp : string
}.

(** A node under [equipment/<equipment_id>]: its ['current_status'] child
    and the children of ['history']. *)
Record equipment_node := {
  current_status : option status_data;
  history : gmap string status_data
}.

Definition no_equipment : equipment_node :=
  {| current_status := None; history := ∅ |}.

(** The database as this part of the service sees it: the alert store,
    the [sensors] tree and the [equipment] tree. *)
Record realtime := {
  store : firebase;
  sensors : gmap string (gmap string reading);
  equipment : gmap string equipment_node
}.

Definition empty_db : realtime :=
  {| store := empty_store; sensors := ∅; equipment := ∅ |}.

(** A key that names one child of a node: [child(k)] raises on the empty
    path and on a leading "/", and takes any other "/" as a separator of
    several levels. The trees of this module are those of ids of this
    kind. *)
Definition names_child (k : string) : bool :=
  PyStr.truthy k && negb (PyStr.contains "/" k).

(** The reading stored at [sensors/<sensor_id>/<timestamp>]. *)
Definition reading_at (db : realtime) (sensor_id timestamp : string)
  : option reading :=
  sensors db !! sensor_id ≫= (fun readings => readings !! timestamp).

(** The status stored at [equipment/<equipment_id>/current_status]. *)
Definition status_at (db : realtime) (equipment_id : string)
  : option status_data :=
  equipment db !! equipment_id ≫= current_status.

(** The children of [equipment/<equipment_id>/history]. *)
Definition history_at (db : realtime) (equipment_id : string)
  : gmap string status_data :=
  history (default no_equipment (equipment db !! equipment_id)).

(** The children of a node in key order. *)
Definition by_key {A} (m : gmap string A) : list (string * A) :=
  stable_sort (fun y x => String.ltb (fst y) (fst x)) (map_to_list m).

Section Sensors.

Variable str_of_num : pynum -> string.

(** [add_sensor_reading]. [o] is what the outside supplies to the method
    itself (the clock reading and the fate of [ref.set]), [oa] what it
    supplies to the [create_alert] that [_check_sensor_alerts] may make. *)
Definition add_sensor_reading (o oa : outside)
  (sensor_id sensor_type : string) (value : pynum) (unit_ : string)
  (location : option geo) (db : realtime) : bool * realtime :=
  let timestamp := now_iso o in
  let reading_data :=
    {| r_value := value; r_unit := unit_; r_timestamp := timestamp;
       r_sensor_type := sensor_type;
       r_location := default default_geo location |} in
  if db_ok o then
    let sensors1 :=
      <[sensor_id := <[timestamp := reading_data]>
                       (default ∅ (sensors db !! sensor_id))]> (sensors db) in
    (true,
     {| store := _check_sensor_alerts str_of_num oa sensor_id sensor_type
                   value (store db);
        sensors := sensors1;
        equipment := equipment db |})
  else (false, db).

End Sensors.

(** A row of the DataFrame [get_sensor_data] returns.
    [ReadingRow sid ts r] is the copy of the reading [r] with
    ['sensor_id'] set to [sid] and ['timestamp'] set to [ts];
    [LocationRow sid ts g] is the copy of the dict [g] with the same two
    entries added. *)
Inductive sensor_row :=
  | ReadingRow (sensor_id timestamp : string) (r : reading)
  | LocationRow (sensor_id timestamp : string) (g : geo).

(** The two nested loops of [get_sensor_data] over [sensors/]: every
    child of every selected sensor is a reading, a dict. The query sorts
    the sensors by key; the readings of one sensor come in the order of
    the server's answer, taken here to be key order as well. *)
Definition rows_of_sensors (data : list (string * gmap string reading))
  : list sensor_row :=
  flat_map (fun '(sensor_id, readings) =>
              map (fun '(timestamp, reading) =>
                     ReadingRow sensor_id timestamp reading)
                  (by_key readings)) data.

(** The same loops over [sensors/<sensor_type>/]: the outer variable runs
    over the timestamps of that node, the inner one over the entries of
    each reading, of which only ['location'] is a dict. *)
Definition rows_of_readings (data : list (string * reading))
  : list sensor_row :=
  map (fun '(sensor_id, readings) =>
         LocationRow sensor_id "location" (r_location readings)) data.

(** [get_sensor_data]: the rows of the returned DataFrame. *)
Definition get_sensor_data (o : outside) (sensor_type : option string)
  (limit : Z) (db : realtime) : list sensor_row :=
  if negb (db_ok o) then []
  else if (limit <? 0)%Z then []
  else
    let all :=
      rows_of_sensors
        (limit_to_last (Z.to_nat limit) (by_key (sensors db))) in
    match sensor_type with
    | Some t =>
        if PyStr.truthy t
        then rows_of_readings
               (limit_to_last (Z.to_nat limit)
                  (by_key (default ∅ (sensors db !! t))))
        else all
    | None => all
    end.

(** [track_equipment_status]. [o] serves the clock and the [set] of
    [current_status], [oh] the [push] to [history]. *)
Definition track_equipment_status (o oh : outside) (equipment_id : string)
  (status : string) (location : option geo) (operator : option string)
  (db : realtime) : bool * realtime :=
  let data :=
    {| e_status := status; e_location := default default_geo location;
       e_operator := operator; e_timestamp := now_iso o |} in
  if db_ok o then
    let node := default no_equipment (equipment db !! equipment_id) in
    let node1 := {| current_status := Some data; history := history node |} in
    if db_ok oh then
      (true,
       {| store := store db; sensors := sensors db;
          equipment :=
            <[equipment_id :=
                {| current_status := Some data;
                   history := <[push_key oh := data]> (history node) |}]>
              (equipment db) |})
    else
      (false,
       {| store := store db; sensors := sensors db;
          equipment := <[equipment_id := node1]> (equipment db) |})
  else (false, db).

(** What [get_equipment_status] returns: one status (or [None]) when an
    id is given, the list of statuses, each with its ['equipment_id'],
    otherwise. *)
Inductive equipment_result :=
  | OneStatus (s : option status_data)
  | AllStatuses (l : list (string * status_data)).

Definition all_statuses (db : realtime) : list (string * status_data) :=
  omap (fun '(eq_id, eq_data) =>
          (fun s => (eq_id, s)) <$> current_status eq_data)
       (by_key (equipment db)).

(** [get_equipment_status] *)
Definition get_equipment_status (o : outside) (equipment_id : option string)
  (db : realtime) : equipment_result :=
  let all := if db_ok o then AllStatuses (all_statuses db)
             else AllStatuses [] in
  match equipment_id with
  | Some id =>
      if PyStr.truthy id then
        if db_ok o
        then OneStatus (equipment db !! id ≫= current_status)
        else OneStatus None
      else all
  | None => all
  end.

(** The databases this part of the service brings about when the sensor
    and equipment ids it is given, and the timestamps it uses as keys,
    each name one child. *)
Inductive tracked : realtime -> Prop :=
  | tracked_empty : tracked empty_db
  | tracked_reading str o oa sid st v u loc db :
      tracked db ->
      names_child sid = true -> names_child (now_iso o) = true ->
      tracked (snd (add_sensor_reading str o oa sid st v u loc db))
  | tracked_status o oh id s loc op db :
      tracked db ->
      names_child id = true ->
      tracked (snd (track_equipment_status o oh id s loc op db)).

(** The number of readings stored over all sensors. *)
Definition readings_count (db : realtime) : nat :=
  length (rows_of_sensors (by_key (sensors db))).

(** The ['sensor_id'] entry of a row. *)
Definition row_sensor_id (row : sensor_row) : string :=
  match row with
  | ReadingRow sensor_id _ _ | LocationRow sensor_id _ _ => sensor_id
  end.

End RealtimeData.

(* ===================================================================== *)
(** ** [FirebaseService]: real-time listeners                             *)
(* ===================================================================== *)

Module Listeners.

(** A Python dict with string keys, in insertion order. *)
Section Dict.
Context {A : Type}.

Fixpoint dict_get (k : string) (d : list (string * A)) : option A :=
  match d with
  | [] => None
  | (k', v) :: t => if String.eqb k' k then Some v else dict_get k t
  end.

(** [d[k] = v]: an existing key keeps its place. *)
Fixpoint dict_set (k : string) (v : A) (d : list (string * A))
  : list (string * A) :=
  match d with
  | [] => [(k, v)]
  | (k', v') :: t =>
      if String.eqb k' k then (k, v) :: t else (k', v') :: dict_set k v t
  end.

(** [del d[k]] *)
Fixpoint dict_del (k : string) (d : list (string * A)) : list (string * A) :=
  match d with
  | [] => []
  | (k', v') :: t =>
      if String.eqb k' k then t else (k', v') :: dict_del k t
  end.

End Dict.

(** [self.listeners], each registration named by a number, and the
    registrations on which [close()] has been called, in call order. *)
Record listener_state := {
  listeners : list (string * nat);
  close_calls : list nat
}.

(** [start_real_time_listener]: [listen] is what [ref.listen(listener)]
    gives, a new registration or an exception ([None]). *)
Definition start_real_time_listener (listen : option nat) (path : string)
  (st : listener_state) : listener_state :=
  match listen with
  | Some registration =>
      {| listeners := dict_set path registration (listeners st);
         close_calls := close_calls st |}
  | None => st
  end.

(** [stop_real_time_listener]: [closes r] tells whether [close()] of
    registration [r] returns; when it raises, the [del] is not reached. *)
Definition stop_real_time_listener (closes : nat -> bool) (path : string)
  (st : listener_state) : listener_state :=
  match dict_get path (listeners st) with
  | Some registration =>
      if closes registration
      then {| listeners := dict_del path (listeners st);
              close_calls := close_calls st ++ [registration] |}
      else {| listeners := listeners st;
              close_calls := close_calls st ++ [registration] |}
  | None => st
  end.

(** [cleanup]: the loop runs over [list(self.listeners.keys())]. *)
Definition cleanup (closes : nat -> bool) (st : listener_state)
  : listener_state :=
  fold_left (fun s path => stop_real_time_listener closes path s)
            (map fst (listeners st)) st.

(** The states [self.listeners] goes through from the empty dict. *)
Inductive registered : listener_state -> Prop :=
  | reg_init : registered {| listeners := []; close_calls := [] |}
  | reg_start listen path st :
      registered st -> registered (start_real_time_listener listen path st)
  | reg_stop closes path st :
      registered st -> registered (stop_real_time_listener closes path st).

End Listeners.

(* ===================================================================== *)
(** ** [ChartUtils.create_status_badge] ([utils.py])                      *)
(* ===================================================================== *)

Module ChartUtils.
Import PyStr.

Definition dquote : string := String (ascii_of_nat 34) EmptyString.

(** [status_colors]: status, ['bg'], ['color']. *)
Definition status_colors : list (string * (string * string)) :=
  [ ("good", ("#d4edda", "#155724"));
    ("warning", ("#fff3cd", "#856404"));
    ("danger", ("#f8d7da", "#721c24"));
    ("info", ("#d1ecf1", "#0c5460")) ].

Fixpoint colors_get (d : list (string * (string * string))) (k : string)
  : option (string * string) :=
  match d with
  | [] => None
  | (k', v) :: t => if String.eqb k' k then Some v else colors_get t k
  end.

(** [status_colors.get(status.lower(), status_colors['info'])] *)
Definition color_scheme (status : string) : string * string :=
  default ("#d1ecf1", "#0c5460") (colors_get status_colors (lower status)).

(** [create_status_badge]: the f-string, line by line. *)
Definition create_status_badge (status : string) : string :=
  newline ++
  "        <span style=" ++ dquote ++ newline ++
  "            display: inline-block;" ++ newline ++
  "            padding: 0.25rem 0.75rem;" ++ newline ++
  "            border-radius: 15px;" ++ newline ++
  "            font-size: 0.8rem;" ++ newline ++
  "            font-weight: bold;" ++ newline ++
  "            background-color: " ++ fst (color_scheme status) ++ ";" ++
  newline ++
  "            color: " ++ snd (color_scheme status) ++ ";" ++ newline ++
  "        " ++ dquote ++ ">" ++ title status ++ "</span>" ++ newline ++
  "        ".

End ChartUtils.

(* ===================================================================== *)
(** * Properties                                                          *)
(* ===================================================================== *)

(** ** The responder *)

Module FarmChatbotFacts.
Import PyStr FarmChatbot.












Lemma check_items_find (items : list (string * string)) (message : string) :
  check_items items message =
  option_map (fun e => care_tips (fst e) (snd e))
             (find (fun e => key_matches (fst e) message) items).
Proof.
  induction items as [|[k r] rest IH]; simpl; [reflexivity |].
  destruct (key_matches k message); [reflexivity | exact IH].
Qed.

Lemma find_app_first {A} (f : A -> bool) (l1 l2 : list A) :
  find f (l1 ++ l2)%list =
  match find f l1 with Some x => Some x | None => find f l2 end.
Proof.
  induction l1 as [|a l1 IH]; simpl; [reflexivity |].
  destruct (f a); [reflexivity | exact IH].
Qed.

Lemma check_categories_find kb (message : string) :
  check_categories kb message =
  option_map (fun e => care_tips (fst e) (snd e))
             (find (fun e => key_matches (fst e) message)
                   (concat (map snd kb))).
Proof.
  induction kb as [|[c items] rest IH]; simpl; [reflexivity |].
  rewrite find_app_first, check_items_find.
  destruct (find _ items); simpl; [reflexivity | exact IH].
Qed.



(** C4, as stated, fails: the reply to "my corn has aphids" is not the
    aphid advice. *)
Lemma corn_aphids_reply_is_not_aphid_advice :
  fst (get_response None 0 "my corn has aphids" None) <> aphid_advice.
Proof. vm_compute. discriminate. Qed.

(** C4, amended. The message "my corn has aphids" contains both "corn" and
    "aphids"; the lookup stops at "corn", which comes first in the table,
    and the reply is the corn care tips under their heading, with no
    request made to the completion service. *)
Theorem corn_aphids_reply client rnd context_data :
  key_matches "corn" "my corn has aphids" = true /\
  key_matches "aphids" "my corn has aphids" = true /\
  get_response client rnd "my corn has aphids" context_data =
    (("**Corn Care Tips:**" ++ newline ++ newline ++ corn_advice)%string, []).
Proof. repeat split. Qed.

End FarmChatbotFacts.

(** ** Order facts on Python numbers *)

Module PyNumFacts.
Import PyNum.

Lemma Qltb_lt (p q : Q) : Qltb p q = true <-> (p < q)%Q.
Proof.
  unfold Qltb. rewrite Qlt_alt.
  destruct (p ?= q)%Q; split; congruence.
Qed.

Lemma Qltb_ge (p q : Q) : Qltb p q = false <-> (q <= p)%Q.
Proof.
  rewrite <- not_true_iff_false, Qltb_lt. split.
  - apply Qnot_lt_le.
  - intros H1 H2. exact (Qlt_not_le _ _ H2 H1).
Qed.

Ltac float_order :=
  repeat match goal with
    | H : Qltb _ _ = true |- _ => apply Qltb_lt in H
    | H : Qltb _ _ = false |- _ => apply Qltb_ge in H
    | H : Qeq_bool _ _ = true |- _ => apply Qeq_bool_iff in H
    | |- Qltb _ _ = true => apply Qltb_lt
    | |- Qltb _ _ = false => apply Qltb_ge
    end;
  try lra.

Lemma float_lt_asym (a b : pyfloat) :
  float_lt a b = true -> float_lt b a = false.
Proof.
  destruct a, b; simpl; intros H; try reflexivity; try discriminate.
  float_order.
Qed.

Lemma float_lt_trans (a b c : pyfloat) :
  float_lt a b = true -> float_lt b c = true -> float_lt a c = true.
Proof.
  destruct a, b, c; simpl; intros H1 H2;
    try reflexivity; try discriminate.
  float_order.
Qed.

Lemma float_eq_not_lt (a b : pyfloat) :
  float_eq a b = true -> float_lt a b = false /\ float_lt b a = false.
Proof.
  destruct a, b; simpl; intros H; try discriminate;
    split; try reflexivity; float_order.
Qed.

Lemma float_eq_lt_l (a b c : pyfloat) :
  float_eq a b = true -> float_lt a c = float_lt b c.
Proof.
  destruct a, b, c; simpl; intros H; try discriminate; try reflexivity.
  apply Qeq_bool_iff in H. unfold Qltb. now rewrite H.
Qed.

Lemma float_eq_lt_r (a b c : pyfloat) :
  float_eq a b = true -> float_lt c a = float_lt c b.
Proof.
  destruct a, b, c; simpl; intros H; try discriminate; try reflexivity.
  apply Qeq_bool_iff in H. unfold Qltb. now rewrite H.
Qed.

(** Between two bounds [lo < hi], a value equal to either bound is
    neither below [lo] nor above [hi], and a value above [hi] is not
    below [lo]. *)
Lemma at_bound_within (v lo hi : pynum) :
  py_lt lo hi = true ->
  py_eq v lo = true \/ py_eq v hi = true ->
  py_lt v lo = false /\ py_gt v hi = false.
Proof.
  unfold py_gt, py_lt, py_eq. intros Hlh [He | He].
  - split; [apply (float_eq_not_lt _ _ He) |].
    rewrite (float_eq_lt_r _ _ _ He). now apply float_lt_asym.
  - split; [| apply (float_eq_not_lt _ _ He)].
    rewrite (float_eq_lt_l _ _ _ He). now apply float_lt_asym.
Qed.

Lemma above_not_below (v lo hi : pynum) :
  py_lt lo hi = true -> py_gt v hi = true -> py_lt v lo = false.
Proof.
  unfold py_gt, py_lt. intros Hlh Hv.
  destruct (float_lt (value_of v) (value_of lo)) eqn:E; [| reflexivity].
  pose proof (float_lt_trans _ _ _ Hv E) as Hc.
  rewrite (float_lt_asym _ _ Hlh) in Hc. discriminate.
Qed.

(** [max(0, pred)] is never below zero, NaN included. *)
Lemma py_max_zero_nonneg (pred : pynum) :
  py_le (PyInt 0) (py_max (PyInt 0) pred) = true.
Proof.
  unfold py_max, py_gt, py_le.
  destruct (py_lt (PyInt 0) pred) eqn:E.
  - rewrite E. reflexivity.
  - reflexivity.
Qed.

End PyNumFacts.

(** ** The sensor monitor and the alert store *)

Module FirebaseFacts.
Import PyNum PyNumFacts FirebaseService.

(** *** The sensor monitor *)

Lemma thresholds_lookup (sensor_type : string) (lo hi : pynum) :
  In (sensor_type, (lo, hi)) alert_thresholds ->
  lookup_threshold alert_thresholds sensor_type = Some (lo, hi) /\
  py_lt lo hi = true.
Proof.
  simpl. intros [H | [H | [H | [H | []]]]]; inversion H; subst;
    split; reflexivity.
Qed.

Lemma lookup_threshold_In table (sensor_type : string) v :
  lookup_threshold table sensor_type = Some v -> In (sensor_type, v) table.
Proof.
  induction table as [|[k w] rest IH]; simpl; [discriminate |].
  destruct (String.eqb k sensor_type) eqn:E.
  - apply String.eqb_eq in E. intros [= <-]. left. now subst.
  - intros H. right. now apply IH.
Qed.

(** What a new alert holds. *)
Lemma alert_data_fields (t m p : string) s (now : string) :
  title (alert_data t m p s now) = Some t /\
  message (alert_data t m p s now) = Some m /\
  priority (alert_data t m p s now) = Some p /\
  source (alert_data t m p s now) = s /\
  timestamp (alert_data t m p s now) = Some now /\
  read (alert_data t m p s now) = Some false /\
  resolved (alert_data t m p s now) = Some false /\
  resolved_at (alert_data t m p s now) = None /\
  resolution_note (alert_data t m p s now) = None.
Proof. destruct s; vm_compute; repeat split. Qed.

Lemma create_alert_raises_one o (title_ message_ : string) source_ fb :
  db_ok o = true -> alerts fb !! push_key o = None ->
  one_alert_raised fb (snd (create_alert o title_ message_ "high" source_ fb))
                   (push_key o) title_.
Proof.
  intros Hdb Hfresh. unfold create_alert, _send_push_notification.
  rewrite Hdb. cbn [snd String.eqb]. 
  destruct (alert_data_fields title_ message_ "high" source_ (now_iso o))
    as (Ht & _ & Hp & _ & _ & Hr & Hres & _).
  assert (Hone : forall nl,
    one_alert_raised fb
      {| alerts := <[push_key o :=
                       alert_data title_ message_ "high" source_ (now_iso o)]>
                     (alerts fb);
         notifications := nl |} (push_key o) title_).
  { intros nl. split; [exact Hfresh |].
    split; [now apply map_size_insert_None |].
    split; [intros k Hk; now apply lookup_insert_ne |].
    eexists. split; [apply lookup_insert_eq |]. auto. }
  change (String.eqb "high" "high") with true. cbv iota.
  destruct (fcm_ok o); apply Hone.
Qed.

(** C3, as stated, fails on its own example: the alert raised for a soil
    moisture of 19.9 is titled "Low Soil Moisture", not
    "Low soil_moisture". *)
Lemma low_soil_moisture_title :
  let fb' := _check_sensor_alerts (fun _ => "") (working "-Na1" "2026-01-15T10:30:00")
               "probe-7" "soil_moisture" (dec 199 10) empty_store in
  (title <$> alerts fb' !! "-Na1") = Some (Some "Low Soil Moisture") /\
  (title <$> alerts fb' !! "-Na1") <> Some (Some "Low soil_moisture").
Proof. vm_compute. split; [reflexivity | discriminate]. Qed.

(** C3, amended. For a metric of the threshold table with bounds
    [lo, hi]: a value equal to a bound, or any value neither below [lo]
    nor above [hi], leaves the store as it was; a value below [lo] adds
    exactly one high-priority alert titled "Low " followed by the metric's
    display name (underscores turned into spaces, words capitalised), a
    value above [hi] exactly one titled "High " followed by that name,
    provided the database accepts the write under a new key. For a metric
    outside the table the store is left as it was. *)
Theorem sensor_threshold_policy (str_of_num : pynum -> string) o
  (sensor_id sensor_type : string) (value : pynum) fb :
  let fb' := _check_sensor_alerts str_of_num o sensor_id sensor_type value fb in
  (forall lo hi, In (sensor_type, (lo, hi)) alert_thresholds ->
     (py_eq value lo = true \/ py_eq value hi = true -> fb' = fb) /\
     (py_lt value lo = false -> py_gt value hi = false -> fb' = fb) /\
     (py_lt value lo = true ->
      db_ok o = true -> alerts fb !! push_key o = None ->
      one_alert_raised fb fb' (push_key o) ("Low " ++ display_name sensor_type)) /\
     (py_gt value hi = true ->
      db_ok o = true -> alerts fb !! push_key o = None ->
      one_alert_raised fb fb' (push_key o) ("High " ++ display_name sensor_type))) /\
  ((forall lo hi, ~ In (sensor_type, (lo, hi)) alert_thresholds) -> fb' = fb) /\
  map (fun e => display_name (fst e)) alert_thresholds =
    ["Soil Moisture"; "Temperature"; "Humidity"; "Ph Level"].
Proof.
  intros fb'. split; [| split; [| reflexivity]].
  - intros lo hi Hin.
    destruct (thresholds_lookup _ _ _ Hin) as [Hlook Hord].
    subst fb'. unfold _check_sensor_alerts. rewrite Hlook.
    split; [| split; [| split]].
    + intros Hb. destruct (at_bound_within value lo hi Hord Hb) as [-> ->].
      reflexivity.
    + intros -> ->. reflexivity.
    + intros -> Hdb Hfresh. now apply create_alert_raises_one.
    + intros Hgt Hdb Hfresh.
      rewrite (above_not_below value lo hi Hord Hgt), Hgt.
      now apply create_alert_raises_one.
  - intros Hout. subst fb'. unfold _check_sensor_alerts.
    destruct (lookup_threshold alert_thresholds sensor_type) as [[lo hi]|] eqn:E;
      [| reflexivity].
    apply lookup_threshold_In in E. now destruct (Hout lo hi).
Qed.

(** A soil moisture of 19.9 read against an empty store. *)
Lemma sensor_threshold_policy_witness :
  one_alert_raised empty_store
    (_check_sensor_alerts (fun _ => "") (working "-Na1" "2026-01-15T10:30:00")
       "probe-7" "soil_moisture" (dec 199 10) empty_store)
    "-Na1" "Low Soil Moisture".
Proof.
  destruct (sensor_threshold_policy (fun _ => "")
              (working "-Na1" "2026-01-15T10:30:00")
              "probe-7" "soil_moisture" (dec 199 10) empty_store)
    as (Hin & _ & _).
  destruct (Hin (PyInt 20) (PyInt 80)) as (_ & _ & Hlow & _).
  - simpl. left. reflexivity.
  - apply Hlow; reflexivity.
Defined.

(** *** References and writes *)

Lemma is_key_path (k : string) : is_key k = true -> child_path k = Some [k].
Proof.
  unfold is_key. destruct (child_path k) as [[|k' [|k'' rest]]|];
    try discriminate.
  intros E. apply String.eqb_eq in E. now subst.
Qed.

Lemma push_key_path o : child_path (push_key o) = Some [push_key o].
Proof. apply is_key_path, Is_true_true, push_key_is_key. Qed.

Lemma get_at_None (path : list string) : get_at path None = None.
Proof. induction path as [|s r IH]; simpl; [reflexivity | exact IH]. Qed.

(** A node below which something is read is an object. *)
Lemma get_at_object (path : list string) n v :
  get_at path n = Some (JObj v) -> exists m, n = Some (JObj m).
Proof.
  destruct path as [|s r]; simpl; [eauto |].
  destruct n as [[b | t | m]|]; simpl; try (rewrite lookup_empty, get_at_None;
    discriminate).
  eauto.
Qed.

(** What is read back at the reference a write went to. *)
Lemma get_at_patch (path : list string) fields : forall m,
  get_at path (Some (JObj (patch path fields m))) =
  Some (JObj (fields ∪ fields_of (get_at path (Some (JObj m))))).
Proof.
  induction path as [|s r IH]; intros m; simpl; [reflexivity |].
  rewrite lookup_insert_eq, IH. do 3 f_equal.
  destruct r as [|s' r']; simpl; [reflexivity |].
  destruct (m !! s) as [[b | t | ms]|]; reflexivity.
Qed.

Lemma patch_twice (path : list string) fields : forall m,
  patch path fields (patch path fields m) = patch path fields m.
Proof.
  induction path as [|s r IH]; intros m; simpl.
  - rewrite (assoc_L (∪)), (idemp_L (∪)). reflexivity.
  - rewrite lookup_insert_eq. simpl. rewrite IH. apply insert_insert_eq.
Qed.

(** A second write of the same flags at [path] changes the flags read at
    no reference that does not lead below [path]. *)
Lemma flags_after_rewrite (fields : gmap string json) (path : list string) :
  forall (m : gmap string json) old (q : list string),
  get_at path (Some (JObj m)) = Some (JObj old) ->
  flags_of (Some (JObj (fields ∪ old))) = flags_of (Some (JObj old)) ->
  (forall s r, q <> path ++ s :: r) ->
  flags_of (get_at q (Some (JObj (patch path fields m)))) =
  flags_of (get_at q (Some (JObj m))).
Proof.
  induction path as [|s r IH]; intros m old q Hold Hsame Hq.
  - simpl in Hold. injection Hold as <-.
    destruct q as [|s' q']; [exact Hsame |].
    now destruct (Hq s' q').
  - simpl in Hold. destruct (get_at_object _ _ _ Hold) as [ms Hms].
    rewrite Hms in Hold. simpl. rewrite Hms. simpl.
    destruct q as [|s' q'].
    + simpl. unfold flags_of, read, resolved, flag, field. simpl.
      f_equal. f_equal.
      * destruct (decide (s = "read")) as [-> | Hne].
        -- now rewrite lookup_insert_eq, Hms.
        -- now rewrite lookup_insert_ne.
      * destruct (decide (s = "resolved")) as [-> | Hne].
        -- now rewrite lookup_insert_eq, Hms.
        -- now rewrite lookup_insert_ne.
    + simpl. destruct (decide (s = s')) as [<- | Hne].
      * rewrite lookup_insert_eq, Hms.
        apply (IH ms old q' Hold Hsame).
        intros s2 r2 ->. now destruct (Hq s2 r2).
      * now rewrite lookup_insert_ne.
Qed.

(** *** The alert store *)

Lemma create_alert_stored o (t m p : string) s fb alert_id fb' :
  create_alert o t m p s fb = (Some alert_id, fb') ->
  alert_id = push_key o /\
  alerts fb' = <[alert_id := alert_data t m p s (now_iso o)]> (alerts fb).
Proof.
  unfold create_alert, _send_push_notification.
  destruct (db_ok o); [| discriminate].
  destruct (String.eqb p "high"), (fcm_ok o); intros [= <- <-]; auto.
Qed.

Lemma mark_alert_read_done o (alert_id : string) fb fb' :
  mark_alert_read o alert_id fb = (true, fb') ->
  exists path, child_path alert_id = Some path /\
               fb' = update path read_fields fb.
Proof.
  unfold mark_alert_read. destruct (child_path alert_id) as [path|];
    [| discriminate].
  destruct (db_ok o); [| discriminate]. intros [= <-]. eauto.
Qed.

Lemma resolve_alert_done o (alert_id : string) note fb fb' :
  resolve_alert o alert_id note fb = (true, fb') ->
  exists path, child_path alert_id = Some path /\
               fb' = update path (resolved_fields (now_iso o) note) fb.
Proof.
  unfold resolve_alert. destruct (child_path alert_id) as [path|];
    [| discriminate].
  destruct (db_ok o); [| discriminate]. intros [= <-]. eauto.
Qed.

Lemma resolved_fields_flags (now : string) note :
  resolved_fields now note !! "read" = Some (JBool true) /\
  resolved_fields now note !! "resolved" = Some (JBool true).
Proof.
  unfold resolved_fields. destruct note as [n|]; [destruct (PyStr.truthy n) |];
    split; reflexivity.
Qed.

(** The flags read from an object into which [fields] were written. *)
Lemma flags_of_written (fields old : gmap string json) (r s : bool) :
  fields !! "read" = Some (JBool r) ->
  fields !! "resolved" = Some (JBool s) ->
  flags_of (Some (JObj (fields ∪ old))) = Some (Some r, Some s).
Proof.
  intros Hr Hs. unfold flags_of, read, resolved, flag, field. simpl.
  now rewrite (lookup_union_Some_l _ _ _ _ Hr), (lookup_union_Some_l _ _ _ _ Hs).
Qed.

Lemma flags_stored fb (alert_id : string) path :
  child_path alert_id = Some path ->
  flags fb alert_id = flags_of (get_at path (Some (JObj (alerts fb)))).
Proof. intros Hp. unfold flags, stored. now rewrite Hp. Qed.

Lemma below_spec (p : list string) : forall q,
  below p q = false -> forall s r, q <> p ++ s :: r.
Proof.
  induction p as [|a p IH]; intros q Hb s r ->; simpl in Hb;
    [discriminate |].
  rewrite String.eqb_refl in Hb. simpl in Hb. exact (IH _ Hb s r eq_refl).
Qed.

(** C7. The alert stored under the id that [create_alert] returns is
    unread and unresolved; a [resolve_alert] that goes through leaves the
    alert resolved and read; once [mark_alert_read] has gone through for
    an id, a second call for that id, whether it goes through or not,
    leaves the whole store as it was; and once [resolve_alert] has gone
    through for an id, a second call for it leaves the read and resolved
    flags as they were, those of this alert and those read under any
    other id that does not point inside it. *)
Theorem alert_flags_lifecycle :
  (forall o (t m p : string) s fb alert_id fb',
     create_alert o t m p s fb = (Some alert_id, fb') ->
     flags fb' alert_id = Some (Some false, Some false)) /\
  (forall o (alert_id : string) note fb fb',
     resolve_alert o alert_id note fb = (true, fb') ->
     flags fb' alert_id = Some (Some true, Some true)) /\
  (forall o o' (alert_id : string) fb fb',
     mark_alert_read o alert_id fb = (true, fb') ->
     snd (mark_alert_read o' alert_id fb') = fb') /\
  (forall o o' (alert_id : string) note note' fb fb',
     resolve_alert o alert_id note fb = (true, fb') ->
     forall k, inside k alert_id = false ->
       flags (snd (resolve_alert o' alert_id note' fb')) k = flags fb' k).
Proof.
  repeat split.
  - intros o t m p s fb alert_id fb' H.
    destruct (create_alert_stored _ _ _ _ _ _ _ _ H) as [-> Hs].
    rewrite (flags_stored _ _ _ (push_key_path o)). simpl.
    rewrite Hs, lookup_insert_eq.
    destruct (alert_data_fields t m p s (now_iso o))
      as (_ & _ & _ & _ & _ & Hr & Hres & _).
    unfold flags_of, fmap, option_fmap, option_map.
    now rewrite Hr, Hres.
  - intros o alert_id note fb fb' H.
    destruct (resolve_alert_done _ _ _ _ _ H) as (path & Hp & ->).
    rewrite (flags_stored _ _ _ Hp). unfold update. simpl.
    rewrite get_at_patch.
    destruct (resolved_fields_flags (now_iso o) note) as [Hr Hs].
    now apply flags_of_written.
  - intros o o' alert_id fb fb' H.
    destruct (mark_alert_read_done _ _ _ _ H) as (path & Hp & ->).
    unfold mark_alert_read. rewrite Hp.
    destruct (db_ok o'); simpl; [| reflexivity].
    unfold update. simpl. now rewrite patch_twice.
  - intros o o' alert_id note note' fb fb' H k Hk.
    destruct (resolve_alert_done _ _ _ _ _ H) as (path & Hp & ->).
    unfold resolve_alert. rewrite Hp.
    destruct (db_ok o'); simpl; [| reflexivity].
    unfold flags, stored, inside in *. rewrite Hp in Hk.
    destruct (child_path k) as [q|]; [| reflexivity].
    unfold update. simpl.
    destruct (resolved_fields_flags (now_iso o) note) as [Hr Hs].
    destruct (resolved_fields_flags (now_iso o') note') as [Hr' Hs'].
    eapply flags_after_rewrite.
    + apply get_at_patch.
    + rewrite (flags_of_written _ _ _ _ Hr' Hs').
      now rewrite (flags_of_written _ _ _ _ Hr Hs).
    + now apply below_spec.
Qed.

(** An alert is created, resolved, and resolved again in an empty store. *)
Lemma alert_flags_lifecycle_witness :
  let o1 := working "-Na1" "2026-01-15T10:30:00" in
  let o2 := working "-Na2" "2026-01-15T11:00:00" in
  let fb1 := snd (create_alert o1 "Low Soil Moisture" "dry" "high" None empty_store) in
  let fb2 := snd (resolve_alert o2 "-Na1" (Some "irrigated") fb1) in
  flags fb1 "-Na1" = Some (Some false, Some false) /\
  flags fb2 "-Na1" = Some (Some true, Some true) /\
  snd (mark_alert_read o2 "-Na1" (snd (mark_alert_read o1 "-Na1" fb1))) =
    snd (mark_alert_read o1 "-Na1" fb1) /\
  flags (snd (resolve_alert o1 "-Na1" None fb2)) "-Na1" = flags fb2 "-Na1".
Proof.
  intros o1 o2 fb1 fb2.
  destruct alert_flags_lifecycle as (Hcreate & Hresolve & Hread & Hagain).
  split; [| split; [| split]].
  - apply (Hcreate o1 "Low Soil Moisture" "dry" "high" None empty_store).
    reflexivity.
  - apply (Hresolve o2 "-Na1" (Some "irrigated") fb1). reflexivity.
  - apply (Hread o1 o2 "-Na1" fb1). reflexivity.
  - apply (Hagain o2 o1 "-Na1" (Some "irrigated") None fb1); reflexivity.
Defined.

(** Why the last part of C7 stops at the alert: what [resolve_alert]
    writes as the note replaces whatever was stored at that place, flags
    included. *)
Lemma second_resolve_replaces_note :
  let o := working "-Na1" "2026-01-15T10:30:00" in
  let fb1 := snd (mark_alert_read o "-Na1/resolution_note" empty_store) in
  let fb2 := snd (resolve_alert o "-Na1" None fb1) in
  let fb3 := snd (resolve_alert o "-Na1" (Some "irrigated") fb2) in
  flags fb2 "-Na1/resolution_note" = Some (Some true, None) /\
  flags fb3 "-Na1/resolution_note" = Some (None, None) /\
  flags fb3 "-Na1" = flags fb2 "-Na1".
Proof. vm_compute. repeat split. Qed.

(** *** Listing unread alerts *)

Lemma insert_sorted_perm {A} (f : A -> A -> bool) (x : A) (l : list A) :
  insert_sorted f x l ≡ₚ x :: l.
Proof.
  induction l as [|y l IH]; simpl; [reflexivity |].
  destruct (f y x); [| reflexivity].
  rewrite IH. apply perm_swap.
Qed.

Lemma stable_sort_perm {A} (f : A -> A -> bool) (l : list A) :
  stable_sort f l ≡ₚ l.
Proof.
  induction l as [|x l IH]; simpl; [reflexivity |].
  rewrite insert_sorted_perm. now apply perm_skip.
Qed.

Lemma children_perm fb : children fb ≡ₚ map_to_list (alerts fb).
Proof. apply stable_sort_perm. Qed.

Lemma limit_to_last_all {A} (n : nat) (l : list A) :
  length l <= n -> limit_to_last n l = l.
Proof.
  intros H. unfold limit_to_last.
  replace (length l - n) with 0 by lia. reflexivity.
Qed.

Lemma limit_to_last_subseteq {A} (n : nat) (l : list A) :
  limit_to_last n l ⊆ l.
Proof. apply subseteq_drop. Qed.

(** Whatever [get_alerts] lists under [unread_only] is stored under its id
    with [read] false. *)
Lemma get_alerts_unread_sound o (limit : Z) fb (k : string) a :
  (k, a) ∈ get_alerts o true limit fb ->
  alerts fb !! k = Some a /\ read a = Some false.
Proof.
  unfold get_alerts.
  destruct (negb (db_ok o)); [intros H; inversion H |].
  destruct (limit <? 0)%Z; [intros H; inversion H |].
  set (found := limit_to_last _ _).
  assert (Hfound : forall c, c ∈ found ->
            alerts fb !! fst c = Some (snd c) /\ read (snd c) = Some false).
  { intros c Hc. apply limit_to_last_subseteq in Hc.
    apply list_elem_of_filter in Hc as [Hu Hc].
    rewrite children_perm in Hc. apply elem_of_map_to_list' in Hc.
    split; [exact Hc |]. unfold is_unread in Hu.
    destruct (read (snd c)) as [[|]|]; congruence. }
  destruct found as [|c0 rest] eqn:E; [intros H; inversion H |].
  destruct (forallb has_timestamp (c0 :: rest) &&
            sortable (omap sort_key (c0 :: rest)));
    [| intros H; inversion H].
  rewrite stable_sort_perm. intros H. exact (Hfound (k, a) H).
Qed.

Lemma unread_count_insert (k : string) a (m : gmap string alert) :
  length (filter (fun c => is_unread c = true) (map_to_list (<[k := a]> m)))
  <= S (length (filter (fun c => is_unread c = true) (map_to_list m))).
Proof.
  assert (Hfresh : forall m' : gmap string alert, m' !! k = None ->
            length (filter (fun c => is_unread c = true)
                           (map_to_list (<[k := a]> m')))
            <= S (length (filter (fun c => is_unread c = true)
                                 (map_to_list m')))).
  { intros m' Hn. rewrite (map_to_list_insert m' k a Hn), filter_cons.
    destruct (decide (is_unread (k, a) = true)); simpl; lia. }
  destruct (m !! k) as [x|] eqn:E; [| now apply Hfresh].
  rewrite <- insert_delete_eq.
  etransitivity; [apply Hfresh, lookup_delete_eq |].
  rewrite <- (map_to_list_delete m k x E), filter_cons.
  destruct (decide (is_unread (k, x) = true)); simpl; lia.
Qed.

Lemma timestamp_sort_key (c : string * alert) (ts : string) :
  timestamp (snd c) = Some ts -> sort_key c = Some (JStr ts).
Proof.
  unfold timestamp, text, sort_key.
  destruct (field "timestamp" (snd c)) as [[b | s | m]|]; congruence.
Qed.

Lemma all_str_sortable (keys : list json) :
  forallb is_str keys = true -> sortable keys = true.
Proof.
  intros H. destruct keys as [|a [|b t]]; [reflexivity.. |].
  unfold sortable. now rewrite H.
Qed.

(** Alerts that all carry a timestamp string can be sorted. *)
Lemma timestamps_sort (l : list (string * alert)) :
  Forall (fun c => is_Some (timestamp (snd c))) l ->
  forallb has_timestamp l && sortable (omap sort_key l) = true.
Proof.
  intros Hall.
  assert (H : forallb has_timestamp l = true /\
              forallb is_str (omap sort_key l) = true).
  { induction Hall as [|c l [ts Hc] _ [IH1 IH2]]; [split; reflexivity |].
    simpl. unfold has_timestamp. rewrite (timestamp_sort_key c ts Hc).
    simpl. auto. }
  destruct H as [-> H]. simpl. now apply all_str_sortable.
Qed.

(** An unread alert with a timestamp string, put under a key of a store
    whose unread alerts all carry one, is listed under [unread_only] when
    the limit leaves room for it. *)
Lemma put_unread_is_listed fb fb1 (k : string) (a : alert) ol (limit : Z) :
  alerts fb1 = <[k := a]> (alerts fb) ->
  read a = Some false -> is_Some (timestamp a) ->
  timestamped fb ->
  db_ok ol = true -> (Z.of_nat (unread_count fb) < limit)%Z ->
  (k, a) ∈ get_alerts ol true limit fb1.
Proof.
  intros Hs Hr Hts Hstamped Hdb Hlim.
  assert (Hts1 : timestamped fb1).
  { unfold timestamped. rewrite Hs.
    apply map_Forall_insert_2; [intros _; exact Hts | exact Hstamped]. }
  unfold get_alerts. rewrite Hdb. simpl.
  destruct (limit <? 0)%Z eqn:El; [lia |].
  set (unread := filter (fun c => is_unread c = true) (children fb1)).
  assert (Hlen : length unread <= Z.to_nat limit).
  { unfold unread. rewrite children_perm, Hs.
    etransitivity; [apply unread_count_insert |].
    unfold unread_count in Hlim. lia. }
  rewrite (limit_to_last_all _ _ Hlen).
  assert (Hin : (k, a) ∈ unread).
  { apply list_elem_of_filter. split; [unfold is_unread; simpl; now rewrite Hr |].
    rewrite children_perm. apply elem_of_map_to_list.
    rewrite Hs. apply lookup_insert_eq. }
  assert (Hall : Forall (fun c => is_Some (timestamp (snd c))) unread).
  { apply Forall_forall. intros c Hc.
    apply list_elem_of_filter in Hc as [Hu Hc].
    rewrite children_perm in Hc. apply elem_of_map_to_list' in Hc.
    assert (Hrc : read (snd c) = Some false).
    { unfold is_unread in Hu. destruct (read (snd c)) as [[|]|]; congruence. }
    exact (Hts1 _ _ Hc Hrc). }
  destruct unread as [|c0 rest] eqn:Eu; [inversion Hin |].
  rewrite (timestamps_sort _ Hall), stable_sort_perm. exact Hin.
Qed.

(** After [mark_alert_read] has gone through for a key, no listing under
    [unread_only] contains that key. *)
Lemma marked_key_not_listed om (k : string) fb fb2 ol (limit : Z) a :
  is_key k = true ->
  mark_alert_read om k fb = (true, fb2) ->
  (k, a) ∉ get_alerts ol true limit fb2.
Proof.
  intros Hk Hmark Hin.
  apply get_alerts_unread_sound in Hin as [Hlook Hread].
  destruct (mark_alert_read_done _ _ _ _ Hmark) as (path & Hp & ->).
  rewrite (is_key_path k Hk) in Hp. injection Hp as <-.
  unfold update in Hlook. simpl in Hlook.
  rewrite lookup_insert_eq in Hlook. injection Hlook as <-.
  unfold read, flag, field in Hread. simpl in Hread.
  rewrite (lookup_union_Some_l read_fields _ "read" (JBool true)) in Hread
    by reflexivity.
  discriminate Hread.
Qed.



Lemma empty_store_timestamped : timestamped empty_store.
Proof. apply map_Forall_empty. Qed.

Lemma create_alert_timestamped o (t m p : string) s fb :
  timestamped fb -> timestamped (snd (create_alert o t m p s fb)).
Proof.
  intros H. unfold create_alert, _send_push_notification.
  destruct (db_ok o); [| exact H].
  destruct (alert_data_fields t m p s (now_iso o))
    as (_ & _ & _ & _ & Hts & _).
  assert (Hnew : forall nl, timestamped
            {| alerts := <[push_key o := alert_data t m p s (now_iso o)]>
                           (alerts fb);
               notifications := nl |}).
  { intros nl. apply map_Forall_insert_2; [intros _; eauto | exact H]. }
  destruct (String.eqb p "high"), (fcm_ok o); apply Hnew.
Qed.


End FirebaseFacts.

(** ** The yield estimator *)

Module YieldPredictorFacts.
Import PyNum PyNumFacts PyDatetime YieldPredictor.

(** *** Heap effects of feature preparation *)

Lemma touches_ret {A} df (Q : A -> Prop) (a : A) :
  Q a -> touches df Q (mret a).
Proof.
  intros HQ h d Hd r h' [= <- <-]. repeat split; eauto.
  intros ? [= <-]. exact HQ.
Qed.

Lemma touches_read {A} df (m : M A) :
  (forall h, snd (m h) = h) -> touches df (fun _ => True) m.
Proof.
  intros Hm h d Hd r h' E. specialize (Hm h). rewrite E in Hm.
  simpl in Hm. subst h'. repeat split; eauto.
Qed.

Lemma touches_bind {A B} df (Q : B -> Prop) (m : M A) (k : A -> M B) :
  touches df (fun _ => True) m -> (forall a, touches df Q (k a)) ->
  touches df Q (m ≫= k).
Proof.
  intros Hm Hk h d Hd r h' E.
  unfold mbind, M_bind, bind in E.
  destruct (m h) as [[a|] h1] eqn:Em.
  - destruct (Hm h d Hd _ _ Em) as (F1 & (d1 & Hd1 & Hn1) & _).
    destruct (Hk a h1 d1 Hd1 _ _ E) as (F2 & (d2 & Hd2 & Hn2) & HQ).
    split; [| split; [| exact HQ]].
    + intros l Hl Hs. rewrite <- (F1 l Hl Hs). apply F2; [exact Hl |].
      now rewrite (F1 l Hl Hs).
    + exists d2. split; [exact Hd2 | congruence].
  - injection E as <- <-.
    destruct (Hm h d Hd _ _ Em) as (F1 & Hrows & _).
    split; [exact F1 | split; [exact Hrows | discriminate]].
Qed.

Lemma touches_lift {A} df (o : option A) : touches df (fun _ => True) (lift o).
Proof. apply touches_read. reflexivity. Qed.

Lemma touches_get_column df (name : string) :
  touches df (fun _ => True) (get_column df name).
Proof.
  apply touches_read. intros h.
  unfold get_column, mbind, M_bind, bind, load, lift.
  destruct (h !! df); reflexivity.
Qed.

Lemma touches_set_column df (name : string) col :
  touches df (fun _ => True) (set_column df name col).
Proof.
  intros h d Hd r h' E. unfold set_column in E. rewrite Hd in E.
  injection E as <- <-. split; [| split; [| trivial]].
  - intros l Hl _. now apply lookup_insert_ne.
  - eexists. split; [apply lookup_insert_eq | reflexivity].
Qed.

Create HintDb touches.
#[local] Hint Resolve touches_lift touches_get_column touches_set_column
  : touches.

Ltac touches_steps :=
  repeat first
    [ apply touches_bind; [solve [auto with touches] | intros ?]
    | apply touches_ret ].

Lemma bind_load {B} (l : positive) (k : DataFrame -> M B)
  (h : gmap positive DataFrame) :
  (load l ≫= k) h = match h !! l with Some d => k d h | None => (None, h) end.
Proof. reflexivity. Qed.

Section Estimator.

Variable to_datetime : list cell -> option (list (option datetime)).
Variable series_mean : list cell -> option pynum.
Variable train_test_split :
  list (list cell) -> list cell ->
  option (list (list cell) * list (list cell) * list cell * list cell).
Variable Forest : Type.
Variable forest_predict : Forest -> list pynum -> pynum.
Variable rf_fit :
  option Forest -> list (list cell) -> list cell -> fit_outcome Forest.
Variable evaluate : Forest -> list (list cell) -> list cell -> option pynum.

Local Abbreviation prepare_features :=
  (YieldPredictor.prepare_features to_datetime series_mean).
Local Abbreviation fit_on :=
  (YieldPredictor.fit_on train_test_split Forest rf_fit evaluate).
Local Abbreviation train_model :=
  (YieldPredictor.train_model to_datetime series_mean train_test_split
     Forest rf_fit evaluate).
Local Abbreviation predict_future_yields :=
  (YieldPredictor.predict_future_yields Forest forest_predict).
Local Abbreviation step :=
  (YieldPredictor.step to_datetime series_mean train_test_split
     Forest rf_fit evaluate).
Local Abbreviation run :=
  (YieldPredictor.run to_datetime series_mean train_test_split
     Forest rf_fit evaluate).
Local Abbreviation worlds_before :=
  (YieldPredictor.worlds_before to_datetime series_mean train_test_split
     Forest rf_fit evaluate).

(** On a frame that is not empty, [prepare_features] works in place: it
    returns the reference it was given, keeps the number of rows, and
    leaves every other object alone, also when it raises half-way. *)
Lemma prepare_features_in_place df (h : gmap positive DataFrame) d r h' :
  h !! df = Some d -> df_empty d = false ->
  prepare_features df h = (r, h') ->
  (forall l, l <> df -> is_Some (h !! l) -> h' !! l = h !! l) /\
  (exists d', h' !! df = Some d' /\ nrows d' = nrows d) /\
  (forall a, r = Some a -> a = df).
Proof.
  intros Hd He E. unfold YieldPredictor.prepare_features in E.
  rewrite bind_load, Hd, He in E.
  revert E. generalize r h'. generalize d Hd. generalize h.
  change (touches df (fun a => a = df)
    (ds ← get_column df "ds";
     ds' ← lift (to_datetime ds);
     set_column df "ds" (map time_cell ds');;
     ds0 ← get_column df "ds";
     set_column df "month" (map month_cell ds0);;
     crop ← get_column df "crop_type";
     crop0 ← get_column df "crop_type";
     set_column df "crop_type_encoded"
       (map_dict (enumerate_from 0 (unique crop)) crop0);;
     weather ← get_column df "weather_condition";
     set_column df "weather_score"
       (fillna (CNum (dec 5 10)) (map weather_cell weather));;
     soil ← get_column df "soil_quality_score";
     soil' ← get_column df "soil_quality_score";
     mean ← lift (series_mean soil');
     set_column df "soil_quality_score" (fillna (CNum mean) soil);;
     mret df)).
  touches_steps. reflexivity.
Qed.

Lemma fit_on_flag self d ok self' :
  fit_on self d = (ok, self') ->
  (is_trained self = true -> is_trained self' = true) /\
  (ok = false -> is_trained self' = is_trained self) /\
  (ok = true -> is_trained self' = true /\ is_Some (model self')).
Proof.
  unfold YieldPredictor.fit_on.
  destruct (mapM _ feature_columns) as [X|];
    [| intros [= <- <-]; repeat split; auto; discriminate].
  destruct (columns d !! "y") as [y|];
    [| intros [= <- <-]; repeat split; auto; discriminate].
  destruct (train_test_split _ _) as [[[[Xa Xb] ya] yb]|];
    [| intros [= <- <-]; repeat split; auto; discriminate].
  destruct (rf_fit _ _ _) as [f | left_];
    [| intros [= <- <-]; repeat split; auto; discriminate].
  destruct (evaluate _ _ _); intros [= <- <-]; simpl;
    repeat split; eauto; discriminate.
Qed.

(** What one call of [train_model] does to the heap, to the flag and to
    the estimator. *)
Lemma train_model_effect self hd (h : gmap positive DataFrame) ok self' h' :
  train_model self hd h = (ok, self', h') ->
  (forall l, is_Some (h !! l) -> h' !! l = h !! l) /\
  (is_trained self = true -> is_trained self' = true) /\
  (ok = false -> is_trained self' = is_trained self) /\
  (ok = true ->
   is_trained self' = true /\ is_Some (model self') /\
   exists d0, h !! hd = Some d0 /\ df_empty d0 = false /\ 10 <= nrows d0) /\
  (forall d0, h !! hd = Some d0 -> df_empty d0 = true \/ nrows d0 < 10 ->
   ok = false /\ self' = self).
Proof.
  unfold YieldPredictor.train_model, load.
  destruct (h !! hd) as [d0|] eqn:Hd;
    [| intros [= <- <- <-]; repeat split; auto; discriminate].
  destruct (df_empty d0) eqn:He;
    [intros [= <- <- <-]; repeat split; auto; discriminate |].
  set (c := fresh (dom h)). set (h1 := <[c := d0]> h).
  assert (Hcopy : copy hd h = (Some c, h1)).
  { unfold copy. rewrite bind_load, Hd. reflexivity. }
  unfold mbind, M_bind, bind. rewrite Hcopy.
  assert (Hc : h1 !! c = Some d0) by apply lookup_insert_eq.
  assert (Hold : forall l, is_Some (h !! l) -> l <> c /\ h1 !! l = h !! l).
  { intros l Hl. assert (l <> c).
    { intros ->. apply elem_of_dom in Hl. exact (is_fresh (dom h) Hl). }
    split; [assumption |]. unfold h1. now rewrite lookup_insert_ne. }
  destruct (prepare_features c h1) as [r h2] eqn:Ep.
  destruct (prepare_features_in_place c h1 d0 r h2 Hc He Ep)
    as (Fr & (d' & Hd' & Hrows) & Hret).
  assert (Hframe : forall l, is_Some (h !! l) -> h2 !! l = h !! l).
  { intros l Hl. destruct (Hold l Hl) as [Hne Hl1].
    rewrite <- Hl1. apply Fr; [exact Hne | now rewrite Hl1]. }
  assert (Hsmall : forall d1, Some d0 = Some d1 ->
            df_empty d1 = true \/ nrows d1 < 10 -> nrows d' < 10).
  { intros d1 [= <-] [Hem | Hlt]; [congruence | lia]. }
  destruct r as [df|]; [| intros [= <- <- <-]; repeat split; auto; discriminate].
  rewrite (Hret df eq_refl), Hd'.
  destruct (df_empty d' || (nrows d' <? 10)%nat) eqn:Eg;
    [intros [= <- <- <-]; repeat split; auto; discriminate |].
  apply orb_false_elim in Eg as [_ Eg]. apply Nat.ltb_ge in Eg.
  destruct (fit_on self d') as [ok1 self1] eqn:Ef. intros [= <- <- <-].
  destruct (fit_on_flag _ _ _ _ Ef) as (Hkeep & Hfail & Hok).
  split; [exact Hframe |]. split; [exact Hkeep |]. split; [exact Hfail |].
  split.
  - intros Hk. destruct (Hok Hk) as [Ht Hm]. repeat split; auto.
    exists d0. repeat split; auto. lia.
  - intros d1 H1 H2. specialize (Hsmall d1 H1 H2). lia.
Qed.

(** C2. A batch that is empty or has fewer than 10 rows (feature
    preparation keeps the number of rows) makes [train_model] return
    [False], with the estimator as it was; an untrained estimator stays
    untrained. *)
Theorem fit_rejects_small_batch self hd (h : gmap positive DataFrame) d0 :
  h !! hd = Some d0 ->
  df_empty d0 = true \/ nrows d0 < 10 ->
  fst (fst (train_model self hd h)) = false /\
  snd (fst (train_model self hd h)) = self /\
  (is_trained self = false ->
   is_trained (snd (fst (train_model self hd h))) = false).
Proof.
  intros Hd Hsmall.
  destruct (train_model self hd h) as [[ok self'] h'] eqn:E. simpl.
  destruct (train_model_effect _ _ _ _ _ _ E) as (_ & _ & _ & _ & Hrej).
  destruct (Hrej d0 Hd Hsmall) as [-> ->]. auto.
Qed.

(** C9. [train_model] leaves the caller's batch, and every other object
    that existed before the call, exactly as it was, whatever the call
    returns. *)
Theorem fit_leaves_batch_unchanged self hd (h : gmap positive DataFrame) :
  (forall d0, h !! hd = Some d0 ->
     snd (train_model self hd h) !! hd = Some d0) /\
  (forall l, is_Some (h !! l) -> snd (train_model self hd h) !! l = h !! l).
Proof.
  destruct (train_model self hd h) as [[ok self'] h'] eqn:E. simpl.
  destruct (train_model_effect _ _ _ _ _ _ E) as (Hframe & _).
  split; [| exact Hframe].
  intros d0 Hd. rewrite <- Hd. apply Hframe. now rewrite Hd.
Qed.

Lemma step_keeps_trained w c :
  is_trained (est w) = true -> is_trained (est (step w c)) = true.
Proof.
  destruct c as [b | now n]; simpl; [| trivial].
  destruct (train_model (est w) b (objects w)) as [[ok self'] h'] eqn:E.
  simpl. now destruct (train_model_effect _ _ _ _ _ _ E) as (_ & Hkeep & _).
Qed.

Lemma worlds_stay_trained cs : forall w,
  is_trained (est w) = true ->
  is_trained (est (run w cs)) = true /\
  Forall (fun w' => is_trained (est w') = true) (worlds_before w cs).
Proof.
  induction cs as [|c cs IH]; intros w Hw; simpl.
  - split; [exact Hw | constructor].
  - destruct (IH (step w c) (step_keeps_trained w c Hw)) as [Hrun Hall].
    split; [exact Hrun | now constructor].
Qed.

(** C10. A trained estimator stays trained: whatever [train_model]
    returns it leaves [is_trained] true, [predict_future_yields] changes
    nothing, so every sequence of calls from a trained estimator ends
    trained with every call starting trained; in particular every call
    that follows a successful [train_model] starts from a trained
    estimator. *)
Theorem trained_is_permanent :
  (forall self b (h : gmap positive DataFrame),
     is_trained self = true ->
     is_trained (snd (fst (train_model self b h))) = true) /\
  (forall w now n, step w (Predict now n) = w) /\
  (forall w cs,
     is_trained (est w) = true ->
     is_trained (est (run w cs)) = true /\
     Forall (fun w' => is_trained (est w') = true) (worlds_before w cs)) /\
  (forall w b cs,
     fst (fst (train_model (est w) b (objects w))) = true ->
     Forall (fun w' => is_trained (est w') = true)
            (worlds_before (step w (Fit b)) cs)).
Proof.
  split; [| split; [| split]].
  - intros self b h Ht.
    destruct (train_model self b h) as [[ok self'] h'] eqn:E. simpl.
    destruct (train_model_effect _ _ _ _ _ _ E) as (_ & Hkeep & _).
    exact (Hkeep Ht).
  - reflexivity.
  - intros w cs Hw. now apply worlds_stay_trained.
  - intros w b cs Hok. apply worlds_stay_trained. simpl.
    destruct (train_model (est w) b (objects w)) as [[ok self'] h'] eqn:E.
    simpl in *. subst ok.
    destruct (train_model_effect _ _ _ _ _ _ E) as (_ & _ & _ & Ht & _).
    destruct (Ht eq_refl) as [Htrained _]. exact Htrained.
Qed.

(** *** Forecasts *)

Lemma mapM_pointwise {A B} (f : A -> option B) (g : A -> B) (l : list A) :
  (forall x, x ∈ l -> f x = Some (g x)) -> mapM f l = Some (g <$> l).
Proof.
  induction l as [|x l IH]; intros Hf; [reflexivity |].
  cbn. rewrite (Hf x) by apply list_elem_of_here. cbn.
  rewrite IH; [reflexivity |].
  intros y Hy. apply Hf. now apply list_elem_of_further.
Qed.

Lemma map_after_fmap {A B C} (g : B -> C) (f : A -> B) (l : list A) :
  map g (f <$> l) = (fun x => g (f x)) <$> l.
Proof. induction l as [|x l IH]; cbn; [reflexivity | now rewrite IH]. Qed.

Lemma add_days_in_range (now : datetime) (k : Z) :
  (1 <= toordinal now)%Z -> (0 <= k)%Z ->
  (toordinal now + 30 * k <= MAXORDINAL)%Z ->
  add_days now (30 * k) = Some (date_at now k).
Proof.
  intros H1 H2 H3. unfold add_days, date_at.
  unfold MAXORDINAL, MAX_DELTA_DAYS in *.
  destruct (Z.abs (30 * k) >? 999999999)%Z eqn:E1; [lia |].
  destruct ((0 <? toordinal now + 30 * k)
            && (toordinal now + 30 * k <=? 3652059))%Z eqn:E2;
    [reflexivity | lia].
Qed.

Lemma add_days_overflow (now : datetime) (k : Z) :
  (toordinal now + k > MAXORDINAL)%Z -> add_days now k = None.
Proof.
  intros H. unfold add_days. unfold MAXORDINAL in *.
  destruct (Z.abs k >? MAX_DELTA_DAYS)%Z; [reflexivity |].
  destruct ((0 <? toordinal now + k)
            && (toordinal now + k <=? 3652059))%Z eqn:E2;
    [lia | reflexivity].
Qed.

Lemma future_dates_in_range (now : datetime) (n : Z) :
  (1 <= toordinal now)%Z -> (toordinal now + 30 * n <= MAXORDINAL)%Z ->
  future_dates now n = Some (date_at now <$> range1 n).
Proof.
  intros H1 H2. unfold future_dates. apply mapM_pointwise.
  intros k Hk. apply elem_of_seqZ in Hk.
  apply add_days_in_range; lia.
Qed.

(** A horizon that runs past 9999-12-31 leaves no list of dates. *)
Lemma future_dates_overflow (now : datetime) (n : Z) :
  (1 <= n)%Z -> (toordinal now + 30 * n > MAXORDINAL)%Z ->
  future_dates now n = None.
Proof.
  intros H1 H2. unfold future_dates.
  destruct (mapM _ (range1 n)) as [dates|] eqn:E; [| reflexivity].
  assert (Hs : is_Some (mapM (fun i => add_days now (30 * i)) (range1 n)))
    by (rewrite E; eauto).
  apply mapM_is_Some in Hs. rewrite Forall_forall in Hs.
  assert (Hn : n ∈ range1 n) by (apply elem_of_seqZ; lia).
  specialize (Hs n Hn). simpl in Hs.
  rewrite (add_days_overflow now (30 * n) H2) in Hs.
  now destruct Hs.
Qed.

(** The rows a trained, fitted estimator returns when every period is
    within the calendar. *)
Lemma predict_rows self f (now : datetime) (n : Z) :
  is_trained self = true -> model self = Some f ->
  (1 <= toordinal now)%Z -> (toordinal now + 30 * n <= MAXORDINAL)%Z ->
  predict_future_yields self now n =
  (fun k => {| date := date_at now k;
               predicted_yield :=
                 py_max (PyInt 0)
                   (forest_predict f
                      [PyInt (month (date_at now k)); PyInt 0;
                       dec 7 10; dec 75 100]);
               confidence := dec 8 10 |}) <$> range1 n.
Proof.
  intros Ht Hm H1 H2. unfold YieldPredictor.predict_future_yields.
  rewrite Ht, Hm, (future_dates_in_range now n H1 H2). simpl.
  destruct (range1 n) as [|k ks]; [reflexivity |].
  exact (map_after_fmap
           (fun d => {| date := d;
                        predicted_yield :=
                          py_max (PyInt 0) (forest_predict f (features_for d));
                        confidence := dec 8 10 |})
           (date_at now) (k :: ks)).
Qed.

(** C1, amended. After a [train_model] that returned [True] (so on a
    batch of at least 10 rows), [predict_future_yields(n)] for [n >= 1]
    whose last period, call time + 30*n days, is not after 9999-12-31
    returns exactly [n] rows; row [k] (from 1, in order) is dated call
    time + 30*k days, its predicted yield is not below 0 and its
    confidence is 0.8. When the last period is after 9999-12-31 the
    result is empty. *)
Theorem forecast_after_fit self hd (h : gmap positive DataFrame) self' h'
  (now : datetime) (n : Z) :
  train_model self hd h = (true, self', h') ->
  (1 <= n)%Z -> valid now ->
  (exists d0, h !! hd = Some d0 /\ 10 <= nrows d0) /\
  ((toordinal now + 30 * n <= MAXORDINAL)%Z ->
   length (predict_future_yields self' now n) = Z.to_nat n /\
   forall k, (1 <= k <= n)%Z ->
     exists p, predict_future_yields self' now n !! Z.to_nat (k - 1) = Some p /\
               date p = date_at now k /\
               py_le (PyInt 0) (predicted_yield p) = true /\
               confidence p = dec 8 10) /\
  ((toordinal now + 30 * n > MAXORDINAL)%Z ->
   predict_future_yields self' now n = []).
Proof.
  intros Hfit Hn [[Hlo _] _].
  destruct (train_model_effect _ _ _ _ _ _ Hfit) as (_ & _ & _ & Hok & _).
  destruct (Hok eq_refl) as (Ht & [f Hm] & d0 & Hd & _ & Hrows).
  split; [exists d0; auto |]. split.
  - intros Hhi. rewrite (predict_rows self' f now n Ht Hm Hlo Hhi). split.
    + rewrite length_fmap. apply length_seqZ.
    + intros k Hk. eexists. split.
      * rewrite list_lookup_fmap. unfold range1.
        rewrite lookup_seqZ_lt by lia.
        replace (1 + Z.of_nat (Z.to_nat (k - 1)))%Z with k by lia.
        reflexivity.
      * simpl. split; [reflexivity |].
        split; [apply py_max_zero_nonneg | reflexivity].
  - intros Hover. unfold YieldPredictor.predict_future_yields.
    rewrite Ht, (future_dates_overflow now n Hn Hover). reflexivity.
Qed.

(** C6, amended. A trained, fitted estimator builds the feature row of
    period [k] from the calendar month of that period's own date (call
    time + 30*k days), crop index 0, weather score 0.7 and soil score
    0.75, and forecasts the forest's answer on that row, floored at 0. *)
Theorem forecast_features self f (now : datetime) (n : Z) :
  is_trained self = true -> model self = Some f ->
  valid now -> (toordinal now + 30 * n <= MAXORDINAL)%Z ->
  predict_future_yields self now n =
  (fun k => {| date := date_at now k;
               predicted_yield :=
                 py_max (PyInt 0)
                   (forest_predict f
                      [PyInt (month (date_at now k)); PyInt 0;
                       dec 7 10; dec 75 100]);
               confidence := dec 8 10 |}) <$> range1 n.
Proof.
  intros Ht Hm [[Hlo _] _] Hhi. now apply predict_rows.
Qed.

End Estimator.

(** *** The sample batch *)

(** Called on the caller's own object, [prepare_features] does change it:
    the month column appears in the batch itself. [train_model] is safe
    only because it prepares a copy. *)
Lemma prepare_features_changes_its_argument :
  (Sample.heap0 !! 1%positive) ≫= (fun d => columns d !! "month") = None /\
  is_Some ((snd (prepare_features Sample.to_datetime Sample.series_mean
                   1%positive Sample.heap0) !! 1%positive)
           ≫= (fun d => columns d !! "month")).
Proof. split; [reflexivity | vm_compute; eauto]. Qed.

(** The three-row batch is rejected and the new estimator stays as it
    was. *)
Lemma fit_rejects_small_batch_witness :
  Sample.heap0 !! 2%positive = Some Sample.short_batch /\
  nrows Sample.short_batch < 10 /\
  fst (fst (Sample.train_model init 2%positive Sample.heap0)) = false /\
  snd (fst (Sample.train_model init 2%positive Sample.heap0)) = init.
Proof.
  split; [reflexivity |]. split; [simpl; lia |].
  destruct (fit_rejects_small_batch Sample.to_datetime Sample.series_mean
              Sample.train_test_split Sample.Forest Sample.rf_fit
              Sample.evaluate init 2%positive Sample.heap0 Sample.short_batch)
    as (Hflag & Hsame & _).
  - reflexivity.
  - right. simpl. lia.
  - split; [exact Hflag | exact Hsame].
Defined.

(** Training on the ten-row batch succeeds and the batch is as before. *)
Lemma fit_leaves_batch_unchanged_witness :
  fst (fst (Sample.train_model init 1%positive Sample.heap0)) = true /\
  snd (Sample.train_model init 1%positive Sample.heap0) !! 1%positive =
    Some Sample.batch.
Proof.
  split; [vm_compute; reflexivity |].
  destruct (fit_leaves_batch_unchanged Sample.to_datetime Sample.series_mean
              Sample.train_test_split Sample.Forest Sample.rf_fit
              Sample.evaluate init 1%positive Sample.heap0) as [Hbatch _].
  apply Hbatch. reflexivity.
Defined.

(** After the successful fit, a rejected fit and two forecasts all start
    from a trained estimator. *)
Lemma trained_is_permanent_witness :
  let w := {| est := init; objects := Sample.heap0 |} in
  fst (fst (Sample.train_model (est w) 1%positive (objects w))) = true /\
  Forall (fun w' => is_trained (est w') = true)
    (worlds_before Sample.to_datetime Sample.series_mean
       Sample.train_test_split Sample.Forest Sample.rf_fit Sample.evaluate
       (Sample.step w (Fit 1%positive))
       [Predict Sample.mid_january 6; Fit 2%positive;
        Predict Sample.mid_january 6]).
Proof.
  intros w.
  assert (Hok : fst (fst (Sample.train_model (est w) 1%positive (objects w)))
                = true) by (vm_compute; reflexivity).
  split; [exact Hok |].
  destruct (trained_is_permanent Sample.to_datetime Sample.series_mean
              Sample.train_test_split Sample.Forest Sample.rf_fit
              Sample.evaluate) as (_ & _ & _ & Hafter).
  apply Hafter. exact Hok.
Defined.

(** Three periods forecast from 2026-01-15 after training on the sample
    batch. *)
Lemma forecast_after_fit_witness :
  length (Sample.predict_future_yields Sample.trained Sample.mid_january 3) = 3 /\
  exists p,
    Sample.predict_future_yields Sample.trained Sample.mid_january 3 !! 2
      = Some p /\
    date p = date_at Sample.mid_january 3 /\
    py_le (PyInt 0) (predicted_yield p) = true /\
    confidence p = dec 8 10.
Proof.
  destruct (forecast_after_fit Sample.to_datetime Sample.series_mean
              Sample.train_test_split Sample.Forest Sample.forest_predict
              Sample.rf_fit Sample.evaluate
              init 1%positive Sample.heap0 Sample.trained
              (snd (Sample.train_model init 1%positive Sample.heap0))
              Sample.mid_january 3)
    as (_ & Hin & _).
  - vm_compute. reflexivity.
  - lia.
  - unfold valid. vm_compute. repeat split; discriminate.
  - destruct Hin as [Hlen Hrows]; [vm_compute; discriminate |].
    split; [exact Hlen |]. apply (Hrows 3%Z). lia.
Defined.

(** The same three periods, row by row. *)
Lemma forecast_features_witness :
  Sample.predict_future_yields Sample.trained Sample.mid_january 3 =
  (fun k => {| date := date_at Sample.mid_january k;
               predicted_yield :=
                 py_max (PyInt 0)
                   (Sample.month_regressor
                      [PyInt (month (date_at Sample.mid_january k)); PyInt 0;
                       dec 7 10; dec 75 100]);
               confidence := dec 8 10 |}) <$> range1 3.
Proof.
  apply (forecast_features Sample.Forest Sample.forest_predict
           Sample.trained Sample.month_regressor Sample.mid_january 3).
  - vm_compute. reflexivity.
  - vm_compute. reflexivity.
  - unfold valid. vm_compute. repeat split; discriminate.
  - vm_compute. discriminate.
Defined.

(** C1, as stated, fails for a long horizon: after the successful fit on
    the sample batch, [predict_future_yields(100000)] called on
    2026-01-15 returns no row at all, since its later periods fall after
    9999-12-31. *)
Lemma far_horizon_forecast_is_empty :
  fst (fst (Sample.train_model init 1%positive Sample.heap0)) = true /\
  10 <= nrows Sample.batch /\
  Sample.predict_future_yields Sample.trained Sample.mid_january 100000 = [] /\
  Z.of_nat (length (Sample.predict_future_yields Sample.trained
                      Sample.mid_january 100000)) <> 100000%Z.
Proof.
  assert (Hempty : Sample.predict_future_yields Sample.trained
                     Sample.mid_january 100000 = []).
  { unfold Sample.predict_future_yields, predict_future_yields.
    rewrite future_dates_overflow; [| lia | vm_compute; reflexivity].
    now destruct (negb _). }
  split; [vm_compute; reflexivity |]. split; [simpl; lia |].
  split; [exact Hempty |]. rewrite Hempty. discriminate.
Qed.

(** C6, as stated, fails: called on 2026-01-15, the row built for the
    first period carries month 2, the month of 2026-02-14, not month 1;
    with a forest that answers with the month feature the forecast is 2
    where the specification's wording gives 1. *)
Lemma first_period_uses_its_own_month :
  month Sample.mid_january = 1%Z /\
  features_for (date_at Sample.mid_january 1) =
    [PyInt 2; PyInt 0; dec 7 10; dec 75 100] /\
  features_for (date_at Sample.mid_january 1) <>
    spec_features_for Sample.mid_january /\
  map predicted_yield
    (Sample.predict_future_yields Sample.trained Sample.mid_january 1)
    = [PyInt 2] /\
  map predicted_yield
    (spec_forecast Sample.Forest Sample.forest_predict
       Sample.month_regressor Sample.mid_january 1)
    = [PyInt 1].
Proof.
  split; [reflexivity |]. split; [reflexivity |].
  split; [vm_compute; discriminate |].
  split; vm_compute; reflexivity.
Qed.

End YieldPredictorFacts.

(* ===================================================================== *)
(** * Further properties                                                  *)
(* ===================================================================== *)

(** ** Replies of the responder *)

Module ChatbotReplyFacts.
Import PyStr FarmChatbot FarmChatbotFacts.

Lemma care_tips_truthy (key response : string) :
  truthy (care_tips key response) = true.
Proof. reflexivity. Qed.

Lemma local_reply_truthy (message r : string) :
  _check_knowledge_base message = Some r -> truthy r = true.
Proof.
  unfold _check_knowledge_base. rewrite check_categories_find.
  destruct (find _ _) as [e|]; simpl; [| discriminate].
  intros [= <-]. apply care_tips_truthy.
Qed.

Lemma fallback_is_canned (rnd : nat) (message : string) :
  In (_get_fallback_response rnd message) fallback_responses.
Proof.
  unfold _get_fallback_response.
  pose proof (Nat.mod_upper_bound rnd 3 ltac:(lia)) as Hlt.
  destruct (rnd mod 3) as [|[|[|k]]]; simpl; auto. lia.
Qed.

(** X1. A message in which the knowledge base finds a keyword is answered
    from the knowledge base and no request goes out. Otherwise, without a
    client the reply is one of the three canned responses and no request
    goes out; with a client exactly one request goes out, carrying the
    system prompt and the message as typed (not lowercased), and the reply
    is the completion's content, or one of the three canned responses
    when the request fails. *)
Theorem get_response_paths (client : option completion_client) (rnd : nat)
  (user_message : string) (context_data : option string) :
  (forall r, _check_knowledge_base (lower user_message) = Some r ->
     get_response client rnd user_message context_data = (r, [])) /\
  (_check_knowledge_base (lower user_message) = None ->
   match client with
   | None =>
       snd (get_response None rnd user_message context_data) = [] /\
       In (fst (get_response None rnd user_message context_data))
          fallback_responses
   | Some c =>
       snd (get_response (Some c) rnd user_message context_data) =
         [CompletionRequest (system_context context_data) user_message] /\
       match c (system_context context_data) user_message with
       | Some content =>
           fst (get_response (Some c) rnd user_message context_data) = content
       | None =>
           In (fst (get_response (Some c) rnd user_message context_data))
              fallback_responses
       end
   end).
Proof.
  split.
  - intros r Hr. unfold get_response. rewrite Hr.
    now rewrite (local_reply_truthy _ _ Hr).
  - intros Hnone. unfold get_response. rewrite Hnone.
    destruct client as [c|].
    + unfold _get_ai_response.
      destruct (c (system_context context_data) user_message);
        (split; [reflexivity |]);
        [reflexivity | apply fallback_is_canned].
    + split; [reflexivity | apply fallback_is_canned].
Qed.

(** "hello there" names no keyword: answered by a client, and by none. *)
Lemma get_response_paths_witness :
  let c : completion_client := fun _ _ => Some "Water early in the morning." in
  snd (get_response (Some c) 0 "Hello there" None) =
    [CompletionRequest (system_context None) "Hello there"] /\
  fst (get_response (Some c) 0 "Hello there" None) =
    "Water early in the morning." /\
  In (fst (get_response None 4 "Hello there" None)) fallback_responses.
Proof.
  intros c.
  destruct (get_response_paths (Some c) 0 "Hello there" None) as [_ Hc].
  destruct (get_response_paths None 4 "Hello there" None) as [_ Hn].
  specialize (Hc eq_refl). specialize (Hn eq_refl).
  destruct Hc as [Hev Hreply]. destruct Hn as [_ Hin].
  split; [exact Hev |]. split; [exact Hreply | exact Hin].
Defined.

End ChatbotReplyFacts.

(** ** The estimator's flag and its forecasts *)

Module EstimatorFacts.
Import PyNum PyNumFacts PyDatetime YieldPredictor YieldPredictorFacts.

Lemma add_days_date (now : datetime) (k : Z) d :
  add_days now (30 * k) = Some d -> d = date_at now k.
Proof.
  unfold add_days, date_at.
  destruct (Z.abs (30 * k) >? MAX_DELTA_DAYS)%Z; [discriminate |].
  destruct ((0 <? toordinal now + 30 * k)
            && (toordinal now + 30 * k <=? MAXORDINAL))%Z;
    [| discriminate].
  now intros [= <-].
Qed.

Lemma future_dates_are_steps (now : datetime) (n : Z) dates :
  future_dates now n = Some dates -> dates = date_at now <$> range1 n.
Proof.
  unfold future_dates. intros H. apply mapM_Some in H.
  induction H as [|k d ks ds Hk _ IH]; [reflexivity |].
  cbn. rewrite (add_days_date _ _ _ Hk), IH. reflexivity.
Qed.

Section Estimator.

Variable to_datetime : list cell -> option (list (option datetime)).
Variable series_mean : list cell -> option pynum.
Variable train_test_split :
  list (list cell) -> list cell ->
  option (list (list cell) * list (list cell) * list cell * list cell).
Variable Forest : Type.
Variable forest_predict : Forest -> list pynum -> pynum.
Variable rf_fit :
  option Forest -> list (list cell) -> list cell -> fit_outcome Forest.
Variable evaluate : Forest -> list (list cell) -> list cell -> option pynum.

Local Abbreviation train_model :=
  (YieldPredictor.train_model to_datetime series_mean train_test_split
     Forest rf_fit evaluate).
Local Abbreviation predict_future_yields :=
  (YieldPredictor.predict_future_yields Forest forest_predict).

(** X2. After any call of [train_model] the estimator is trained exactly
    when it was trained before or the call returned [True]; and a call
    that returned [True] leaves a fitted model. *)
Theorem train_flag_tracks_state self hd (h : gmap positive DataFrame) :
  is_trained (snd (fst (train_model self hd h))) =
    is_trained self || fst (fst (train_model self hd h)) /\
  (fst (fst (train_model self hd h)) = true ->
   is_Some (model (snd (fst (train_model self hd h))))).
Proof.
  destruct (train_model self hd h) as [[ok self'] h'] eqn:E. simpl.
  destruct (train_model_effect _ _ _ _ _ _ _ _ _ _ _ _ E)
    as (_ & _ & Hfail & Hok & _).
  destruct ok.
  - destruct (Hok eq_refl) as (Ht & Hm & _).
    split; [now rewrite Ht, orb_true_r | now intros _].
  - split; [now rewrite (Hfail eq_refl), orb_false_r | discriminate].
Qed.

(** Either no row, or the row of every period from 1 to [n]. *)
Lemma predict_all_or_nothing self (now : datetime) (n : Z) :
  predict_future_yields self now n = [] \/
  exists f, is_trained self = true /\ model self = Some f /\ (1 <= n)%Z /\
    predict_future_yields self now n =
    (fun k => {| date := date_at now k;
                 predicted_yield :=
                   py_max (PyInt 0)
                     (forest_predict f (features_for (date_at now k)));
                 confidence := dec 8 10 |}) <$> range1 n.
Proof.
  unfold YieldPredictor.predict_future_yields.
  destruct (is_trained self) eqn:Ht; simpl; [| now left].
  destruct (future_dates now n) as [dates|] eqn:Ed; [| now left].
  apply future_dates_are_steps in Ed. subst dates.
  destruct (range1 n) as [|k ks] eqn:Er; [now left |].
  destruct (model self) as [f|] eqn:Em; [| now left].
  right. exists f. repeat split; auto.
  - destruct (Z.le_gt_cases 1 n) as [Hn | Hn]; [exact Hn |].
    unfold range1 in Er. assert (Hl : length (seqZ 1 n) = 0%nat)
      by (rewrite length_seqZ; lia).
    rewrite Er in Hl. discriminate.
  - exact (map_after_fmap
             (fun d => {| date := d;
                          predicted_yield :=
                            py_max (PyInt 0) (forest_predict f (features_for d));
                          confidence := dec 8 10 |})
             (date_at now) (k :: ks)).
Qed.

(** The row at position [i] of a forecast computed with the model [f]. *)
Lemma forecast_row f (now : datetime) (n : Z) (i : nat) p :
  ((fun k => {| date := date_at now k;
                predicted_yield :=
                  py_max (PyInt 0)
                    (forest_predict f (features_for (date_at now k)));
                confidence := dec 8 10 |}) <$> range1 n) !! i = Some p ->
  date p = date_at now (1 + Z.of_nat i) /\
  py_le (PyInt 0) (predicted_yield p) = true /\
  confidence p = dec 8 10.
Proof.
  intros Hp. rewrite list_lookup_fmap in Hp.
  destruct (range1 n !! i) as [k|] eqn:Ek; [| discriminate].
  injection Hp as <-. unfold range1 in Ek.
  apply lookup_seqZ in Ek as [-> _]. simpl.
  split; [reflexivity |]. split; [apply py_max_zero_nonneg | reflexivity].
Qed.

(** X3. [predict_future_yields(n)] never returns part of a forecast: the
    result has no row or exactly [n] rows, whatever the estimator, the
    clock and [n]. It has none when the estimator is not trained, holds
    no fitted model, or [n < 1]. Every row it does return is dated call
    time + 30*k days for its position [k], has a predicted yield that is
    not below 0 and confidence 0.8. *)
Theorem forecast_all_or_nothing self (now : datetime) (n : Z) :
  (length (predict_future_yields self now n) = 0%nat \/
   length (predict_future_yields self now n) = Z.to_nat n) /\
  (is_trained self = false \/ model self = None \/ (n < 1)%Z ->
   predict_future_yields self now n = []) /\
  (forall i p, predict_future_yields self now n !! i = Some p ->
     date p = date_at now (1 + Z.of_nat i) /\
     py_le (PyInt 0) (predicted_yield p) = true /\
     confidence p = dec 8 10).
Proof.
  destruct (predict_all_or_nothing self now n)
    as [Hnil | (f & Ht & Hm & Hn & Hrows)].
  - rewrite Hnil. split; [now left |]. split; [reflexivity |].
    intros i p Hp. now rewrite lookup_nil in Hp.
  - rewrite Hrows. split; [| split].
    + right. rewrite length_fmap. apply length_seqZ.
    + intros [Hu | [Hu | Hu]]; [congruence | congruence | lia].
    + intros i p Hp. exact (forecast_row f now n i p Hp).
Qed.

End Estimator.

(** A first fit on the ten-row batch. *)
Lemma train_flag_tracks_state_witness :
  is_trained (snd (fst (Sample.train_model init 1%positive Sample.heap0)))
    = true /\
  is_Some (model Sample.trained).
Proof.
  destruct (train_flag_tracks_state Sample.to_datetime Sample.series_mean
              Sample.train_test_split Sample.Forest Sample.rf_fit
              Sample.evaluate init 1%positive Sample.heap0)
    as [Hflag Hmodel].
  split.
  - unfold Sample.train_model. rewrite Hflag. reflexivity.
  - apply Hmodel. vm_compute. reflexivity.
Defined.

(** A forecast of three rows, and none from a new estimator. *)
Lemma forecast_all_or_nothing_witness :
  Sample.predict_future_yields init Sample.mid_january 3 = [] /\
  exists p, Sample.predict_future_yields Sample.trained Sample.mid_january 3
              !! 1%nat = Some p /\
            date p = date_at Sample.mid_january 2.
Proof.
  destruct (forecast_all_or_nothing Sample.Forest Sample.forest_predict
              init Sample.mid_january 3) as (_ & Hnone & _).
  destruct (forecast_all_or_nothing Sample.Forest Sample.forest_predict
              Sample.trained Sample.mid_january 3) as (_ & _ & Hrow).
  split; [apply Hnone; left; reflexivity |].
  eexists. split; [vm_compute; reflexivity |].
  refine (proj1 (Hrow 1%nat _ _)). vm_compute. reflexivity.
Defined.

End EstimatorFacts.

(** ** The forecast panel *)

Module DashboardFacts.
Import PyNum PyNumFacts PyDatetime YieldPredictor YieldPredictorFacts.
Import EstimatorFacts Dashboard.

Section Panel.

Variable to_datetime : list cell -> option (list (option datetime)).
Variable series_mean : list cell -> option pynum.
Variable train_test_split :
  list (list cell) -> list cell ->
  option (list (list cell) * list (list cell) * list cell * list cell).
Variable Forest : Type.
Variable forest_predict : Forest -> list pynum -> pynum.
Variable rf_fit :
  option Forest -> list (list cell) -> list cell -> fit_outcome Forest.
Variable evaluate : Forest -> list (list cell) -> list cell -> option pynum.

Local Abbreviation train_model :=
  (YieldPredictor.train_model to_datetime series_mean train_test_split
     Forest rf_fit evaluate).
Local Abbreviation predict_future_yields :=
  (YieldPredictor.predict_future_yields Forest forest_predict).
Local Abbreviation forecast_panel :=
  (Dashboard.forecast_panel to_datetime series_mean train_test_split
     Forest forest_predict rf_fit evaluate).

(** X4. When the panel draws the model's forecast, that forecast has
    exactly six rows, dated 30, 60, ..., 180 days after the call, with
    yields not below 0, and the cached estimator is trained. An empty
    query result gives the sample chart and changes neither the
    estimator nor the heap. For an estimator that was not trained yet, a
    training that returns [False] gives the sample chart as well and
    leaves the estimator untrained. Whatever the panel draws, every
    DataFrame that existed before the call is as it was. *)
Theorem panel_outcomes self hd (now : datetime)
  (h : gmap positive DataFrame) :
  (forall rows,
     fst (fst (forecast_panel self hd now h)) = ModelForecast rows ->
     length rows = 6%nat /\
     is_trained (snd (fst (forecast_panel self hd now h))) = true /\
     forall i p, rows !! i = Some p ->
       date p = date_at now (1 + Z.of_nat i) /\
       py_le (PyInt 0) (predicted_yield p) = true /\
       confidence p = dec 8 10) /\
  (forall d0, h !! hd = Some d0 -> df_empty d0 = true ->
     forecast_panel self hd now h = (SampleForecast, self, h)) /\
  (is_trained self = false ->
   fst (fst (train_model self hd h)) = false ->
   fst (fst (forecast_panel self hd now h)) = SampleForecast /\
   is_trained (snd (fst (forecast_panel self hd now h))) = false) /\
  (forall l, is_Some (h !! l) ->
     snd (forecast_panel self hd now h) !! l = h !! l).
Proof.
  unfold Dashboard.forecast_panel.
  destruct (h !! hd) as [d0|] eqn:Hd; simpl;
    [| repeat split; try discriminate; auto].
  destruct (df_empty d0) eqn:He; simpl.
  { repeat split; try discriminate; auto. }
  destruct (train_model self hd h) as [[ok self'] h'] eqn:E. simpl.
  destruct (train_model_effect _ _ _ _ _ _ _ _ _ _ _ _ E)
    as (Hframes & _ & Hfail & _).
  assert (Hheap : forall l, is_Some (h !! l) ->
            snd (match predict_future_yields self' now 6 with
                 | [] => (SampleForecast, self', h')
                 | _ :: _ =>
                     (ModelForecast (predict_future_yields self' now 6),
                      self', h')
                 end) !! l = h !! l).
  { intros l Hl. destruct (predict_future_yields self' now 6);
      simpl; now apply Hframes. }
  destruct (predict_future_yields self' now 6) as [|p0 rest] eqn:Ep; simpl.
  { split; [discriminate |]. split; [intros d1 [= <-]; congruence |].
    split; [| exact Hheap].
    intros Hu Hok. subst ok. split; [reflexivity |].
    now rewrite (Hfail eq_refl). }
  destruct (predict_all_or_nothing Forest forest_predict self' now 6)
    as [Hnil | (f & Ht & _ & _ & Hrows)];
    [rewrite Ep in Hnil; discriminate |].
  rewrite Ep in Hrows.
  split; [| split; [| split]].
  - intros rows [= <-]. split; [| split].
    + rewrite Hrows, length_fmap. apply length_seqZ.
    + exact Ht.
    + intros i p Hp. rewrite Hrows in Hp.
      exact (forecast_row Forest forest_predict f now 6 i p Hp).
  - intros d1 [= <-]. congruence.
  - intros Hu Hok. subst ok. rewrite (Hfail eq_refl) in Ht. congruence.
  - exact Hheap.
Qed.

(** X5. The panel ignores the flag of [train_model]: with an estimator
    that is already trained and fitted, a query result of fewer than 10
    rows (training returns [False]) still gets the model's forecast
    drawn, six rows from the model fitted earlier, and the estimator is
    left as it was. *)
Theorem panel_keeps_earlier_model self f hd (now : datetime)
  (h : gmap positive DataFrame) d0 :
  is_trained self = true -> model self = Some f ->
  h !! hd = Some d0 -> df_empty d0 = false -> nrows d0 < 10 ->
  valid now -> (toordinal now + 180 <= MAXORDINAL)%Z ->
  fst (fst (train_model self hd h)) = false /\
  fst (fst (forecast_panel self hd now h)) =
    ModelForecast (predict_future_yields self now 6) /\
  snd (fst (forecast_panel self hd now h)) = self /\
  length (predict_future_yields self now 6) = 6%nat.
Proof.
  intros Ht Hm Hd He Hrows [[Hlo _] _] Hhi.
  unfold Dashboard.forecast_panel. rewrite Hd, He. simpl.
  destruct (train_model self hd h) as [[ok self'] h'] eqn:E. simpl.
  destruct (train_model_effect _ _ _ _ _ _ _ _ _ _ _ _ E)
    as (_ & _ & _ & _ & Hsmall).
  destruct (Hsmall d0 Hd (or_intror Hrows)) as [-> ->].
  assert (Hlen : length (predict_future_yields self now 6) = 6%nat).
  { rewrite (predict_rows Forest forest_predict self f now 6 Ht Hm Hlo)
      by lia.
    reflexivity. }
  split; [reflexivity |].
  destruct (predict_future_yields self now 6) as [|p0 rest] eqn:Ep;
    [discriminate Hlen |].
  repeat split; auto.
Qed.

End Panel.

(** The estimator trained on the sample batch is shown the three-row
    batch. *)
Lemma panel_keeps_earlier_model_witness :
  let panel := Dashboard.forecast_panel Sample.to_datetime Sample.series_mean
                 Sample.train_test_split Sample.Forest Sample.forest_predict
                 Sample.rf_fit Sample.evaluate
                 Sample.trained 2%positive Sample.mid_january Sample.heap0 in
  fst (fst panel) =
    ModelForecast
      (Sample.predict_future_yields Sample.trained Sample.mid_january 6) /\
  snd (fst panel) = Sample.trained.
Proof.
  intros panel.
  destruct (panel_keeps_earlier_model Sample.to_datetime Sample.series_mean
              Sample.train_test_split Sample.Forest Sample.forest_predict
              Sample.rf_fit Sample.evaluate
              Sample.trained Sample.month_regressor 2%positive
              Sample.mid_january Sample.heap0 Sample.short_batch)
    as (_ & Hshown & Hsame & _).
  - vm_compute. reflexivity.
  - vm_compute. reflexivity.
  - reflexivity.
  - reflexivity.
  - simpl. lia.
  - unfold valid. vm_compute. repeat split; discriminate.
  - vm_compute. discriminate.
  - split; [exact Hshown | exact Hsame].
Defined.

(** The panel on the sample batch with a new estimator. *)
Lemma panel_outcomes_witness :
  let panel := Dashboard.forecast_panel Sample.to_datetime Sample.series_mean
                 Sample.train_test_split Sample.Forest Sample.forest_predict
                 Sample.rf_fit Sample.evaluate
                 init 1%positive Sample.mid_january Sample.heap0 in
  exists rows, fst (fst panel) = ModelForecast rows /\ length rows = 6%nat.
Proof.
  intros panel.
  destruct (panel_outcomes Sample.to_datetime Sample.series_mean
              Sample.train_test_split Sample.Forest Sample.forest_predict
              Sample.rf_fit Sample.evaluate
              init 1%positive Sample.mid_january Sample.heap0)
    as (Hmodel & _).
  eexists. split; [vm_compute; reflexivity |].
  refine (proj1 (Hmodel _ _)). vm_compute. reflexivity.
Defined.

End DashboardFacts.

(** ** More on the alert store *)

Module AlertStoreFacts.
Import PyNum FirebaseService DatabaseManager FirebaseFacts AlertHistory.

(** *** Writes under a key *)

Lemma segments_from_nonempty (s : string) : forall cur,
  cur <> EmptyString -> segments_from cur s <> [].
Proof.
  induction s as [|c t IH]; intros cur Hcur; simpl.
  - destruct cur; [congruence | discriminate].
  - destruct (Ascii.eqb c "/").
    + destruct cur; [congruence | discriminate].
    + apply IH. destruct cur; discriminate.
Qed.

(** A reference below [alerts/] has at least one segment. *)
Lemma child_path_nonempty (i : string) path :
  child_path i = Some path -> path <> [].
Proof.
  unfold child_path. destruct i as [|c t]; [discriminate |].
  destruct (Ascii.eqb c "/") eqn:Ec; [discriminate |].
  destruct (has_illegal (String c t)); [discriminate |].
  intros [= <-]. simpl. rewrite Ec. now apply segments_from_nonempty.
Qed.

Lemma first_segment_path (i : string) path :
  child_path i = Some path -> exists k rest, path = k :: rest /\
                                             first_segment i = Some k.
Proof.
  intros Hp. unfold first_segment. rewrite Hp.
  destruct path as [|k rest]; [now apply child_path_nonempty in Hp | eauto].
Qed.

(** A write through a reference keeps every child of [alerts/], and
    changes none but the one its first segment names. *)
Lemma patch_lookup (k0 : string) rest fields (m : gmap string json)
  (k : string) a :
  m !! k = Some a ->
  exists a', patch (k0 :: rest) fields m !! k = Some a' /\
             (k0 <> k -> a' = a) /\
             (k0 = k -> rest = [] ->
              a' = JObj (fields ∪ fields_of (Some a))).
Proof.
  intros Hk. cbn [patch]. destruct (decide (k0 = k)) as [-> | Hne].
  - rewrite lookup_insert_eq, Hk. eexists. split; [reflexivity |].
    split; [congruence |]. intros _ ->. reflexivity.
  - rewrite lookup_insert_ne by exact Hne. exists a.
    split; [exact Hk |]. split; [reflexivity | congruence].
Qed.

(** An entry that a write does not name is read as before. *)
Lemma field_kept (name : string) (fields : gmap string json) (a : alert) :
  fields !! name = None ->
  field name (JObj (fields ∪ fields_of (Some a))) = field name a.
Proof. intros Hn. unfold field. simpl. now rewrite lookup_union_r. Qed.

Lemma field_written (name : string) (fields : gmap string json) (a : alert) v :
  fields !! name = Some v ->
  field name (JObj (fields ∪ fields_of (Some a))) = Some v.
Proof. intros Hn. unfold field. simpl. now apply lookup_union_Some_l. Qed.

Lemma read_fields_names (name : string) :
  In name ("resolved" :: creation_entries) -> read_fields !! name = None.
Proof.
  simpl. intros [<- | [<- | [<- | [<- | [<- | [<- | []]]]]]]; reflexivity.
Qed.

Lemma resolved_fields_names (now : string) note (name : string) :
  In name creation_entries -> resolved_fields now note !! name = None.
Proof.
  unfold resolved_fields.
  destruct note as [n|]; [destruct (PyStr.truthy n) |]; simpl;
    intros [<- | [<- | [<- | [<- | [<- | []]]]]]; reflexivity.
Qed.

(** A write that names none of the entries an alert is created with
    leaves them as they were. *)
Lemma written_same_content (fields : gmap string json) (a : alert) :
  (forall name, In name creation_entries -> fields !! name = None) ->
  same_content a (JObj (fields ∪ fields_of (Some a))).
Proof.
  intros Hn. unfold same_content, title, message, priority, source,
    timestamp, text.
  rewrite !field_kept by (apply Hn; simpl; tauto). auto.
Qed.

(** *** Notifications *)

Lemma update_key_announces (i : string) fields fb n :
  (forall name, In name creation_entries -> fields !! name = None) ->
  announces fb n -> announces (update [i] fields fb) n.
Proof.
  intros Hn (k & a & Hk & Ht & Hmsg & Hp).
  destruct (patch_lookup i [] fields (alerts fb) k a Hk)
    as (a' & Ha' & Hother & Hsame).
  exists k, a'. split; [exact Ha' |].
  destruct (decide (i = k)) as [E | Hne].
  - rewrite (Hsame E eq_refl).
    destruct (written_same_content fields a Hn) as (<- & <- & <- & _).
    auto.
  - rewrite (Hother Hne). auto.
Qed.

Lemma insert_fresh_announces (k : string) (a : alert) fb nl n :
  alerts fb !! k = None ->
  announces fb n ->
  announces {| alerts := <[k := a]> (alerts fb); notifications := nl |} n.
Proof.
  intros Hfresh (k' & a' & Hk & Hrest). exists k', a'. simpl.
  rewrite lookup_insert_ne; [auto |]. intros <-. congruence.
Qed.

Lemma operated_notifications fb :
  operated fb -> Forall (announces fb) (notifications fb).
Proof.
  induction 1 as [| o t m p s fb _ IH Hfresh | o ty m p fb _ IH Hfresh
                  | o i fb _ IH Hi | o i n fb _ IH Hi].
  - constructor.
  - unfold create_alert, _send_push_notification.
    destruct (db_ok o); [| exact IH]. simpl.
    set (data := alert_data t m p s (now_iso o)).
    assert (Hold : forall nl,
              Forall (announces {| alerts := <[push_key o := data]> (alerts fb);
                                   notifications := nl |})
                     (notifications fb)).
    { intros nl. eapply Forall_impl; [exact IH |].
      intros n Hn. now apply insert_fresh_announces. }
    destruct (String.eqb p "high") eqn:Ep; [| apply Hold].
    destruct (fcm_ok o); [| apply Hold]. simpl.
    constructor; [| apply Hold].
    apply String.eqb_eq in Ep. subst p.
    destruct (alert_data_fields t m "high" s (now_iso o))
      as (Ht & Hm & Hp & _).
    exists (push_key o), data. simpl. rewrite lookup_insert_eq. auto.
  - unfold add_firebase_alert. destruct (db_ok o); [| exact IH]. simpl.
    eapply Forall_impl; [exact IH |].
    intros n Hn. now apply insert_fresh_announces.
  - unfold mark_alert_read. rewrite (is_key_path i Hi).
    destruct (db_ok o); [| exact IH]. simpl.
    eapply Forall_impl; [exact IH |]. intros n Hn.
    apply update_key_announces; [| exact Hn].
    intros name Hname. apply read_fields_names. now right.
  - unfold resolve_alert. rewrite (is_key_path i Hi).
    destruct (db_ok o); [| exact IH]. simpl.
    eapply Forall_impl; [exact IH |]. intros n0 Hn.
    apply update_key_announces; [| exact Hn].
    apply resolved_fields_names.
Qed.

(** X6. As long as the ids handed to [mark_alert_read] and
    [resolve_alert] are keys and no push key is used twice, every push
    notification the service has handed to the messaging service is
    that of a stored alert of priority "high", with the alert's title
    and message, whatever else the application has pushed below
    [alerts/]. An alert whose notification cannot be sent is stored and
    its key returned all the same, with no notification recorded. *)
Theorem notifications_follow_alerts :
  (forall fb, operated fb -> Forall (announces fb) (notifications fb)) /\
  (forall o (t m p : string) s fb,
     db_ok o = true -> fcm_ok o = false ->
     fst (create_alert o t m p s fb) = Some (push_key o) /\
     (exists a, alerts (snd (create_alert o t m p s fb)) !! push_key o = Some a /\
                title a = Some t /\ priority a = Some p) /\
     notifications (snd (create_alert o t m p s fb)) = notifications fb).
Proof.
  split; [exact operated_notifications |].
  intros o t m p s fb Hdb Hfcm.
  unfold create_alert, _send_push_notification. rewrite Hdb, Hfcm.
  destruct (alert_data_fields t m p s (now_iso o)) as (Ht & _ & Hp & _).
  destruct (String.eqb p "high"); simpl;
    (split; [reflexivity |]);
    (split; [| reflexivity]);
    eexists; (split; [apply lookup_insert_eq |]); auto.
Qed.

(** An alert raised while messaging is down, then resolved. *)
Lemma notifications_follow_alerts_witness :
  let o := {| db_ok := true; fcm_ok := false; push_key := "-Na1";
              now_iso := "2026-01-15T10:30:00"; push_key_is_key := I |} in
  let created := create_alert o "Low Soil Moisture" "dry" "high" None
                   empty_store in
  fst created = Some "-Na1" /\
  notifications (snd created) = [] /\
  Forall (announces (snd (resolve_alert o "-Na1" None (snd created))))
         (notifications (snd (resolve_alert o "-Na1" None (snd created)))).
Proof.
  intros o created.
  destruct notifications_follow_alerts as [Hfollow Hdown].
  destruct (Hdown o "Low Soil Moisture" "dry" "high" None empty_store
              eq_refl eq_refl) as (Hkey & _ & Hnone).
  split; [exact Hkey |]. split; [exact Hnone |].
  apply Hfollow. apply op_resolve; [| reflexivity].
  apply op_create; [apply op_start | reflexivity].
Defined.

(** *** What a listing looks like *)

Lemma ltb_false_leb (a b : string) :
  String.ltb a b = false -> String.leb b a = true.
Proof.
  unfold String.ltb, String.leb. rewrite (String.compare_antisym b a).
  destruct (String.compare a b); simpl; congruence.
Qed.

Lemma ltb_true_leb (a b : string) :
  String.ltb a b = true -> String.leb a b = true.
Proof.
  unfold String.ltb, String.leb.
  destruct (String.compare a b); simpl; congruence.
Qed.

Lemma leb_trans (a b c : string) :
  String.leb a b = true -> String.leb b c = true -> String.leb a c = true.
Proof.
  intros H1 H2. apply Is_true_true.
  apply Is_true_true in H1, H2.
  exact (transitivity (R := String.le) H1 H2).
Qed.

Section SortByKey.

Context {A : Type} (key : A -> string).

Let newer_first (y x : A) : bool := String.ltb (key x) (key y).
Let ordered (a b : A) : Prop := String.leb (key b) (key a) = true.

Lemma insert_sorted_HdRel (x a : A) (l : list A) :
  ordered a x -> HdRel ordered a l ->
  HdRel ordered a (insert_sorted newer_first x l).
Proof.
  intros Hax Hl. destruct l as [|y t]; simpl; [now constructor |].
  destruct (newer_first y x); constructor; auto.
  now inversion Hl.
Qed.

Lemma insert_sorted_Sorted (x : A) (l : list A) :
  Sorted ordered l -> Sorted ordered (insert_sorted newer_first x l).
Proof.
  induction 1 as [|y t Ht IH Hhd]; simpl; [repeat constructor |].
  destruct (newer_first y x) eqn:E.
  - constructor; [exact IH |].
    apply insert_sorted_HdRel; [| exact Hhd].
    now apply ltb_true_leb.
  - constructor; [now constructor |].
    constructor. now apply ltb_false_leb.
Qed.

Lemma stable_sort_sorted (l : list A) :
  StronglySorted ordered (stable_sort newer_first l).
Proof.
  apply Sorted_StronglySorted.
  - intros a b c Hab Hbc. unfold ordered in *. eapply leb_trans; eauto.
  - induction l as [|x l IH]; simpl; [constructor |].
    now apply insert_sorted_Sorted.
Qed.

End SortByKey.

Lemma insert_sorted_ext {A} (f g : A -> A -> bool) (x : A) (l : list A) :
  (forall y, y ∈ l -> f y x = g y x) ->
  insert_sorted f x l = insert_sorted g x l.
Proof.
  induction l as [|y l IH]; intros H; simpl; [reflexivity |].
  rewrite (H y) by apply list_elem_of_here.
  rewrite IH; [reflexivity |].
  intros z Hz. apply H. now apply list_elem_of_further.
Qed.

(** Two orders that agree on the elements of a list sort it alike. *)
Lemma stable_sort_ext {A} (f g : A -> A -> bool) (l : list A) :
  (forall x y, x ∈ l -> y ∈ l -> f y x = g y x) ->
  stable_sort f l = stable_sort g l.
Proof.
  induction l as [|x l IH]; intros H; simpl; [reflexivity |].
  rewrite IH.
  - apply insert_sorted_ext. intros y Hy. rewrite stable_sort_perm in Hy.
    apply H; [apply list_elem_of_here | now apply list_elem_of_further].
  - intros a b Ha Hb. apply H; now apply list_elem_of_further.
Qed.

Lemma limit_to_last_length {A} (n : nat) (l : list A) :
  length (limit_to_last n l) <= n.
Proof. unfold limit_to_last. rewrite length_skipn. lia. Qed.

Lemma children_keys_distinct fb : NoDup (map fst (children fb)).
Proof.
  change (NoDup ((children fb).*1)). rewrite children_perm.
  apply NoDup_fst_map_to_list.
Qed.

Lemma get_alerts_cases o (unread_only : bool) (limit : Z) fb :
  get_alerts o unread_only limit fb = [] \/
  ((0 <= limit)%Z /\ db_ok o = true /\
   forallb has_timestamp (selected unread_only limit fb) = true /\
   sortable (omap sort_key (selected unread_only limit fb)) = true /\
   get_alerts o unread_only limit fb =
     stable_sort newer (selected unread_only limit fb)).
Proof.
  unfold get_alerts. destruct (db_ok o); simpl; [| now left].
  destruct (limit <? 0)%Z eqn:El; [now left |].
  fold (selected unread_only limit fb).
  destruct (selected unread_only limit fb) as [|c0 rest] eqn:Es; [now left |].
  destruct (forallb has_timestamp (c0 :: rest)) eqn:Ef; [| now left].
  destruct (sortable (omap sort_key (c0 :: rest))) eqn:Eo; [| now left].
  right. repeat split; auto. lia.
Qed.

Lemma selected_sublist (unread_only : bool) (limit : Z) fb :
  selected unread_only limit fb `sublist_of` children fb.
Proof.
  unfold selected, limit_to_last. destruct unread_only.
  - etransitivity; [apply sublist_drop | apply sublist_filter].
  - apply sublist_drop.
Qed.

Lemma selected_unread (limit : Z) fb c :
  c ∈ selected true limit fb -> read (snd c) = Some false.
Proof.
  unfold selected. intros Hc. apply limit_to_last_subseteq in Hc.
  apply list_elem_of_filter in Hc as [Hu _]. unfold is_unread in Hu.
  destruct (read (snd c)) as [[|]|]; congruence.
Qed.

(** The sort keys of a list whose keys are all strings, or all booleans. *)
Lemma sort_keys_of_kind (kind : json -> bool) (l : list (string * alert)) :
  forallb has_timestamp l = true ->
  forallb kind (omap sort_key l) = true ->
  Forall (fun c => exists v, sort_key c = Some v /\ kind v = true) l.
Proof.
  induction l as [|c l IH]; intros Hts Hk; [constructor |].
  simpl in Hts, Hk. unfold has_timestamp in Hts.
  destruct (sort_key c) as [v|] eqn:Ec; [| discriminate].
  simpl in Hts, Hk. apply andb_prop in Hk as [Hv Hk].
  constructor; [eauto | now apply IH].
Qed.

Lemma str_key_timestamp (c : string * alert) v :
  sort_key c = Some v -> is_str v = true ->
  timestamp (snd c) = Some (timestamp_of c) /\ v = JStr (timestamp_of c).
Proof.
  unfold timestamp_of, timestamp, text, sort_key.
  intros -> Hv. destruct v; try discriminate. auto.
Qed.

Lemma bool_key_timestamp (c : string * alert) v :
  sort_key c = Some v -> is_bool v = true ->
  timestamp_of c = "" /\ exists b, field "timestamp" (snd c) = Some (JBool b).
Proof.
  unfold timestamp_of, timestamp, text, sort_key.
  intros -> Hv. destruct v; try discriminate. eauto.
Qed.

Lemma all_empty_newest_first (l : list (string * alert)) :
  Forall (fun c => timestamp_of c = "") l -> newest_first l.
Proof.
  unfold newest_first. induction 1 as [|c l Hc Hl IH]; constructor; auto.
  eapply Forall_impl; [exact Hl |]. intros d Hd. simpl in *.
  now rewrite Hc, Hd.
Qed.

(** The three shapes of a listing that [sorted] gets through. *)
Lemma sortable_cases (l : list (string * alert)) :
  forallb has_timestamp l = true ->
  sortable (omap sort_key l) = true ->
  length l <= 1 \/
  Forall (fun c => exists v, sort_key c = Some v /\ is_str v = true) l \/
  Forall (fun c => exists v, sort_key c = Some v /\ is_bool v = true) l.
Proof.
  intros Hts Hs.
  destruct l as [|c0 [|c1 rest]]; [left; simpl; lia.. |].
  right.
  assert (Hkeys : exists v0 v1 vs,
            omap sort_key (c0 :: c1 :: rest) = v0 :: v1 :: vs).
  { simpl in Hts. unfold has_timestamp in Hts.
    simpl. destruct (sort_key c0); [| discriminate].
    destruct (sort_key c1); [| discriminate]. simpl. eauto. }
  destruct Hkeys as (v0 & v1 & vs & Ek).
  unfold sortable in Hs. rewrite Ek in Hs. rewrite <- Ek in Hs.
  apply orb_prop in Hs as [Hs | Hs]; [left | right];
    now apply sort_keys_of_kind.
Qed.

Lemma sorted_listing_newest_first (l : list (string * alert)) :
  forallb has_timestamp l = true ->
  sortable (omap sort_key l) = true ->
  newest_first (stable_sort newer l).
Proof.
  intros Hts Hs.
  destruct (sortable_cases l Hts Hs) as [Hone | [Hstr | Hbool]].
  - destruct l as [|c [|d t]]; simpl in *; try lia;
      repeat constructor.
  - rewrite (stable_sort_ext newer
               (fun y x => String.ltb (timestamp_of x) (timestamp_of y))).
    + apply (stable_sort_sorted timestamp_of).
    + intros x y Hx Hy. rewrite Forall_forall in Hstr.
      destruct (Hstr x Hx) as (vx & Ex & Hvx).
      destruct (Hstr y Hy) as (vy & Ey & Hvy).
      destruct (str_key_timestamp x vx Ex Hvx) as [_ ->].
      destruct (str_key_timestamp y vy Ey Hvy) as [_ ->].
      unfold newer. now rewrite Ex, Ey.
  - apply all_empty_newest_first.
    apply Forall_forall. intros c Hc. rewrite stable_sort_perm in Hc.
    rewrite Forall_forall in Hbool.
    destruct (Hbool c Hc) as (v & Ev & Hv).
    now destruct (bool_key_timestamp c v Ev Hv).
Qed.

(** X7. Whatever [get_alerts] returns, it returns at most [limit] alerts,
    newest first by timestamp, no id twice; each is the child of
    [alerts/] stored under its id, has a ['timestamp'] entry, and is
    unread when [unread_only] is set; and in a listing of two or more
    alerts the timestamps are all strings, or else all booleans. With
    the database reachable, a limit that covers the whole collection and
    a timestamp string on every alert, the listing without [unread_only]
    holds every stored alert. *)
Theorem get_alerts_listing o (unread_only : bool) (limit : Z) fb :
  (Z.of_nat (length (get_alerts o unread_only limit fb)) <= Z.max 0 limit)%Z /\
  newest_first (get_alerts o unread_only limit fb) /\
  NoDup (map fst (get_alerts o unread_only limit fb)) /\
  (forall k a, (k, a) ∈ get_alerts o unread_only limit fb ->
     alerts fb !! k = Some a /\ is_Some (field "timestamp" a) /\
     (unread_only = true -> read a = Some false)) /\
  (length (get_alerts o unread_only limit fb) <= 1 \/
   Forall (fun c => is_Some (timestamp (snd c)))
          (get_alerts o unread_only limit fb) \/
   Forall (fun c => exists b, field "timestamp" (snd c) = Some (JBool b))
          (get_alerts o unread_only limit fb)) /\
  (db_ok o = true -> (Z.of_nat (size (alerts fb)) <= limit)%Z ->
   (forall k a, alerts fb !! k = Some a -> is_Some (timestamp a)) ->
   forall k a, alerts fb !! k = Some a -> (k, a) ∈ get_alerts o false limit fb).
Proof.
  split; [| split; [| split; [| split; [| split]]]].
  - destruct (get_alerts_cases o unread_only limit fb)
      as [-> | (Hl & _ & _ & _ & ->)]; [simpl; lia |].
    rewrite stable_sort_perm.
    assert (length (selected unread_only limit fb) <= Z.to_nat limit).
    { unfold selected. destruct unread_only; apply limit_to_last_length. }
    lia.
  - destruct (get_alerts_cases o unread_only limit fb)
      as [-> | (_ & _ & Hts & Hs & ->)]; [constructor |].
    now apply sorted_listing_newest_first.
  - destruct (get_alerts_cases o unread_only limit fb)
      as [-> | (_ & _ & _ & _ & ->)]; [constructor |].
    change (NoDup ((stable_sort newer (selected unread_only limit fb)).*1)).
    rewrite stable_sort_perm.
    eapply sublist_NoDup; [apply children_keys_distinct |].
    apply fmap_sublist, selected_sublist.
  - intros k a Hin.
    destruct (get_alerts_cases o unread_only limit fb)
      as [E | (_ & _ & Hts & _ & E)]; rewrite E in Hin; [inversion Hin |].
    rewrite stable_sort_perm in Hin.
    split; [| split].
    + apply (fun H => elem_of_sublist _ _ _ H (selected_sublist _ _ _)) in Hin.
      rewrite children_perm in Hin. now apply elem_of_map_to_list in Hin.
    + rewrite forallb_forall in Hts.
      apply list_elem_of_In in Hin. specialize (Hts _ Hin).
      unfold has_timestamp, sort_key in Hts. simpl in Hts.
      destruct (field "timestamp" a); [eauto | discriminate].
    + intros ->. exact (selected_unread _ _ _ Hin).
  - destruct (get_alerts_cases o unread_only limit fb)
      as [-> | (_ & _ & Hts & Hs & ->)]; [left; simpl; lia |].
    destruct (sortable_cases _ Hts Hs) as [Hone | [Hstr | Hbool]].
    + left. now rewrite stable_sort_perm.
    + right. left. rewrite stable_sort_perm.
      eapply Forall_impl; [exact Hstr |].
      intros c (v & Ev & Hv).
      destruct (str_key_timestamp c v Ev Hv) as [-> _]. eauto.
    + right. right. rewrite stable_sort_perm.
      eapply Forall_impl; [exact Hbool |].
      intros c (v & Ev & Hv).
      now destruct (bool_key_timestamp c v Ev Hv).
  - intros Hdb Hlim Hall k a Hk.
    unfold get_alerts. rewrite Hdb. simpl.
    destruct (limit <? 0)%Z eqn:El; [lia |].
    assert (Hlen : length (children fb) <= Z.to_nat limit).
    { rewrite children_perm, length_map_to_list. lia. }
    rewrite (limit_to_last_all _ _ Hlen).
    assert (Hin : (k, a) ∈ children fb).
    { rewrite children_perm. now apply elem_of_map_to_list. }
    assert (Hts : Forall (fun c => is_Some (timestamp (snd c))) (children fb)).
    { apply Forall_forall. intros [k' a'] Hc.
      rewrite children_perm in Hc. apply elem_of_map_to_list in Hc.
      exact (Hall _ _ Hc). }
    destruct (children fb) as [|c0 rest] eqn:Ec; [inversion Hin |].
    rewrite (timestamps_sort _ Hts), stable_sort_perm. exact Hin.
Qed.

(** Two alerts listed with room to spare. *)
Lemma get_alerts_listing_witness :
  let o1 := working "-Na1" "2026-01-15T10:30:00" in
  let o2 := working "-Na2" "2026-01-15T11:00:00" in
  let fb := snd (create_alert o2 "High Humidity" "damp" "high" None
                   (snd (create_alert o1 "Low Soil Moisture" "dry" "high"
                           None empty_store))) in
  map fst (get_alerts o1 true 50 fb) = ["-Na2"; "-Na1"] /\
  forall k a, (k, a) ∈ get_alerts o1 true 50 fb -> read a = Some false.
Proof.
  intros o1 o2 fb. split; [vm_compute; reflexivity |].
  intros k a Hin.
  destruct (get_alerts_listing o1 true 50 fb) as (_ & _ & _ & Hsound & _).
  destruct (Hsound k a Hin) as (_ & _ & Hunread). now apply Hunread.
Defined.

(** *** Stores in normal operation *)

Lemma update_key_timestamped (i : string) fields fb :
  fields !! "read" = Some (JBool true) ->
  timestamped fb -> timestamped (update [i] fields fb).
Proof.
  intros Hr Hfb. unfold timestamped, update. simpl.
  apply map_Forall_insert_2; [| exact Hfb].
  unfold read, flag, field. simpl.
  rewrite (lookup_union_Some_l _ _ _ _ Hr). discriminate.
Qed.

(** In normal operation every unread alert carries a timestamp string:
    what the amended C8 asks of the store. *)
Lemma operated_timestamped fb : operated fb -> timestamped fb.
Proof.
  induction 1 as [| o t m p s fb _ IH Hfresh | o ty m p fb _ IH Hfresh
                  | o i fb _ IH Hi | o i n fb _ IH Hi].
  - apply empty_store_timestamped.
  - now apply create_alert_timestamped.
  - unfold add_firebase_alert. destruct (db_ok o); [| exact IH].
    apply map_Forall_insert_2; [intros _; eexists; reflexivity | exact IH].
  - unfold mark_alert_read. rewrite (is_key_path i Hi).
    destruct (db_ok o); [| exact IH].
    now apply update_key_timestamped.
  - unfold resolve_alert. rewrite (is_key_path i Hi).
    destruct (db_ok o); [| exact IH].
    apply update_key_timestamped; [| exact IH].
    apply resolved_fields_flags.
Qed.

End AlertStoreFacts.

(** ** Updates of stored alerts *)

Module AlertUpdateFacts.
Import PyNum FirebaseService DatabaseManager FirebaseFacts AlertHistory.
Import AlertStoreFacts.

Lemma flag_written_kept (name : string) (fields : gmap string json)
  (a : alert) :
  fields !! name = Some (JBool true) ->
  flag_kept (flag name a) (flag name (JObj (fields ∪ fields_of (Some a)))).
Proof.
  intros Hw _. unfold flag. now rewrite (field_written _ _ _ _ Hw).
Qed.

(** What a write through the reference [child(i)] leaves of the child of
    [alerts/] stored under [k]. *)
Lemma written_alert (i : string) path fields fb (k : string) a :
  child_path i = Some path ->
  alerts fb !! k = Some a ->
  exists a', alerts (update path fields fb) !! k = Some a' /\
             (first_segment i <> Some k -> a' = a) /\
             (is_key i = true -> i = k ->
              a' = JObj (fields ∪ fields_of (Some a))).
Proof.
  intros Hp Hk.
  destruct (first_segment_path i path Hp) as (k0 & rest & -> & Hfirst).
  destruct (patch_lookup k0 rest fields (alerts fb) k a Hk)
    as (a' & Ha' & Hother & Hsame).
  exists a'. split; [exact Ha' |]. split.
  - intros Hne. apply Hother. congruence.
  - intros Hi <-. rewrite (is_key_path i Hi) in Hp. injection Hp as <- <-.
    now apply Hsame.
Qed.

(** X8. No call removes a child of [alerts/]. After [mark_alert_read] or
    [resolve_alert], for any id and whether or not the request goes
    through, every stored alert is still stored, and is untouched unless
    the first segment of the id is its key. When the id is a key, the
    alert it names keeps its title, message, priority, source and
    timestamp, a flag that was set stays set, and [mark_alert_read]
    leaves [resolved] alone. [create_alert] and [add_firebase_alert]
    leave every alert under another key as it was. *)
Theorem alerts_are_kept o (i : string) fb (k : string) a :
  alerts fb !! k = Some a ->
  (exists a', alerts (snd (mark_alert_read o i fb)) !! k = Some a' /\
              (first_segment i <> Some k -> a' = a) /\
              (is_key i = true ->
               same_content a a' /\ resolved a' = resolved a /\
               flag_kept (read a) (read a'))) /\
  (forall note,
   exists a', alerts (snd (resolve_alert o i note fb)) !! k = Some a' /\
              (first_segment i <> Some k -> a' = a) /\
              (is_key i = true ->
               same_content a a' /\
               flag_kept (read a) (read a') /\
               flag_kept (resolved a) (resolved a'))) /\
  (forall (t m p : string) s, push_key o <> k ->
     alerts (snd (create_alert o t m p s fb)) !! k = Some a /\
     alerts (snd (add_firebase_alert o t m p fb)) !! k = Some a).
Proof.
  intros Hk.
  assert (Hsame : same_content a a /\ resolved a = resolved a /\
                  flag_kept (read a) (read a) /\
                  flag_kept (resolved a) (resolved a)).
  { unfold same_content, flag_kept. auto 10. }
  assert (Hfirst : is_key i = true -> i <> k -> first_segment i <> Some k).
  { intros Hi Hne. unfold first_segment. rewrite (is_key_path i Hi).
    congruence. }
  split; [| split].
  - unfold mark_alert_read.
    destruct (child_path i) as [path|] eqn:Hp; cbn [snd];
      [| exists a; intuition auto].
    destruct (db_ok o); cbn [snd]; [| exists a; intuition auto].
    destruct (written_alert i path read_fields fb k a Hp Hk)
      as (a' & Ha' & Hother & Hwritten).
    exists a'. split; [exact Ha' |]. split; [exact Hother |].
    intros Hi. destruct (decide (i = k)) as [E | Hne].
    + rewrite (Hwritten Hi E). split; [| split].
      * apply written_same_content. intros name Hn.
        apply read_fields_names. now right.
      * unfold resolved, flag. rewrite field_kept; reflexivity.
      * now apply flag_written_kept.
    + rewrite (Hother (Hfirst Hi Hne)). intuition auto.
  - intros note. unfold resolve_alert.
    destruct (child_path i) as [path|] eqn:Hp; cbn [snd];
      [| exists a; intuition auto].
    destruct (db_ok o); cbn [snd]; [| exists a; intuition auto].
    destruct (written_alert i path (resolved_fields (now_iso o) note)
                fb k a Hp Hk) as (a' & Ha' & Hother & Hwritten).
    exists a'. split; [exact Ha' |]. split; [exact Hother |].
    intros Hi. destruct (decide (i = k)) as [E | Hne].
    + rewrite (Hwritten Hi E).
      destruct (resolved_fields_flags (now_iso o) note) as [Hr Hs].
      split; [| split].
      * apply written_same_content, resolved_fields_names.
      * now apply flag_written_kept.
      * now apply flag_written_kept.
    + rewrite (Hother (Hfirst Hi Hne)). intuition auto.
  - intros t m p s Hne. split.
    + unfold create_alert, _send_push_notification.
      destruct (db_ok o); [| exact Hk].
      destruct (String.eqb p "high"), (fcm_ok o); simpl;
        now rewrite lookup_insert_ne.
    + unfold add_firebase_alert. destruct (db_ok o); [| exact Hk].
      simpl. now rewrite lookup_insert_ne.
Qed.

(** An alert is resolved; its text is as created. *)
Lemma alerts_are_kept_witness :
  let o1 := working "-Na1" "2026-01-15T10:30:00" in
  let o2 := working "-Na2" "2026-01-15T11:00:00" in
  let fb := snd (create_alert o1 "Low Soil Moisture" "dry" "high" None
                   empty_store) in
  exists a', alerts (snd (resolve_alert o2 "-Na1" (Some "irrigated") fb))
               !! "-Na1" = Some a' /\
             title a' = Some "Low Soil Moisture" /\
             timestamp a' = Some "2026-01-15T10:30:00".
Proof.
  intros o1 o2 fb.
  assert (Hstored : exists a, alerts fb !! "-Na1" = Some a /\
                              title a = Some "Low Soil Moisture" /\
                              timestamp a = Some "2026-01-15T10:30:00").
  { eexists. split; [vm_compute; reflexivity |]. split; reflexivity. }
  destruct Hstored as (a & Ha & Ht & Hts).
  destruct (alerts_are_kept o2 "-Na1" fb "-Na1" a Ha) as (_ & Hres & _).
  destruct (Hres (Some "irrigated")) as (a' & Ha' & _ & Hkey).
  destruct (Hkey eq_refl) as (Hsame & _).
  destruct Hsame as (Ht' & _ & _ & _ & Hts').
  exists a'. split; [exact Ha' |]. split; congruence.
Defined.

(** Why X8 asks for a key: an id with a "/" is a reference into an
    alert, and a write through it replaces what the alert held there. *)
Lemma write_below_title_replaces_it :
  let o := working "-Na1" "2026-01-15T10:30:00" in
  let fb := snd (create_alert o "Low Soil Moisture" "dry" "high" None
                   empty_store) in
  fst (mark_alert_read o "-Na1/title" fb) = true /\
  (title <$> alerts fb !! "-Na1") = Some (Some "Low Soil Moisture") /\
  (title <$> alerts (snd (mark_alert_read o "-Na1/title" fb)) !! "-Na1")
    = Some None /\
  flags (snd (mark_alert_read o "-Na1/title" fb)) "-Na1/title"
    = Some (Some true, None).
Proof. vm_compute. repeat split. Qed.

Lemma forallb_has_false {A} (f : A -> bool) (l : list A) (x : A) :
  x ∈ l -> f x = false -> forallb f l = false.
Proof.
  intros Hin Hx. destruct (forallb f l) eqn:E; [| reflexivity].
  rewrite forallb_forall in E. apply list_elem_of_In in Hin.
  rewrite (E x Hin) in Hx. discriminate.
Qed.

Lemma stub_blanks_listing (i : string) fields fb ol (limit : Z) :
  alerts fb !! i = None ->
  fields !! "timestamp" = None ->
  (Z.of_nat (size (alerts fb)) < limit)%Z ->
  get_alerts ol false limit (update [i] fields fb) = [].
Proof.
  intros Hnew Hts Hlim. unfold get_alerts.
  destruct (negb (db_ok ol)); [reflexivity |].
  destruct (limit <? 0)%Z; [reflexivity |].
  set (fb' := update [i] fields fb).
  assert (Hlen : length (children fb') <= Z.to_nat limit).
  { rewrite children_perm, length_map_to_list. unfold fb', update. simpl.
    rewrite map_size_insert_None by exact Hnew. lia. }
  rewrite (limit_to_last_all _ _ Hlen).
  assert (Hin : (i, JObj (fields ∪ ∅)) ∈ children fb').
  { rewrite children_perm. apply elem_of_map_to_list.
    unfold fb', update. simpl. rewrite lookup_insert_eq, Hnew. reflexivity. }
  destruct (children fb') as [|c0 rest] eqn:Ec; [reflexivity |].
  rewrite (forallb_has_false has_timestamp _ _ Hin); [reflexivity |].
  unfold has_timestamp, sort_key, field. simpl.
  now rewrite lookup_union_r, lookup_empty by exact Hts.
Qed.

(** X9. An id that [child] rejects (the empty string, one that starts
    with "/" or holds one of [ ] . ? # $) makes [mark_alert_read] and
    [resolve_alert] return [False] with nothing written. Marking as
    read, or resolving, a key under which nothing is stored creates a
    child of [alerts/] that has flags but no timestamp; from then on a
    full listing ([unread_only] off) whose limit covers the collection
    returns nothing at all, because its sort by timestamp raises. *)
Theorem unknown_id_blanks_full_listing o (i : string) fb ol (limit : Z) :
  (child_path i = None ->
   mark_alert_read o i fb = (false, fb) /\
   forall note, resolve_alert o i note fb = (false, fb)) /\
  (is_key i = true -> db_ok o = true -> alerts fb !! i = None ->
   (Z.of_nat (size (alerts fb)) < limit)%Z ->
   (exists a, alerts (snd (mark_alert_read o i fb)) !! i = Some a /\
              read a = Some true /\ field "timestamp" a = None) /\
   get_alerts ol false limit (snd (mark_alert_read o i fb)) = [] /\
   forall note,
     get_alerts ol false limit (snd (resolve_alert o i note fb)) = []).
Proof.
  split.
  - intros Hbad. unfold mark_alert_read, resolve_alert. now rewrite Hbad.
  - intros Hi Hdb Hnew Hlim.
    unfold mark_alert_read, resolve_alert.
    rewrite (is_key_path i Hi), Hdb. cbn [snd].
    split; [| split].
    + eexists. unfold update. simpl.
      split; [apply lookup_insert_eq |]. rewrite Hnew. split; reflexivity.
    + now apply stub_blanks_listing.
    + intros note. apply stub_blanks_listing; [exact Hnew | | exact Hlim].
      apply resolved_fields_names. simpl. tauto.
Qed.

(** One alert is stored; an id with a typing error is marked read, and
    an empty id is refused. *)
Lemma unknown_id_blanks_full_listing_witness :
  let o1 := working "-Na1" "2026-01-15T10:30:00" in
  let fb := snd (create_alert o1 "Low Soil Moisture" "dry" "high" None
                   empty_store) in
  map fst (get_alerts o1 false 50 fb) = ["-Na1"] /\
  get_alerts o1 false 50 (snd (mark_alert_read o1 "-Na7" fb)) = [] /\
  mark_alert_read o1 "" fb = (false, fb).
Proof.
  intros o1 fb. split; [vm_compute; reflexivity |].
  destruct (unknown_id_blanks_full_listing o1 "-Na7" fb o1 50)
    as (_ & Hstub).
  destruct (unknown_id_blanks_full_listing o1 "" fb o1 50)
    as (Hbad & _).
  assert (Hnew : alerts fb !! "-Na7" = None) by (vm_compute; reflexivity).
  assert (Hlim : (Z.of_nat (size (alerts fb)) < 50)%Z)
    by (vm_compute; reflexivity).
  destruct (Hstub eq_refl eq_refl Hnew Hlim) as (_ & Hblank & _).
  split; [exact Hblank |].
  exact (proj1 (Hbad eq_refl)).
Defined.

End AlertUpdateFacts.

(** ** Feature preparation *)

Module PrepareFacts.
Import PyNum PyNumFacts PyDatetime YieldPredictor YieldPredictorFacts.
Import FeatureSpec.

Lemma run_get_column {B} df (name : string) (k : list cell -> M B)
  (h : gmap positive DataFrame) d :
  h !! df = Some d ->
  (get_column df name ≫= k) h =
  match columns d !! name with Some c => k c h | None => (None, h) end.
Proof.
  intros Hd. unfold get_column, mbind, M_bind, bind, load, lift.
  rewrite Hd. destruct (columns d !! name); reflexivity.
Qed.

Lemma run_lift {A B} (o : option A) (k : A -> M B)
  (h : gmap positive DataFrame) :
  (lift o ≫= k) h = match o with Some a => k a h | None => (None, h) end.
Proof. unfold mbind, M_bind, bind, lift. destruct o; reflexivity. Qed.

Lemma run_set_column {B} df (name : string) col (k : unit -> M B)
  (h : gmap positive DataFrame) d :
  h !! df = Some d ->
  (set_column df name col ≫= k) h =
  k tt (<[df := with_column name col d]> h).
Proof.
  intros Hd. unfold set_column, mbind, M_bind, bind. rewrite Hd. reflexivity.
Qed.

Lemma with_column_other (name other : string) col d :
  name <> other ->
  columns (with_column name col d) !! other = columns d !! other.
Proof. intros H. unfold with_column. simpl. now rewrite lookup_insert_ne. Qed.

Lemma with_column_same (name : string) col d :
  columns (with_column name col d) !! name = Some col.
Proof. unfold with_column. simpl. apply lookup_insert_eq. Qed.

Section Prepare.

Variable to_datetime : list cell -> option (list (option datetime)).
Variable series_mean : list cell -> option pynum.

Local Abbreviation prepare_features :=
  (YieldPredictor.prepare_features to_datetime series_mean).
Local Abbreviation prepare_outcome :=
  (FeatureSpec.prepare_outcome to_datetime series_mean).

(** On a frame that is not empty, the monadic code of [prepare_features]
    runs as [prepare_outcome] spells out. *)
Lemma prepare_features_run df (h : gmap positive DataFrame) d :
  h !! df = Some d -> df_empty d = false ->
  prepare_features df h = prepare_outcome df d h.
Proof.
  intros Hd He. unfold YieldPredictor.prepare_features.
  rewrite bind_load, Hd, He. unfold FeatureSpec.prepare_outcome.
  rewrite (run_get_column _ _ _ _ _ Hd).
  destruct (columns d !! "ds") as [ds|]; [| reflexivity].
  rewrite run_lift. destruct (to_datetime ds) as [ds'|]; [| reflexivity].
  rewrite (run_set_column _ _ _ _ _ _ Hd).
  set (d1 := with_column "ds" (map time_cell ds') d).
  assert (H1 : <[df := d1]> h !! df = Some d1) by apply lookup_insert_eq.
  rewrite (run_get_column _ _ _ _ _ H1).
  unfold d1 at 1. rewrite with_column_same.
  rewrite (run_set_column _ _ _ _ _ _ H1), insert_insert_eq.
  set (d2 := with_column "month" (map month_cell (map time_cell ds')) d1).
  assert (H2 : <[df := d2]> h !! df = Some d2) by apply lookup_insert_eq.
  assert (Hin2 : forall name, name <> "ds" -> name <> "month" ->
            columns d2 !! name = columns d !! name).
  { intros name Ha Hb. unfold d2, d1.
    rewrite !with_column_other by congruence. reflexivity. }
  rewrite (run_get_column _ _ _ _ _ H2), Hin2 by discriminate.
  destruct (columns d !! "crop_type") as [crop|] eqn:Ecrop; [| reflexivity].
  cbv zeta.
  rewrite (run_get_column _ _ _ _ _ H2), Hin2, Ecrop by discriminate.
  rewrite (run_set_column _ _ _ _ _ _ H2), insert_insert_eq.
  set (d3 := with_column "crop_type_encoded" _ d2).
  assert (H3 : <[df := d3]> h !! df = Some d3) by apply lookup_insert_eq.
  assert (Hin3 : forall name, name <> "ds" -> name <> "month" ->
            name <> "crop_type_encoded" ->
            columns d3 !! name = columns d !! name).
  { intros name Ha Hb Hc. unfold d3.
    rewrite with_column_other by congruence. now apply Hin2. }
  rewrite (run_get_column _ _ _ _ _ H3), Hin3 by discriminate.
  destruct (columns d !! "weather_condition") as [weather|]; [| reflexivity].
  rewrite (run_set_column _ _ _ _ _ _ H3), insert_insert_eq.
  set (d4 := with_column "weather_score" _ d3).
  assert (H4 : <[df := d4]> h !! df = Some d4) by apply lookup_insert_eq.
  assert (Hin4 : columns d4 !! "soil_quality_score" =
                 columns d !! "soil_quality_score").
  { unfold d4. rewrite with_column_other by discriminate.
    apply Hin3; discriminate. }
  rewrite (run_get_column _ _ _ _ _ H4), Hin4.
  destruct (columns d !! "soil_quality_score") as [soil|] eqn:Esoil;
    [| reflexivity].
  rewrite (run_get_column _ _ _ _ _ H4), Hin4.
  rewrite run_lift. destruct (series_mean soil) as [mean|]; [| reflexivity].
  rewrite (run_set_column _ _ _ _ _ _ H4), insert_insert_eq.
  reflexivity.
Qed.

Lemma not_written (name : string) :
  ~ In name written_columns ->
  name <> "ds" /\ name <> "month" /\ name <> "crop_type_encoded" /\
  name <> "weather_score" /\ name <> "soil_quality_score".
Proof. unfold written_columns. simpl. intuition congruence. Qed.

(** What [prepare_outcome] leaves at [df], in every case. *)
Lemma prepare_outcome_effect df (h : gmap positive DataFrame) d r h' :
  h !! df = Some d ->
  prepare_outcome df d h = (r, h') ->
  (forall l, l <> df -> h' !! l = h !! l) /\
  exists d', h' !! df = Some d' /\ nrows d' = nrows d /\
    (forall name, ~ In name written_columns ->
       columns d' !! name = columns d !! name) /\
    (r = None \/
     (r = Some df /\
      Forall (fun name => is_Some (columns d' !! name)) written_columns)).
Proof.
  intros Hd. unfold FeatureSpec.prepare_outcome.
  assert (Hsame : forall dx,
            nrows dx = nrows d ->
            (forall name, ~ In name written_columns ->
               columns dx !! name = columns d !! name) ->
            forall r0, (r0 = None \/
               (r0 = Some df /\
                Forall (fun name => is_Some (columns dx !! name))
                       written_columns)) ->
            (forall l, l <> df -> <[df := dx]> h !! l = h !! l) /\
            exists d', <[df := dx]> h !! df = Some d' /\ nrows d' = nrows d /\
              (forall name, ~ In name written_columns ->
                 columns d' !! name = columns d !! name) /\
              (r0 = None \/
               (r0 = Some df /\
                Forall (fun name => is_Some (columns d' !! name))
                       written_columns))).
  { intros dx Hn Hc r0 Hr. split.
    - intros l Hl. now apply lookup_insert_ne.
    - exists dx. split; [apply lookup_insert_eq | auto]. }
  assert (Hnone : (forall l, l <> df -> h !! l = h !! l) /\
            exists d', h !! df = Some d' /\ nrows d' = nrows d /\
              (forall name, ~ In name written_columns ->
                 columns d' !! name = columns d !! name) /\
              ((None : option positive) = None \/
               ((None : option positive) = Some df /\
                Forall (fun name => is_Some (columns d' !! name))
                       written_columns))).
  { split; [reflexivity |]. exists d. auto. }
  destruct (columns d !! "ds") as [ds|]; [| intros [= <- <-]; exact Hnone].
  destruct (to_datetime ds) as [ds'|]; [| intros [= <- <-]; exact Hnone].
  assert (Hcols : forall name cols5 cols4 cols3 cols2 cols1,
            ~ In name written_columns ->
            columns
              (with_column "soil_quality_score" cols5
                 (with_column "weather_score" cols4
                    (with_column "crop_type_encoded" cols3
                       (with_column "month" cols2
                          (with_column "ds" cols1 d))))) !! name
            = columns d !! name).
  { intros name c5 c4 c3 c2 c1 Hn.
    destruct (not_written name Hn) as (H1 & H2 & H3 & H4 & H5).
    rewrite !with_column_other by congruence. reflexivity. }
  destruct (columns d !! "crop_type") as [crop|].
  2: { intros [= <- <-]. apply Hsame; [reflexivity | | now left].
       intros name Hn. destruct (not_written name Hn) as (H1 & H2 & _).
       rewrite !with_column_other by congruence. reflexivity. }
  destruct (columns d !! "weather_condition") as [weather|].
  2: { intros [= <- <-]. apply Hsame; [reflexivity | | now left].
       intros name Hn. destruct (not_written name Hn) as (H1 & H2 & H3 & _).
       rewrite !with_column_other by congruence. reflexivity. }
  assert (Hd4 : forall name, ~ In name written_columns ->
            columns
              (with_column "weather_score"
                 (fillna (CNum (dec 5 10)) (map weather_cell weather))
                 (with_column "crop_type_encoded"
                    (map_dict (enumerate_from 0 (unique crop)) crop)
                    (with_column "month" (map month_cell (map time_cell ds'))
                       (with_column "ds" (map time_cell ds') d)))) !! name
            = columns d !! name).
  { intros name Hn. destruct (not_written name Hn) as (H1 & H2 & H3 & H4 & _).
    rewrite !with_column_other by congruence. reflexivity. }
  destruct (columns d !! "soil_quality_score") as [soil|];
    [| intros [= <- <-]; apply Hsame; [reflexivity | exact Hd4 | now left]].
  destruct (series_mean soil) as [mean|];
    [| intros [= <- <-]; apply Hsame; [reflexivity | exact Hd4 | now left]].
  intros [= <- <-]. apply Hsame; [reflexivity | | right].
  - intros name Hn. now apply Hcols.
  - split; [reflexivity |]. unfold written_columns.
    repeat constructor;
      rewrite ?with_column_same;
      repeat (rewrite with_column_other by discriminate;
              rewrite ?with_column_same);
      eauto.
Qed.

(** X10. [prepare_features] on an empty frame returns a new empty frame
    and leaves its argument alone. On any other frame it works in place:
    whether it returns or raises half-way, the frame keeps its number of
    rows and every column other than [ds], [month], [crop_type_encoded],
    [weather_score] and [soil_quality_score] (so [y], [crop_type] and
    [weather_condition] are as they were), and no other object changes;
    when it returns, it returns the frame it was given, with all five of
    those columns present. *)
Theorem prepare_features_effect df (h : gmap positive DataFrame) d r h' :
  h !! df = Some d ->
  prepare_features df h = (r, h') ->
  (df_empty d = true ->
   r = Some (fresh (dom h)) /\ h !! fresh (dom h) = None /\
   h' = <[fresh (dom h) := empty_frame]> h /\ h' !! df = Some d) /\
  (df_empty d = false ->
   (forall l, l <> df -> h' !! l = h !! l) /\
   exists d', h' !! df = Some d' /\ nrows d' = nrows d /\
     (forall name, ~ In name written_columns ->
        columns d' !! name = columns d !! name) /\
     (r = None \/
      (r = Some df /\
       Forall (fun name => is_Some (columns d' !! name)) written_columns))).
Proof.
  intros Hd E. split; intros He.
  - unfold YieldPredictor.prepare_features in E.
    rewrite bind_load, Hd, He in E. unfold new_frame in E.
    injection E as <- <-.
    assert (Hfresh : h !! fresh (dom h) = None).
    { apply not_elem_of_dom. apply is_fresh. }
    repeat split; auto.
    rewrite lookup_insert_ne; [exact Hd |]. intros Heq. congruence.
  - rewrite (prepare_features_run df h d Hd He) in E.
    exact (prepare_outcome_effect df h d r h' Hd E).
Qed.

End Prepare.

(** The sample batch prepared in place: the harvest figures stay. *)
Lemma prepare_features_effect_witness :
  let out := prepare_features Sample.to_datetime Sample.series_mean
               1%positive Sample.heap0 in
  fst out = Some 1%positive /\
  exists d', snd out !! 1%positive = Some d' /\ nrows d' = 10%nat /\
             columns d' !! "y" = columns Sample.batch !! "y".
Proof.
  intros out.
  destruct (prepare_features_effect Sample.to_datetime Sample.series_mean
              1%positive Sample.heap0 Sample.batch (fst out) (snd out))
    as [_ Hin].
  - reflexivity.
  - apply surjective_pairing.
  - destruct (Hin eq_refl) as (_ & d' & Hd' & Hrows & Hcols & _).
    split; [vm_compute; reflexivity |].
    exists d'. split; [exact Hd' |]. split; [exact Hrows |].
    apply Hcols. unfold written_columns. simpl. intuition discriminate.
Defined.

End PrepareFacts.

(** ** The prepared columns *)

Module FeatureFacts.
Import PyNum PyNumFacts PyDatetime YieldPredictor YieldPredictorFacts.
Import FeatureSpec PrepareFacts.

(** *** Weather scores *)

Lemma weather_get_not_nan (s : string) v :
  weather_get weather_mapping s = Some v -> isna (CNum v) = false.
Proof.
  unfold weather_mapping. cbn -[String.eqb].
  repeat (destruct (String.eqb _ s); [intros [= <-]; reflexivity |]).
  discriminate.
Qed.

Lemma weather_get_unknown (s : string) :
  ~ In s (map fst weather_mapping) -> weather_get weather_mapping s = None.
Proof.
  unfold weather_mapping. cbn -[String.eqb]. intros Hout.
  repeat match goal with
    | |- context [String.eqb ?k s] =>
        destruct (String.eqb k s) eqn:E;
        [apply String.eqb_eq in E; exfalso; apply Hout; subst; tauto |];
        clear E
    end.
  reflexivity.
Qed.

Lemma fillna_weather (weather : list cell) :
  fillna (CNum (dec 5 10)) (map weather_cell weather) =
  map (fun c => CNum (weather_score c)) weather.
Proof.
  unfold fillna. rewrite map_map. apply map_ext. intros c.
  unfold weather_cell, weather_score. destruct c as [| x | s | t];
    try reflexivity.
  destruct (weather_get weather_mapping s) as [v|] eqn:E; [| reflexivity].
  pose proof (weather_get_not_nan s v E) as Hn.
  change (CNum (default (dec 5 10) (Some v))) with (CNum v).
  change ((if isna (CNum v) then CNum (dec 5 10) else CNum v) = CNum v).
  now rewrite Hn.
Qed.

(** *** Crop codes *)

Lemma existsb_seen (a : string) (seen : list string) :
  existsb (cell_eqb (CStr a)) (map CStr seen) = true <-> In a seen.
Proof.
  induction seen as [|s seen IH]; simpl; [split; [discriminate | tauto] |].
  rewrite orb_true_iff, IH, String.eqb_eq. split; intros [H | H]; auto.
Qed.

Lemma unique_from_names (names : list string) : forall seen,
  exists us, unique_from (map CStr seen) (map CStr names) = map CStr us /\
    NoDup us /\
    (forall a, In a us <-> In a names /\ ~ In a seen) /\
    (forall a t, names = a :: t -> ~ In a seen -> exists t', us = a :: t').
Proof.
  induction names as [|a names IH]; intros seen.
  - exists []. simpl. repeat split; try constructor; try tauto; discriminate.
  - simpl. destruct (existsb (cell_eqb (CStr a)) (map CStr seen)) eqn:E.
    + apply existsb_seen in E. destruct (IH seen) as (us & Hu & Hnd & Hin & _).
      exists us. split; [exact Hu |]. split; [exact Hnd |]. split.
      * intros b. rewrite Hin. split; [tauto |].
        intros [[<- | Hb] Hs]; tauto.
      * intros b t [= <- <-] Hs. contradiction.
    + assert (Hs : ~ In a seen).
      { intros H. apply existsb_seen in H. congruence. }
      destruct (IH (a :: seen)) as (us & Hu & Hnd & Hin & _).
      exists (a :: us). simpl. split; [now rewrite <- Hu |]. split.
      * constructor; [| exact Hnd]. intros H%list_elem_of_In.
        apply Hin in H. simpl in H. tauto.
      * split.
        -- intros b. simpl. rewrite Hin. simpl. split.
           ++ intros [<- | [Hb Hn]]; tauto.
           ++ intros [[<- | Hb] Hn]; [tauto |].
              destruct (String.eqb_spec a b) as [-> | Hne]; [tauto |].
              right. split; [exact Hb |]. tauto.
        -- intros b t [= <- <-] _. eauto.
Qed.

Lemma dict_get_names (us : list string) : forall (k : Z) (a : string),
  In a us ->
  exists i, us !! i = Some a /\
            dict_get (enumerate_from k (map CStr us)) (CStr a)
              = Some (k + Z.of_nat i)%Z.
Proof.
  induction us as [|u us IH]; intros k a Hin; [destruct Hin |].
  simpl. destruct (String.eqb u a) eqn:E.
  - apply String.eqb_eq in E. subst u. exists 0%nat.
    split; [reflexivity |]. f_equal. lia.
  - destruct Hin as [-> | Hin]; [now rewrite String.eqb_refl in E |].
    destruct (IH (k + 1)%Z a Hin) as (i & Hi & Hget).
    exists (S i). split; [exact Hi |]. rewrite Hget. f_equal. lia.
Qed.

(** The codes of a column of crop names: one code per name, different
    names different codes, the first row's name code 0, every code below
    the number of rows. *)
Lemma crop_codes_spec (names : list string) :
  exists code : string -> Z,
    crop_codes names = map (fun a => CNum (PyInt (code a))) names /\
    (forall a b, In a names -> In b names -> code a = code b -> a = b) /\
    (forall a, In a names -> (0 <= code a < Z.of_nat (length names))%Z) /\
    (forall a t, names = a :: t -> code a = 0%Z).
Proof.
  destruct (unique_from_names names []) as (us & Hu & Hnd & Hin & Hhead).
  simpl in Hu.
  set (D := enumerate_from 0 (map CStr us)).
  assert (Hcode : forall a, In a names ->
            exists i, us !! i = Some a /\
                      dict_get D (CStr a) = Some (Z.of_nat i)).
  { intros a Ha. destruct (dict_get_names us 0 a) as (i & Hi & Hg).
    - apply Hin. tauto.
    - exists i. split; [exact Hi |]. unfold D. rewrite Hg. f_equal. }
  exists (fun a => default 0%Z (dict_get D (CStr a))).
  split; [| split; [| split]].
  - unfold crop_codes, unique, map_dict. rewrite Hu. fold D.
    rewrite map_map. apply map_ext_in. intros a Ha.
    destruct (Hcode a Ha) as (i & _ & ->). reflexivity.
  - intros a b Ha Hb.
    destruct (Hcode a Ha) as (i & Hi & ->).
    destruct (Hcode b Hb) as (j & Hj & ->). simpl. intros Hij.
    assert (i = j) by lia. subst j. congruence.
  - intros a Ha. destruct (Hcode a Ha) as (i & Hi & ->). simpl.
    apply lookup_lt_Some in Hi.
    assert (length us <= length names).
    { apply submseteq_length, NoDup_submseteq; [exact Hnd |].
      intros x Hx%list_elem_of_In. apply list_elem_of_In.
      apply Hin in Hx. tauto. }
    lia.
  - intros a t Hn. destruct (Hhead a t Hn) as (t' & ->); [tauto |].
    unfold D. simpl. now rewrite String.eqb_refl.
Qed.

Section Prepare.

Variable to_datetime : list cell -> option (list (option datetime)).
Variable series_mean : list cell -> option pynum.

Local Abbreviation prepare_features :=
  (YieldPredictor.prepare_features to_datetime series_mean).

(** The frame left by a run of [prepare_features] that returned. *)
Lemma prepare_features_returned df (h : gmap positive DataFrame) d r h' :
  h !! df = Some d -> df_empty d = false ->
  prepare_features df h = (Some r, h') ->
  exists ds ds' crop weather soil mean,
    columns d !! "ds" = Some ds /\ to_datetime ds = Some ds' /\
    columns d !! "crop_type" = Some crop /\
    columns d !! "weather_condition" = Some weather /\
    columns d !! "soil_quality_score" = Some soil /\
    series_mean soil = Some mean /\
    r = df /\
    h' !! df = Some
      (with_column "soil_quality_score" (fillna (CNum mean) soil)
         (with_column "weather_score"
            (fillna (CNum (dec 5 10)) (map weather_cell weather))
            (with_column "crop_type_encoded"
               (map_dict (enumerate_from 0 (unique crop)) crop)
               (with_column "month" (map month_cell (map time_cell ds'))
                  (with_column "ds" (map time_cell ds') d))))).
Proof.
  intros Hd He E. rewrite (prepare_features_run _ _ df h d Hd He) in E.
  unfold prepare_outcome in E.
  destruct (columns d !! "ds") as [ds|] eqn:E1; [| discriminate].
  destruct (to_datetime ds) as [ds'|] eqn:E2; [| discriminate].
  destruct (columns d !! "crop_type") as [crop|] eqn:E3; [| discriminate].
  destruct (columns d !! "weather_condition") as [weather|] eqn:E4;
    [| discriminate].
  destruct (columns d !! "soil_quality_score") as [soil|] eqn:E5;
    [| discriminate].
  destruct (series_mean soil) as [mean|] eqn:E6; [| discriminate].
  injection E as <- <-.
  exists ds, ds', crop, weather, soil, mean.
  repeat (split; [solve [auto] |]). apply lookup_insert_eq.
Qed.

(** X11. When [prepare_features] returns on a frame that is not empty,
    the [weather_score] of every row is a number: the table's value when
    the row's weather condition is one of the six table keys (sunny 0.9,
    partly_cloudy 0.7, cloudy 0.5, rainy 0.3, stormy 0.1, drought 0.1),
    and 0.5 for any other string and for a missing condition. *)
Theorem prepared_weather_scores df (h : gmap positive DataFrame) d r h' :
  h !! df = Some d -> df_empty d = false ->
  prepare_features df h = (Some r, h') ->
  (exists d' weather,
     h' !! df = Some d' /\
     columns d !! "weather_condition" = Some weather /\
     columns d' !! "weather_score" =
       Some (map (fun c => CNum (weather_score c)) weather)) /\
  map (fun e => weather_score (CStr (fst e))) weather_mapping =
    map snd weather_mapping /\
  (forall s, ~ In s (map fst weather_mapping) ->
             weather_score (CStr s) = dec 5 10) /\
  weather_score CNone = dec 5 10.
Proof.
  intros Hd He E.
  destruct (prepare_features_returned df h d r h' Hd He E)
    as (ds & ds' & crop & weather & soil & mean &
        _ & _ & _ & Hw & _ & _ & _ & Hd').
  split; [| split; [reflexivity | split; [| reflexivity]]].
  - eexists. exists weather. split; [exact Hd' |]. split; [exact Hw |].
    rewrite with_column_other by discriminate.
    rewrite with_column_same. now rewrite fillna_weather.
  - intros s Hs. unfold weather_score.
    now rewrite (weather_get_unknown s Hs).
Qed.

(** X12. When [prepare_features] returns on a frame whose crop types are
    strings, [crop_type_encoded] gives every row the code of its crop:
    rows with the same crop get the same code, different crops get
    different codes, the crop of the first row gets 0, and every code is
    at least 0 and below the number of rows. *)
Theorem prepared_crop_codes df (h : gmap positive DataFrame) d r h'
  (names : list string) :
  h !! df = Some d -> df_empty d = false ->
  columns d !! "crop_type" = Some (map CStr names) ->
  prepare_features df h = (Some r, h') ->
  exists d' (code : string -> Z),
    h' !! df = Some d' /\
    columns d' !! "crop_type_encoded" =
      Some (map (fun a => CNum (PyInt (code a))) names) /\
    (forall a b, In a names -> In b names -> code a = code b -> a = b) /\
    (forall a, In a names -> (0 <= code a < Z.of_nat (length names))%Z) /\
    (forall a t, names = a :: t -> code a = 0%Z).
Proof.
  intros Hd He Hcrop E.
  destruct (prepare_features_returned df h d r h' Hd He E)
    as (ds & ds' & crop & weather & soil & mean &
        _ & _ & Hc & _ & _ & _ & _ & Hd').
  rewrite Hcrop in Hc. injection Hc as <-.
  destruct (crop_codes_spec names) as (code & Hcodes & Hinj & Hrange & Hfirst).
  eexists. exists code. split; [exact Hd' |].
  split; [| split; [exact Hinj | split; [exact Hrange | exact Hfirst]]].
  rewrite !with_column_other by discriminate.
  rewrite with_column_same. f_equal. exact Hcodes.
Qed.

(** X13. When [prepare_features] returns on a frame that is not empty,
    [ds] holds the parsed dates, [month] the calendar month of each
    parsed date (missing where the date is), and in
    [soil_quality_score] every score that was present is kept while every
    missing one is replaced by the mean [series.mean()] gave for the
    column. *)
Theorem prepared_month_and_soil df (h : gmap positive DataFrame) d r h' :
  h !! df = Some d -> df_empty d = false ->
  prepare_features df h = (Some r, h') ->
  exists d' ds ds' soil mean,
    h' !! df = Some d' /\
    columns d !! "ds" = Some ds /\ to_datetime ds = Some ds' /\
    columns d !! "soil_quality_score" = Some soil /\
    series_mean soil = Some mean /\
    columns d' !! "ds" = Some (map time_cell ds') /\
    columns d' !! "month" =
      Some (map (fun t => match t with
                          | Some t => CNum (PyInt (month t))
                          | None => CNone
                          end) ds') /\
    columns d' !! "soil_quality_score" =
      Some (map (fun c => if isna c then CNum mean else c) soil).
Proof.
  intros Hd He E.
  destruct (prepare_features_returned df h d r h' Hd He E)
    as (ds & ds' & crop & weather & soil & mean &
        Hds & Hparse & _ & _ & Hsoil & Hmean & _ & Hd').
  eexists. exists ds, ds', soil, mean.
  split; [exact Hd' |]. repeat (split; [assumption |]).
  split; [| split].
  - rewrite !with_column_other by discriminate. apply with_column_same.
  - rewrite !with_column_other by discriminate.
    rewrite with_column_same, map_map. f_equal.
    apply map_ext. now intros [t|].
  - apply with_column_same.
Qed.

End Prepare.

(** The sample batch, prepared. *)
Lemma prepared_weather_scores_witness :
  exists d', snd (prepare_features Sample.to_datetime Sample.series_mean
                    1%positive Sample.heap0) !! 1%positive = Some d' /\
    (columns d' !! "weather_score") ≫= (fun col => col !! 4%nat)
      = Some (CNum (dec 5 10)).
Proof.
  destruct (prepared_weather_scores Sample.to_datetime Sample.series_mean
              1%positive Sample.heap0 Sample.batch 1%positive
              (snd (prepare_features Sample.to_datetime Sample.series_mean
                      1%positive Sample.heap0)))
    as ((d' & weather & Hd' & Hw & Hscore) & _).
  - reflexivity.
  - reflexivity.
  - vm_compute. reflexivity.
  - exists d'. split; [exact Hd' |]. rewrite Hscore.
    assert (weather = map CStr
              ["sunny"; "rainy"; "cloudy"; "sunny"; "foggy"; "stormy";
               "partly_cloudy"; "sunny"; "drought"; "rainy"]) as ->.
    { apply (inj Some). rewrite <- Hw. vm_compute. reflexivity. }
    reflexivity.
Defined.

Lemma prepared_crop_codes_witness :
  exists d' (code : string -> Z),
    snd (prepare_features Sample.to_datetime Sample.series_mean
           1%positive Sample.heap0) !! 1%positive = Some d' /\
    code "corn" = 0%Z /\ code "wheat" <> code "soybeans".
Proof.
  destruct (prepared_crop_codes Sample.to_datetime Sample.series_mean
              1%positive Sample.heap0 Sample.batch 1%positive
              (snd (prepare_features Sample.to_datetime Sample.series_mean
                      1%positive Sample.heap0))
              ["corn"; "wheat"; "corn"; "soybeans"; "wheat"; "corn"; "corn";
               "wheat"; "soybeans"; "corn"])
    as (d' & code & Hd' & _ & Hinj & _ & Hfirst).
  - reflexivity.
  - reflexivity.
  - vm_compute. reflexivity.
  - vm_compute. reflexivity.
  - exists d', code. split; [exact Hd' |]. split.
    + eapply Hfirst. reflexivity.
    + intros Heq. apply Hinj in Heq; [discriminate | simpl; tauto ..].
Defined.

Lemma prepared_month_and_soil_witness :
  exists d', snd (prepare_features Sample.to_datetime Sample.series_mean
                    1%positive Sample.heap0) !! 1%positive = Some d' /\
    is_Some (columns d' !! "month").
Proof.
  destruct (prepared_month_and_soil Sample.to_datetime Sample.series_mean
              1%positive Sample.heap0 Sample.batch 1%positive
              (snd (prepare_features Sample.to_datetime Sample.series_mean
                      1%positive Sample.heap0)))
    as (d' & ds & ds' & soil & mean & Hd' & _ & _ & _ & _ & _ & Hm & _).
  - reflexivity.
  - reflexivity.
  - vm_compute. reflexivity.
  - exists d'. split; [exact Hd' |]. rewrite Hm. eauto.
Defined.

End FeatureFacts.

(** ** Training on a batch with a column missing *)

Module TrainingFacts.
Import PyNum PyNumFacts PyDatetime YieldPredictor YieldPredictorFacts.
Import FeatureSpec PrepareFacts.

Section Estimator.

Variable to_datetime : list cell -> option (list (option datetime)).
Variable series_mean : list cell -> option pynum.
Variable train_test_split :
  list (list cell) -> list cell ->
  option (list (list cell) * list (list cell) * list cell * list cell).
Variable Forest : Type.
Variable rf_fit :
  option Forest -> list (list cell) -> list cell -> fit_outcome Forest.
Variable evaluate : Forest -> list (list cell) -> list cell -> option pynum.

Local Abbreviation train_model :=
  (YieldPredictor.train_model to_datetime series_mean train_test_split
     Forest rf_fit evaluate).
Local Abbreviation fit_on :=
  (YieldPredictor.fit_on train_test_split Forest rf_fit evaluate).
Local Abbreviation prepare_outcome :=
  (FeatureSpec.prepare_outcome to_datetime series_mean).

Lemma prepare_outcome_needs df (h : gmap positive DataFrame) d
  (name : string) :
  In name input_columns -> columns d !! name = None ->
  fst (prepare_outcome df d h) = None.
Proof.
  unfold input_columns, FeatureSpec.prepare_outcome. simpl.
  intros [<- | [<- | [<- | [<- | []]]]] Hmiss;
    repeat match goal with
      | |- context [columns d !! ?n] =>
          destruct (columns d !! n) eqn:?; try discriminate; try reflexivity
      | |- context [to_datetime ?x] =>
          destruct (to_datetime x); try reflexivity
      | |- context [series_mean ?x] =>
          destruct (series_mean x); try reflexivity
      end.
Qed.

Lemma fit_on_needs_target (self : estimator Forest) d :
  columns d !! "y" = None -> fit_on self d = (false, self).
Proof.
  intros Hy. unfold YieldPredictor.fit_on. rewrite Hy.
  now destruct (mapM _ feature_columns).
Qed.

(** X14. A batch that lacks one of the columns [y], [ds], [crop_type],
    [weather_condition] or [soil_quality_score] is never trained on:
    [train_model] returns [False] (the KeyError stays inside) and the
    estimator is exactly as it was. *)
Theorem train_needs_columns self hd (h : gmap positive DataFrame) d0
  (name : string) :
  h !! hd = Some d0 ->
  In name ("y" :: input_columns) -> columns d0 !! name = None ->
  fst (fst (train_model self hd h)) = false /\
  snd (fst (train_model self hd h)) = self.
Proof.
  intros Hd Hname Hmiss.
  unfold YieldPredictor.train_model, load. rewrite Hd.
  destruct (df_empty d0) eqn:He; [split; reflexivity |].
  set (c := fresh (dom h)). set (h1 := <[c := d0]> h).
  assert (Hcopy : copy hd h = (Some c, h1)).
  { unfold copy. rewrite bind_load, Hd. reflexivity. }
  unfold mbind, M_bind, bind. rewrite Hcopy.
  assert (Hc : h1 !! c = Some d0) by apply lookup_insert_eq.
  rewrite (prepare_features_run to_datetime series_mean c h1 d0 Hc He).
  destruct (prepare_outcome c d0 h1) as [r h2] eqn:Ep.
  destruct (prepare_outcome_effect to_datetime series_mean c h1 d0 r h2 Hc Ep)
    as (_ & d' & Hd' & Hrows & Hcols & Hr).
  destruct Hname as [<- | Hin].
  - destruct Hr as [-> | [-> _]]; [split; reflexivity |].
    rewrite Hd'.
    destruct (df_empty d' || (nrows d' <? 10)%nat); [split; reflexivity |].
    rewrite fit_on_needs_target; [split; reflexivity |].
    rewrite Hcols; [exact Hmiss |].
    unfold written_columns. simpl. intuition discriminate.
  - pose proof (prepare_outcome_needs c h1 d0 name Hin Hmiss) as Hnone.
    rewrite Ep in Hnone. simpl in Hnone. subst r. split; reflexivity.
Qed.

End Estimator.

(** The sample batch without its crop column. *)
Lemma train_needs_columns_witness :
  let d := {| nrows := 10;
              columns := delete "crop_type" (columns Sample.batch) |} in
  let h : gmap positive DataFrame := <[1%positive := d]> ∅ in
  fst (fst (Sample.train_model Sample.trained 1%positive h)) = false /\
  snd (fst (Sample.train_model Sample.trained 1%positive h)) = Sample.trained.
Proof.
  intros d h.
  apply (train_needs_columns Sample.to_datetime Sample.series_mean
           Sample.train_test_split Sample.Forest Sample.rf_fit
           Sample.evaluate Sample.trained 1%positive h d "crop_type").
  - reflexivity.
  - unfold input_columns. simpl. tauto.
  - vm_compute. reflexivity.
Defined.

End TrainingFacts.

(** ** The status badge *)

Module ChartUtilsFacts.
Import PyStr ChartUtils.

Lemma to_lower_idem (c : ascii) : to_lower (to_lower c) = to_lower c.
Proof. destruct c as [[] [] [] [] [] [] [] []]; reflexivity. Qed.

Lemma to_upper_lower (c : ascii) : to_upper (to_lower c) = to_upper c.
Proof. destruct c as [[] [] [] [] [] [] [] []]; reflexivity. Qed.

Lemma is_cased_lower (c : ascii) : is_cased (to_lower c) = is_cased c.
Proof. destruct c as [[] [] [] [] [] [] [] []]; reflexivity. Qed.

Lemma lower_idem (s : string) : lower (lower s) = lower s.
Proof.
  induction s as [|c s IH]; simpl; [reflexivity |].
  now rewrite to_lower_idem, IH.
Qed.

Lemma title_from_lower (s : string) : forall b,
  title_from b (lower s) = title_from b s.
Proof.
  induction s as [|c s IH]; intros b; simpl; [reflexivity |].
  rewrite is_cased_lower, IH.
  destruct b; now rewrite ?to_lower_idem, ?to_upper_lower.
Qed.

Lemma colors_get_unknown (k : string) :
  ~ In k (map fst status_colors) -> colors_get status_colors k = None.
Proof.
  unfold status_colors. cbn -[String.eqb]. intros Hout.
  repeat match goal with
    | |- context [String.eqb ?k' k] =>
        destruct (String.eqb k' k) eqn:E;
        [apply String.eqb_eq in E; exfalso; apply Hout; subst; tauto |];
        clear E
    end.
  reflexivity.
Qed.

(** X15. The badge does not depend on letter case: two statuses (ASCII
    text) that are the same once lowercased give the same HTML, colours
    and label alike (the label is the status in title case). A status
    that is not good, warning, danger or info in any casing gets the
    colours of info. *)
Theorem badge_ignores_case :
  (forall s t : string,
     lower s = lower t -> create_status_badge s = create_status_badge t) /\
  (forall s : string, create_status_badge (lower s) = create_status_badge s) /\
  (forall s : string,
     ~ In (lower s) (map fst status_colors) ->
     color_scheme s = ("#d1ecf1", "#0c5460")).
Proof.
  assert (Hsame : forall s t : string,
            lower s = lower t -> create_status_badge s = create_status_badge t).
  { intros s t Hst. unfold create_status_badge, color_scheme, title.
    rewrite <- (title_from_lower s), <- (title_from_lower t), Hst.
    reflexivity. }
  split; [exact Hsame |]. split.
  - intros s. apply Hsame, lower_idem.
  - intros s Hs. unfold color_scheme.
    now rewrite (colors_get_unknown _ Hs).
Qed.

(** "WARNING" and "Warning". *)
Lemma badge_ignores_case_witness :
  create_status_badge "WARNING" = create_status_badge "Warning" /\
  color_scheme "Operational" = ("#d1ecf1", "#0c5460").
Proof.
  destruct badge_ignores_case as (Hsame & _ & Hinfo).
  split.
  - apply Hsame. reflexivity.
  - apply Hinfo. vm_compute. intuition discriminate.
Defined.

End ChartUtilsFacts.

(** ** Real-time listeners *)

Module ListenersFacts.
Import Listeners.

Abbreviation keys d := (map fst d).
Abbreviation registrations d := (map snd d).

Lemma dict_get_skip (k : string) (pre l : list (string * nat)) :
  ~ In k (keys pre) -> dict_get k (pre ++ l) = dict_get k l.
Proof.
  induction pre as [|[k' v] pre IH]; simpl; [reflexivity |].
  intros Hn. destruct (String.eqb_spec k' k) as [-> | _]; [tauto |].
  apply IH. tauto.
Qed.

Lemma dict_del_skip (k : string) (pre l : list (string * nat)) :
  ~ In k (keys pre) -> dict_del k (pre ++ l) = pre ++ dict_del k l.
Proof.
  induction pre as [|[k' v] pre IH]; simpl; [reflexivity |].
  intros Hn. destruct (String.eqb_spec k' k) as [-> | _]; [tauto |].
  rewrite IH; tauto.
Qed.

Lemma keys_dict_set (k : string) (v : nat) (d : list (string * nat)) x :
  In x (keys (dict_set k v d)) -> x = k \/ In x (keys d).
Proof.
  induction d as [|[k' v'] d IH]; simpl; [intuition auto |].
  destruct (String.eqb_spec k' k) as [-> | _]; simpl; [intuition auto |].
  intros [<- | H]; [tauto |]. destruct (IH H); tauto.
Qed.

Lemma keys_dict_del (k : string) (d : list (string * nat)) x :
  In x (keys (dict_del k d)) -> In x (keys d).
Proof.
  induction d as [|[k' v'] d IH]; simpl; [tauto |].
  destruct (String.eqb k' k); simpl; tauto.
Qed.

Lemma dict_set_distinct (k : string) (v : nat) (d : list (string * nat)) :
  List.NoDup (keys d) -> List.NoDup (keys (dict_set k v d)).
Proof.
  induction d as [|[k' v'] d IH]; simpl; intros Hnd.
  - constructor; [simpl; tauto | constructor].
  - inversion Hnd as [|? ? Hnot Hrest]; subst.
    destruct (String.eqb_spec k' k) as [-> | Hne]; simpl.
    + now constructor.
    + constructor; [| now apply IH].
      intros H. apply keys_dict_set in H. destruct H; [congruence | tauto].
Qed.

Lemma dict_del_distinct (k : string) (d : list (string * nat)) :
  List.NoDup (keys d) -> List.NoDup (keys (dict_del k d)).
Proof.
  induction d as [|[k' v'] d IH]; simpl; intros Hnd; [constructor |].
  inversion Hnd as [|? ? Hnot Hrest]; subst.
  destruct (String.eqb k' k); simpl; [exact Hrest |].
  constructor; [| now apply IH].
  intros H. apply keys_dict_del in H. tauto.
Qed.

(** [self.listeners] never holds a path twice. *)
Lemma registered_distinct st :
  registered st -> List.NoDup (keys (listeners st)).
Proof.
  induction 1 as [| listen path st _ IH | closes path st _ IH]; simpl.
  - constructor.
  - destruct listen; simpl; [now apply dict_set_distinct | exact IH].
  - unfold stop_real_time_listener.
    destruct (dict_get path (listeners st)) as [r|]; [| exact IH].
    destruct (closes r); simpl; [now apply dict_del_distinct | exact IH].
Qed.

Lemma cleanup_from (closes : nat -> bool) (rest : list (string * nat)) :
  forall (kept : list (string * nat)) (calls : list nat),
  List.NoDup (keys (kept ++ rest)) ->
  fold_left (fun s path => stop_real_time_listener closes path s)
            (keys rest)
            {| listeners := kept ++ rest; close_calls := calls |} =
  {| listeners :=
       kept ++ List.filter (fun e => negb (closes (snd e))) rest;
     close_calls := calls ++ registrations rest |}.
Proof.
  induction rest as [|[p r] rest IH]; intros kept calls Hnd; simpl.
  - now rewrite !app_nil_r.
  - assert (Hp : ~ In p (keys kept)).
    { rewrite map_app in Hnd. simpl in Hnd.
      apply List.NoDup_remove_2 in Hnd. rewrite in_app_iff in Hnd. tauto. }
    unfold stop_real_time_listener at 2. simpl.
    rewrite (dict_get_skip p kept _ Hp). simpl. rewrite String.eqb_refl.
    destruct (closes r); simpl.
    + rewrite (dict_del_skip p kept _ Hp). simpl. rewrite String.eqb_refl.
      rewrite IH.
      * now rewrite <- app_assoc.
      * rewrite map_app in *. simpl in Hnd.
        now apply List.NoDup_remove_1 in Hnd.
    + replace (kept ++ (p, r) :: rest) with ((kept ++ [(p, r)]) ++ rest)
        by now rewrite <- app_assoc.
      rewrite IH.
      * now rewrite <- !app_assoc.
      * now rewrite <- app_assoc.
Qed.

(** What [cleanup] leaves of the registered listeners. *)
Lemma cleanup_result (closes : nat -> bool) st :
  registered st ->
  cleanup closes st =
    {| listeners :=
         List.filter (fun e => negb (closes (snd e))) (listeners st);
       close_calls := close_calls st ++ registrations (listeners st) |}.
Proof.
  intros Hreg. pose proof (registered_distinct st Hreg) as Hnd.
  unfold cleanup. destruct st as [ls calls]. simpl in *.
  exact (cleanup_from closes ls [] calls Hnd).
Qed.

(** X16. [cleanup] calls [close()] exactly once on every registered
    listener, in the order the paths were first registered; a listener
    whose [close()] returns is forgotten, one whose [close()] raises
    stays registered. When every [close()] returns, no listener is
    left. *)
Theorem cleanup_closes_each_once (closes : nat -> bool) st :
  registered st ->
  listeners (cleanup closes st) =
    List.filter (fun e => negb (closes (snd e))) (listeners st) /\
  close_calls (cleanup closes st) =
    close_calls st ++ registrations (listeners st) /\
  ((forall r, closes r = true) -> listeners (cleanup closes st) = []).
Proof.
  intros Hreg. rewrite (cleanup_result closes st Hreg). simpl.
  split; [reflexivity |]. split; [reflexivity |].
  intros Hall. clear Hreg.
  induction (listeners st) as [|[p r] ls IH]; simpl; [reflexivity |].
  rewrite Hall. simpl. exact IH.
Qed.

(** Two listeners, the first of which refuses to close. *)
Lemma cleanup_closes_each_once_witness :
  let st := start_real_time_listener (Some 2) "alerts"
              (start_real_time_listener (Some 1) "sensors"
                 {| listeners := []; close_calls := [] |}) in
  let closes := fun r => negb (Nat.eqb r 1) in
  listeners (cleanup closes st) = [("sensors", 1)] /\
  close_calls (cleanup closes st) = [1; 2].
Proof.
  intros st closes.
  destruct (cleanup_closes_each_once closes st) as (Hl & Hc & _).
  - apply reg_start, reg_start, reg_init.
  - split; [rewrite Hl | rewrite Hc]; reflexivity.
Defined.

Lemma dict_get_set (k : string) (v : nat) (d : list (string * nat)) :
  dict_get k (dict_set k v d) = Some v.
Proof.
  induction d as [|[k' v'] d IH]; simpl.
  - now rewrite String.eqb_refl.
  - destruct (String.eqb k' k) eqn:E; simpl; [| now rewrite E].
    now rewrite String.eqb_refl.
Qed.

Lemma registrations_set_twice (k : string) (v1 v2 : nat)
  (d : list (string * nat)) x :
  In x (registrations (dict_set k v2 (dict_set k v1 d))) ->
  x = v2 \/ In x (registrations d).
Proof.
  induction d as [|[k' v'] d IH]; simpl.
  - rewrite String.eqb_refl. simpl. intuition auto.
  - destruct (String.eqb k' k) eqn:E; simpl.
    + rewrite String.eqb_refl. simpl. intuition auto.
    + rewrite E. simpl. intros [<- | H]; [tauto |].
      destruct (IH H); tauto.
Qed.

(** X17. Starting a listener on a path that already has one replaces
    the registration without closing it: after two starts on the same
    path only the second registration is in [self.listeners], no
    [close()] has been called, and neither [stop_real_time_listener] nor
    [cleanup] ever closes the first one. *)
Theorem restart_drops_first_listener (closes : nat -> bool)
  (path : string) (r1 r2 : nat) st :
  registered st ->
  r1 <> r2 ->
  ~ In r1 (registrations (listeners st)) -> ~ In r1 (close_calls st) ->
  let st2 := start_real_time_listener (Some r2) path
               (start_real_time_listener (Some r1) path st) in
  dict_get path (listeners st2) = Some r2 /\
  close_calls st2 = close_calls st /\
  ~ In r1 (registrations (listeners st2)) /\
  ~ In r1 (close_calls (stop_real_time_listener closes path st2)) /\
  ~ In r1 (close_calls (cleanup closes st2)).
Proof.
  intros Hreg Hne Hnew Hcalls st2.
  assert (Hreg2 : registered st2) by (apply reg_start, reg_start, Hreg).
  assert (Hget : dict_get path (listeners st2) = Some r2)
    by apply dict_get_set.
  assert (Hgone : ~ In r1 (registrations (listeners st2))).
  { intros H. apply registrations_set_twice in H. destruct H; auto. }
  split; [exact Hget |]. split; [reflexivity |]. split; [exact Hgone |].
  split.
  - unfold stop_real_time_listener. rewrite Hget.
    destruct (closes r2); simpl; rewrite in_app_iff; simpl;
      intros [H | [H | []]]; auto.
  - rewrite (cleanup_result closes st2 Hreg2). simpl.
    rewrite in_app_iff. intros [H | H]; auto.
Qed.

(** The "alerts" listener is started twice. *)
Lemma restart_drops_first_listener_witness :
  let st2 := start_real_time_listener (Some 2) "alerts"
               (start_real_time_listener (Some 1) "alerts"
                  {| listeners := []; close_calls := [] |}) in
  listeners st2 = [("alerts", 2)] /\
  ~ In 1 (close_calls (cleanup (fun _ => true) st2)).
Proof.
  intros st2. split; [reflexivity |].
  destruct (restart_drops_first_listener (fun _ => true) "alerts" 1 2
              {| listeners := []; close_calls := [] |})
    as (_ & _ & _ & _ & Hnever).
  - apply reg_init.
  - discriminate.
  - simpl. tauto.
  - simpl. tauto.
  - exact Hnever.
Defined.

End ListenersFacts.

(** ** Sensor readings *)

Module SensorFacts.
Import PyNum FirebaseService RealtimeData.

Lemma by_key_perm {A} (m : gmap string A) : by_key m ≡ₚ map_to_list m.
Proof. apply FirebaseFacts.stable_sort_perm. Qed.

Lemma elem_of_by_key {A} (m : gmap string A) (k : string) (v : A) :
  (k, v) ∈ by_key m <-> m !! k = Some v.
Proof. rewrite by_key_perm. apply elem_of_map_to_list. Qed.

Lemma by_key_length {A} (m : gmap string A) : length (by_key m) = size m.
Proof. rewrite by_key_perm. apply length_map_to_list. Qed.

Lemma elem_of_rows_of_sensors data (row : sensor_row) :
  row ∈ rows_of_sensors data <->
  exists sid readings ts r,
    (sid, readings) ∈ data /\ readings !! ts = Some r /\
    row = ReadingRow sid ts r.
Proof.
  unfold rows_of_sensors. rewrite list_elem_of_In, in_flat_map. split.
  - intros ([sid readings] & Hin & Hrow).
    apply in_map_iff in Hrow as ([ts r] & <- & Hr).
    exists sid, readings, ts, r. split; [now apply list_elem_of_In |].
    split; [| reflexivity].
    now apply elem_of_by_key, list_elem_of_In.
  - intros (sid & readings & ts & r & Hin & Hr & ->).
    exists (sid, readings). split; [now apply list_elem_of_In |].
    apply in_map_iff. exists (ts, r). split; [reflexivity |].
    now apply list_elem_of_In, elem_of_by_key.
Qed.

Lemma check_sensor_alerts_db_down str oa sid stype v fb :
  db_ok oa = false -> _check_sensor_alerts str oa sid stype v fb = fb.
Proof.
  intros Hdown. unfold _check_sensor_alerts, create_alert. rewrite Hdown.
  destruct (lookup_threshold alert_thresholds stype) as [[lo hi]|];
    [| reflexivity].
  destruct (py_lt v lo); [reflexivity |].
  destruct (py_gt v hi); reflexivity.
Qed.

Lemma check_sensor_alerts_at_most_one str oa sid stype v fb :
  size (alerts (_check_sensor_alerts str oa sid stype v fb))
    <= S (size (alerts fb)) /\
  forall k, k <> push_key oa ->
    alerts (_check_sensor_alerts str oa sid stype v fb) !! k = alerts fb !! k.
Proof.
  assert (Hone : forall t m,
    size (alerts (snd (create_alert oa t m "high" (Some sid) fb)))
      <= S (size (alerts fb)) /\
    forall k, k <> push_key oa ->
      alerts (snd (create_alert oa t m "high" (Some sid) fb)) !! k
      = alerts fb !! k).
  { intros t m. unfold create_alert, _send_push_notification.
    destruct (db_ok oa); simpl; [| split; [lia | reflexivity]].
    destruct (fcm_ok oa); simpl.
    - split.
      + rewrite map_size_insert. destruct (alerts fb !! push_key oa); simpl; lia.
      + intros k Hk. now rewrite lookup_insert_ne.
    - split.
      + rewrite map_size_insert. destruct (alerts fb !! push_key oa); simpl; lia.
      + intros k Hk. now rewrite lookup_insert_ne. }
  unfold _check_sensor_alerts.
  destruct (lookup_threshold alert_thresholds stype) as [[lo hi]|];
    [| split; [lia | reflexivity]].
  destruct (py_lt v lo); [apply Hone |].
  destruct (py_gt v hi); [apply Hone | split; [lia | reflexivity]].
Qed.

(** X18. [add_sensor_reading] answers [True] exactly when the reading has
    been written. After [False] the database is as it was: no reading and
    no alert. After [True] the reading is stored under its sensor id and
    the timestamp of the call, with the location [(0, 0)] when none was
    given; every other reading and the equipment are untouched; at most
    one alert has been added; and none when the alert could not be
    created, which does not turn the answer into [False]. *)
Theorem reading_write_decides_answer (str : pynum -> string) (o oa : outside)
  (sid stype : string) (v : pynum) (u : string) (loc : option geo)
  (db : realtime) :
  names_child sid = true ->
  let res := add_sensor_reading str o oa sid stype v u loc db in
  (fst res = false -> snd res = db) /\
  (fst res = true ->
     reading_at (snd res) sid (now_iso o) =
       Some {| r_value := v; r_unit := u; r_timestamp := now_iso o;
               r_sensor_type := stype;
               r_location := default default_geo loc |} /\
     (forall sid' ts, (sid', ts) <> (sid, now_iso o) ->
        reading_at (snd res) sid' ts = reading_at db sid' ts) /\
     equipment (snd res) = equipment db /\
     size (alerts (store (snd res))) <= S (size (alerts (store db))) /\
     (db_ok oa = false -> store (snd res) = store db)).
Proof.
  intros _ res. subst res. unfold add_sensor_reading.
  destruct (db_ok o); simpl; (split; [| intros Hans]); try discriminate;
    [| reflexivity].
  split; [| split; [| split; [reflexivity | split]]].
  - unfold reading_at. simpl. rewrite lookup_insert_eq. simpl.
    now rewrite lookup_insert_eq.
  - intros sid' ts Hother. unfold reading_at. simpl.
    destruct (decide (sid' = sid)) as [-> | Hsid].
    + rewrite lookup_insert_eq. simpl.
      rewrite lookup_insert_ne by congruence.
      now destruct (sensors db !! sid).
    + now rewrite lookup_insert_ne.
  - apply check_sensor_alerts_at_most_one.
  - intros Hdown. now apply check_sensor_alerts_db_down.
Qed.

(** A dry soil probe reports while the alert service is down. *)
Lemma reading_write_decides_answer_witness :
  let down := {| db_ok := false; fcm_ok := false; push_key := "-Na0";
                 now_iso := ""; push_key_is_key := I |} in
  let res := add_sensor_reading (fun _ => "12")
               (working "-Na0" "2024-05-01T06:00:00") down
               "probe-1" "soil_moisture" (PyInt 12) "%" None empty_db in
  fst res = true /\
  reading_at (snd res) "probe-1" "2024-05-01T06:00:00" =
    Some {| r_value := PyInt 12; r_unit := "%";
            r_timestamp := "2024-05-01T06:00:00";
            r_sensor_type := "soil_moisture";
            r_location := default_geo |} /\
  store (snd res) = empty_store.
Proof.
  intros down res.
  destruct (reading_write_decides_answer (fun _ => "12")
              (working "-Na0" "2024-05-01T06:00:00") down
              "probe-1" "soil_moisture" (PyInt 12) "%" None empty_db)
    as [_ Htrue]; [reflexivity |].
  destruct (Htrue eq_refl) as (Hat & _ & _ & _ & Hstore).
  split; [reflexivity |]. split; [exact Hat |].
  apply Hstore. reflexivity.
Defined.

Lemma get_sensor_data_all o (limit : Z) db :
  db_ok o = true -> (0 <= limit)%Z ->
  get_sensor_data o None limit db =
    rows_of_sensors (limit_to_last (Z.to_nat limit) (by_key (sensors db))).
Proof.
  intros Hok Hlim. unfold get_sensor_data. rewrite Hok. simpl.
  destruct (Z.ltb_spec limit 0); [lia | reflexivity].
Qed.

(** The readings the service stores carry their own key as timestamp. *)
Lemma tracked_timestamps db :
  tracked db ->
  forall sid ts r, reading_at db sid ts = Some r -> r_timestamp r = ts.
Proof.
  induction 1 as [| str o oa sid0 st v u loc db _ IH _ _
                  | o oh id s loc op db _ IH _]; intros sid ts r.
  - unfold reading_at. simpl. now rewrite lookup_empty.
  - unfold add_sensor_reading. destruct (db_ok o); simpl; [| apply IH].
    destruct (decide ((sid, ts) = (sid0, now_iso o))) as [E | Hne].
    + inversion E; subst. unfold reading_at. simpl.
      rewrite lookup_insert_eq. simpl. rewrite lookup_insert_eq.
      now intros [= <-].
    + intros Hat. apply (IH sid ts). rewrite <- Hat.
      unfold reading_at. simpl.
      destruct (decide (sid = sid0)) as [-> | Hsid].
      * rewrite lookup_insert_eq. simpl.
        rewrite lookup_insert_ne by congruence.
        now destruct (sensors db !! sid0).
      * now rewrite lookup_insert_ne.
  - unfold track_equipment_status.
    destruct (db_ok o); [| apply IH].
    destruct (db_ok oh); apply IH.
Qed.

(** X19. A reading that [add_sensor_reading] has stored is listed by
    [get_sensor_data()] as a row with the reading's entries and its
    sensor id, as long as the limit is above the number of sensors the
    database held before the call. The limit counts sensors, not
    readings: with such a limit the listing has one row for every stored
    reading. *)
Theorem stored_reading_is_listed (str : pynum -> string) (o oa og : outside)
  (sid stype : string) (v : pynum) (u : string) (loc : option geo)
  (limit : Z) (db : realtime) :
  names_child sid = true ->
  let res := add_sensor_reading str o oa sid stype v u loc db in
  fst res = true ->
  db_ok og = true ->
  (Z.of_nat (size (sensors db)) < limit)%Z ->
  ReadingRow sid (now_iso o)
    {| r_value := v; r_unit := u; r_timestamp := now_iso o;
       r_sensor_type := stype; r_location := default default_geo loc |}
    ∈ get_sensor_data og None limit (snd res) /\
  length (get_sensor_data og None limit (snd res)) =
    readings_count (snd res).
Proof.
  intros _ res Hans Hog Hlim. subst res. unfold add_sensor_reading in *.
  destruct (db_ok o); [| discriminate]. simpl.
  rewrite get_sensor_data_all by (assumption || lia). simpl.
  rewrite FirebaseFacts.limit_to_last_all.
  - split; [| reflexivity].
    apply elem_of_rows_of_sensors. eexists _, _, _, _.
    split; [apply elem_of_by_key, lookup_insert_eq |].
    split; [apply lookup_insert_eq | reflexivity].
  - rewrite by_key_length, map_size_insert.
    destruct (sensors db !! sid); simpl; lia.
Qed.

(** Two probes report in turn. *)
Lemma stored_reading_is_listed_witness :
  let db1 := snd (add_sensor_reading (fun _ => "")
                    (working "-Na0" "2024-05-01T06:00:00") (working "-N1" "")
                    "probe-1" "temperature" (PyInt 21) "C" None empty_db) in
  let res := add_sensor_reading (fun _ => "")
               (working "-Na0" "2024-05-01T06:05:00") (working "-N2" "")
               "probe-2" "humidity" (PyInt 55) "%" None db1 in
  ReadingRow "probe-2" "2024-05-01T06:05:00"
    {| r_value := PyInt 55; r_unit := "%";
       r_timestamp := "2024-05-01T06:05:00";
       r_sensor_type := "humidity"; r_location := default_geo |}
    ∈ get_sensor_data (working "-Na0" "") None 100 (snd res) /\
  length (get_sensor_data (working "-Na0" "") None 100 (snd res)) = 2.
Proof.
  intros db1 res.
  destruct (stored_reading_is_listed (fun _ => "")
              (working "-Na0" "2024-05-01T06:05:00") (working "-N2" "")
              (working "-Na0" "")
              "probe-2" "humidity" (PyInt 55) "%" None 100 db1)
    as [Hin Hlen]; try reflexivity.
  split; [exact Hin |]. unfold res. rewrite Hlen. reflexivity.
Defined.

(** X20. What [get_sensor_data()] lists without a sensor type: every row
    is a reading stored in the database, under the row's sensor id and
    timestamp; the rows come from at most [limit] sensors, and every
    reading of each of these sensors is listed, however many there are.
    When the service itself has stored the readings, under sensor ids
    and timestamps that each name one child, the timestamp of a row is
    the reading's own. *)
Theorem sensor_listing (og : outside) (limit : Z) (db : realtime) :
  exists chosen : list string,
    (Z.of_nat (length chosen) <= Z.max 0 limit)%Z /\
    (forall row, row ∈ get_sensor_data og None limit db ->
       exists sid ts r,
         row = ReadingRow sid ts r /\ sid ∈ chosen /\
         reading_at db sid ts = Some r /\
         (tracked db -> r_timestamp r = ts)) /\
    (db_ok og = true -> (0 <= limit)%Z ->
     forall sid ts r,
       sid ∈ chosen -> reading_at db sid ts = Some r ->
       ReadingRow sid ts r ∈ get_sensor_data og None limit db).
Proof.
  set (picked := limit_to_last (Z.to_nat limit) (by_key (sensors db))).
  exists (map fst picked).
  assert (Hsub : forall sid rs, (sid, rs) ∈ picked -> sensors db !! sid = Some rs).
  { intros sid rs Hin. apply elem_of_by_key.
    now apply (FirebaseFacts.limit_to_last_subseteq (Z.to_nat limit)). }
  split; [| split].
  - rewrite length_map.
    pose proof (AlertStoreFacts.limit_to_last_length (Z.to_nat limit)
                  (by_key (sensors db))) as Hlen.
    fold picked in Hlen. lia.
  - intros row Hrow. unfold get_sensor_data in Hrow.
    destruct (db_ok og); simpl in Hrow; [| now apply elem_of_nil in Hrow].
    destruct (limit <? 0)%Z; [now apply elem_of_nil in Hrow |].
    fold picked in Hrow.
    apply elem_of_rows_of_sensors in Hrow
      as (sid & rs & ts & r & Hin & Hr & ->).
    exists sid, ts, r. split; [reflexivity |].
    assert (Hat : reading_at db sid ts = Some r).
    { unfold reading_at. now rewrite (Hsub _ _ Hin). }
    split; [| split; [exact Hat |]].
    + apply list_elem_of_In, in_map_iff. exists (sid, rs).
      split; [reflexivity | now apply list_elem_of_In].
    + intros Htr. now apply (tracked_timestamps db Htr sid).
  - intros Hog Hlim sid ts r Hsid Hat.
    rewrite get_sensor_data_all by assumption. fold picked.
    apply list_elem_of_In, in_map_iff in Hsid as ([sid' rs] & <- & Hin).
    apply list_elem_of_In in Hin. simpl in Hat.
    apply elem_of_rows_of_sensors. exists sid', rs, ts, r.
    split; [exact Hin |]. split; [| reflexivity].
    unfold reading_at in Hat. now rewrite (Hsub _ _ Hin) in Hat.
Qed.

(** Two probes have reported and one sensor is asked for: the listed row
    is the reading of the second probe. *)
Lemma sensor_listing_witness :
  let db1 := snd (add_sensor_reading (fun _ => "")
                    (working "-Na0" "2024-05-01T06:00:00") (working "-N1" "")
                    "probe-1" "temperature" (PyInt 21) "C" None empty_db) in
  let db := snd (add_sensor_reading (fun _ => "")
                   (working "-Na0" "2024-05-01T06:05:00") (working "-N2" "")
                   "probe-2" "humidity" (PyInt 55) "%" None db1) in
  let r2 := {| r_value := PyInt 55; r_unit := "%";
               r_timestamp := "2024-05-01T06:05:00";
               r_sensor_type := "humidity"; r_location := default_geo |} in
  exists chosen : list string,
    (Z.of_nat (length chosen) <= 1)%Z /\
    exists sid ts r,
      ReadingRow "probe-2" "2024-05-01T06:05:00" r2 = ReadingRow sid ts r /\
      sid ∈ chosen /\ reading_at db sid ts = Some r /\ r_timestamp r = ts.
Proof.
  intros db1 db r2.
  destruct (sensor_listing (working "-Na0" "") 1 db)
    as (chosen & Hlen & Hsound & _).
  exists chosen. split; [exact Hlen |].
  destruct (Hsound (ReadingRow "probe-2" "2024-05-01T06:05:00" r2))
    as (sid & ts & r & E & Hc & Hat & Hts).
  - apply list_elem_of_In. vm_compute. left. reflexivity.
  - exists sid, ts, r. repeat split; try assumption.
    apply Hts.
    apply tracked_reading; [| reflexivity | reflexivity].
    apply tracked_reading; [| reflexivity | reflexivity].
    apply tracked_empty.
Defined.

Lemma get_sensor_data_typed o (t : string) (limit : Z) db :
  PyStr.truthy t = true ->
  get_sensor_data o (Some t) limit db ⊆
    rows_of_readings (by_key (default ∅ (sensors db !! t))).
Proof.
  intros Ht row Hrow. unfold get_sensor_data in Hrow. rewrite Ht in Hrow.
  destruct (db_ok o); simpl in Hrow; [| now apply elem_of_nil in Hrow].
  destruct (limit <? 0)%Z; [now apply elem_of_nil in Hrow |].
  unfold rows_of_readings in *.
  apply list_elem_of_fmap in Hrow as (c & -> & Hc).
  apply list_elem_of_fmap. exists c. split; [reflexivity |].
  now apply (FirebaseFacts.limit_to_last_subseteq (Z.to_nat limit)).
Qed.

(** X21. With a sensor type, [get_sensor_data] reads the node of the
    sensor whose id is that word: each row it returns is made from one
    reading stored under that sensor id and holds only the reading's
    location, with the reading's timestamp as ['sensor_id'] and the word
    location as ['timestamp']; no row holds a value. When no sensor has
    the type as its id, nothing is listed, whatever the types of the
    stored readings. *)
Theorem typed_query_reads_sensor_id (og : outside) (t : string) (limit : Z)
  (db : realtime) :
  names_child t = true ->
  (forall row, row ∈ get_sensor_data og (Some t) limit db ->
     exists ts r,
       reading_at db t ts = Some r /\
       row = LocationRow ts "location" (r_location r)) /\
  (sensors db !! t = None -> get_sensor_data og (Some t) limit db = []).
Proof.
  intros Hname.
  assert (Ht : PyStr.truthy t = true).
  { unfold names_child in Hname. now apply andb_prop in Hname. }
  split.
  - intros row Hrow. apply (get_sensor_data_typed og t limit db Ht) in Hrow.
    unfold rows_of_readings in Hrow.
    apply list_elem_of_fmap in Hrow as ([ts r] & -> & Hc).
    exists ts, r. split; [| reflexivity].
    apply elem_of_by_key in Hc. unfold reading_at.
    destruct (sensors db !! t); simpl in *; [exact Hc |].
    now rewrite lookup_empty in Hc.
  - intros Hnone.
    pose proof (get_sensor_data_typed og t limit db Ht) as Hsub.
    rewrite Hnone in Hsub. simpl in Hsub.
    destruct (get_sensor_data og (Some t) limit db) as [|row rows];
      [reflexivity |].
    exfalso. specialize (Hsub row (list_elem_of_here _ _)).
    unfold rows_of_readings, by_key in Hsub.
    rewrite map_to_list_empty in Hsub. now apply elem_of_nil in Hsub.
Qed.

(** A temperature reading of probe-1 is not found under "temperature",
    and asking for "probe-1" gives its location only. *)
Lemma typed_query_reads_sensor_id_witness :
  let db := snd (add_sensor_reading (fun _ => "")
                   (working "-Na0" "2024-05-01T06:00:00") (working "-N1" "")
                   "probe-1" "temperature" (PyInt 21) "C" None empty_db) in
  get_sensor_data (working "-Na0" "") (Some "temperature") 100 db = [] /\
  get_sensor_data (working "-Na0" "") (Some "probe-1") 100 db =
    [LocationRow "2024-05-01T06:00:00" "location" default_geo].
Proof.
  intros db. split.
  - destruct (typed_query_reads_sensor_id (working "-Na0" "") "temperature"
                100 db) as [_ Hnone]; [reflexivity |].
    apply Hnone. reflexivity.
  - vm_compute. reflexivity.
Defined.

End SensorFacts.


(** ** Equipment tracking *)

Module EquipmentFacts.
Import PyNum FirebaseService RealtimeData.

Lemma names_child_truthy (k : string) :
  names_child k = true -> PyStr.truthy k = true.
Proof. unfold names_child. intros H. now apply andb_prop in H. Qed.

(** X22. What one call of [track_equipment_status] leaves behind. After
    [True] the current status of the equipment is the new one,
    [get_equipment_status] of that id returns it, and the history holds it
    under the pushed key beside everything it held. After [False] the
    history is as before, but the current status may already be the new
    one. No other equipment, no sensor reading and no alert is touched. *)
Theorem status_write_and_history (o oh og : outside) (id s : string)
  (loc : option geo) (op : option string) (db : realtime) :
  names_child id = true ->
  let data := {| e_status := s; e_location := default default_geo loc;
                 e_operator := op; e_timestamp := now_iso o |} in
  let res := track_equipment_status o oh id s loc op db in
  (fst res = true ->
     status_at (snd res) id = Some data /\
     (db_ok og = true ->
      get_equipment_status og (Some id) (snd res) = OneStatus (Some data)) /\
     history_at (snd res) id = <[push_key oh := data]> (history_at db id) /\
     (history_at db id !! push_key oh = None ->
      size (history_at (snd res) id) = S (size (history_at db id)))) /\
  (fst res = false ->
     history_at (snd res) id = history_at db id /\
     (status_at (snd res) id = status_at db id \/
      status_at (snd res) id = Some data)) /\
  (forall id', id' <> id ->
     equipment (snd res) !! id' = equipment db !! id') /\
  sensors (snd res) = sensors db /\ store (snd res) = store db.
Proof.
  intros Hname data res. subst res. unfold track_equipment_status.
  pose proof (names_child_truthy id Hname) as Ht.
  fold data. destruct (db_ok o); [destruct (db_ok oh) |]; simpl.
  - split; [intros _ | split; [discriminate |]].
    + unfold status_at, history_at, get_equipment_status. simpl.
      rewrite Ht, !lookup_insert_eq. simpl.
      split; [reflexivity |]. split; [now intros -> |].
      split; [reflexivity |]. intros Hfresh.
      now apply map_size_insert_None.
    + split; [| split; reflexivity].
      intros id' Hid. now rewrite lookup_insert_ne.
  - split; [discriminate | split; [intros _ |]].
    + unfold status_at, history_at. simpl. rewrite !lookup_insert_eq. simpl.
      split; [reflexivity | now right].
    + split; [| split; reflexivity].
      intros id' Hid. now rewrite lookup_insert_ne.
  - split; [discriminate | split; [intros _ |]].
    + split; [reflexivity | now left].
    + split; [| split; reflexivity]. reflexivity.
Qed.

(** The tractor is reported broken while the history push fails: the
    answer is [False], and the tractor is listed as broken. *)
Lemma status_write_and_history_witness :
  let down := {| db_ok := false; fcm_ok := false; push_key := "-Na0";
                 now_iso := ""; push_key_is_key := I |} in
  let db1 := snd (track_equipment_status
                    (working "-Na0" "2024-05-01T06:00:00") (working "-H1" "")
                    "tractor-1" "active" None (Some "Ama") empty_db) in
  let res := track_equipment_status
               (working "-Na0" "2024-05-02T09:00:00") down
               "tractor-1" "broken" None None db1 in
  fst res = false /\
  size (history_at (snd res) "tractor-1") = 1 /\
  size (history_at db1 "tractor-1") = 1 /\
  get_equipment_status (working "-Na0" "") (Some "tractor-1") db1 =
    OneStatus (Some {| e_status := "active"; e_location := default_geo;
                       e_operator := Some "Ama";
                       e_timestamp := "2024-05-01T06:00:00" |}) /\
  status_at (snd res) "tractor-1" <> status_at db1 "tractor-1".
Proof.
  intros down db1 res.
  destruct (status_write_and_history
              (working "-Na0" "2024-05-01T06:00:00") (working "-H1" "")
              (working "-Na0" "") "tractor-1" "active" None (Some "Ama")
              empty_db) as ((_ & Hget & _ & Hsize) & _); [reflexivity.. |].
  destruct (status_write_and_history
              (working "-Na0" "2024-05-02T09:00:00") down
              (working "-Na0" "") "tractor-1" "broken" None None db1)
    as (_ & Hfalse & _); [reflexivity |].
  destruct (Hfalse eq_refl) as [Hhist _].
  split; [reflexivity |].
  split; [unfold res; rewrite Hhist; apply Hsize; reflexivity |].
  split; [apply Hsize; reflexivity |].
  split; [apply Hget; reflexivity |].
  vm_compute. discriminate.
Defined.

(** An equipment node the service has made has a current status. *)
Lemma tracked_has_status db :
  tracked db ->
  forall id node, equipment db !! id = Some node ->
                  is_Some (current_status node).
Proof.
  induction 1 as [| str o oa sid0 st v u loc db _ IH _ _
                  | o oh id0 s loc op db _ IH _]; intros id node.
  - simpl. now rewrite lookup_empty.
  - unfold add_sensor_reading. destruct (db_ok o); apply IH.
  - unfold track_equipment_status.
    destruct (db_ok o); [| apply IH].
    destruct (db_ok oh); simpl;
      (destruct (decide (id = id0)) as [-> | Hne];
       [rewrite lookup_insert_eq; intros [= <-]; simpl; eauto
       | rewrite lookup_insert_ne by congruence; apply IH]).
Qed.

Lemma omap_keys_sublist {A B} (f : A -> option B) (l : list (string * A)) :
  (omap (fun '(k, x) => (fun y => (k, y)) <$> f x) l).*1 `sublist_of` l.*1.
Proof.
  induction l as [|[k x] l IH]; simpl; [constructor |].
  destruct (f x); simpl; now constructor.
Qed.

Lemma omap_all_length {A B} (f : A -> option B) (l : list A) :
  (forall x, x ∈ l -> is_Some (f x)) -> length (omap f l) = length l.
Proof.
  induction l as [|x l IH]; intros Hall; simpl; [reflexivity |].
  destruct (Hall x (list_elem_of_here _ _)) as [y ->]. simpl.
  f_equal. apply IH. intros z Hz. apply Hall. now apply list_elem_of_further.
Qed.

Lemma elem_of_all_statuses db (id : string) (s : status_data) :
  (id, s) ∈ all_statuses db <-> status_at db id = Some s.
Proof.
  unfold all_statuses, status_at. rewrite list_elem_of_omap. split.
  - intros ([k node] & Hin & Hf).
    apply SensorFacts.elem_of_by_key in Hin.
    destruct (current_status node) as [s'|] eqn:Ec; simpl in Hf;
      [| discriminate].
    inversion Hf; subst. rewrite Hin. simpl. exact Ec.
  - destruct (equipment db !! id) as [node|] eqn:En; simpl;
      [| discriminate].
    intros Hc. exists (id, node).
    split; [now apply SensorFacts.elem_of_by_key |].
    now rewrite Hc.
Qed.

(** X23. The two forms of [get_equipment_status] agree. Without an id it
    lists a status under an equipment id exactly when asking for that id
    returns this status, and no id comes twice; and when the service
    has tracked the equipment under ids that each name one child, every
    equipment of the database is in the list. *)
Theorem equipment_listing (og : outside) (db : realtime) :
  db_ok og = true ->
  exists l,
    get_equipment_status og None db = AllStatuses l /\
    (forall id s, names_child id = true ->
       ((id, s) ∈ l <->
        get_equipment_status og (Some id) db = OneStatus (Some s))) /\
    NoDup (l.*1) /\
    (tracked db -> length l = size (equipment db)).
Proof.
  intros Hog. exists (all_statuses db).
  unfold get_equipment_status. rewrite Hog.
  split; [reflexivity |]. split; [| split].
  - intros id s Hname. rewrite (names_child_truthy id Hname).
    rewrite elem_of_all_statuses. fold (status_at db id).
    split; [now intros -> | now intros [= ->]].
  - eapply sublist_NoDup;
      [| apply (omap_keys_sublist current_status (by_key (equipment db)))].
    rewrite SensorFacts.by_key_perm. apply NoDup_fst_map_to_list.
  - intros Htr. unfold all_statuses.
    rewrite omap_all_length; [apply SensorFacts.by_key_length |].
    intros [id node] Hin. apply SensorFacts.elem_of_by_key in Hin.
    destruct (tracked_has_status db Htr id node Hin) as [s ->].
    simpl. eauto.
Qed.

(** A tractor and a pump. *)
Lemma equipment_listing_witness :
  let db1 := snd (track_equipment_status
                    (working "-Na0" "2024-05-01T06:00:00") (working "-H1" "")
                    "tractor-1" "active" None (Some "Ama") empty_db) in
  let db := snd (track_equipment_status
                   (working "-Na0" "2024-05-01T07:00:00") (working "-H2" "")
                   "pump-2" "idle" None None db1) in
  exists l,
    get_equipment_status (working "-Na0" "") None db = AllStatuses l /\
    length l = 2 /\
    ("pump-2", {| e_status := "idle"; e_location := default_geo;
                  e_operator := None;
                  e_timestamp := "2024-05-01T07:00:00" |}) ∈ l.
Proof.
  intros db1 db.
  destruct (equipment_listing (working "-Na0" "") db)
    as (l & Hall & Hagree & _ & Hlen); [reflexivity |].
  exists l. split; [exact Hall |]. split.
  - rewrite Hlen; [reflexivity |].
    apply tracked_status; [| reflexivity].
    apply tracked_status; [| reflexivity].
    apply tracked_empty.
  - apply Hagree; reflexivity.
Defined.

End EquipmentFacts.


(** ** Alerts pushed by the database manager *)

Module DatabaseManagerFacts.
Import FirebaseService DatabaseManager FirebaseFacts AlertHistory.

Lemma new_alert_fields (ty m p now : string) :
  text "type" (new_alert ty m p now) = Some ty /\
  message (new_alert ty m p now) = Some m /\
  priority (new_alert ty m p now) = Some p /\
  timestamp (new_alert ty m p now) = Some now /\
  read (new_alert ty m p now) = Some false /\
  title (new_alert ty m p now) = None /\
  resolved (new_alert ty m p now) = None.
Proof. vm_compute. repeat split. Qed.

(** X24. An alert that [add_firebase_alert] of [database.py] has pushed
    (answer [True]) is a child of the [alerts/] node the service reads:
    it is stored under the pushed key with its type, message, priority
    and timestamp, unread, without title and without a resolved flag;
    no push notification goes out for it, whatever its priority;
    [get_firebase_alerts] returns it; the service lists it under
    [unread_only] when the unread alerts of the store carry timestamps
    and the limit leaves room; and after [mark_alert_read] for its key
    it is listed as unread no more. A push that fails changes nothing. *)
Theorem pushed_alert_is_listed o (ty m p : string) fb :
  (fst (add_firebase_alert o ty m p fb) = false ->
   snd (add_firebase_alert o ty m p fb) = fb) /\
  (fst (add_firebase_alert o ty m p fb) = true ->
   let fb1 := snd (add_firebase_alert o ty m p fb) in
   exists a,
     alerts fb1 !! push_key o = Some a /\
     text "type" a = Some ty /\ message a = Some m /\ priority a = Some p /\
     timestamp a = Some (now_iso o) /\ read a = Some false /\
     title a = None /\ resolved a = None /\
     notifications fb1 = notifications fb /\
     (forall og, db_ok og = true ->
        get_firebase_alerts og fb1 !! push_key o = Some a) /\
     (timestamped fb ->
      forall ol (limit : Z),
        db_ok ol = true -> (Z.of_nat (unread_count fb) < limit)%Z ->
        (push_key o, a) ∈ get_alerts ol true limit fb1) /\
     (forall om fb2,
        mark_alert_read om (push_key o) fb1 = (true, fb2) ->
        forall ol (limit : Z) a',
          (push_key o, a') ∉ get_alerts ol true limit fb2)).
Proof.
  unfold add_firebase_alert. destruct (db_ok o); cbn [fst snd].
  - split; [discriminate |]. intros _.
    destruct (new_alert_fields ty m p (now_iso o))
      as (Hty & Hm & Hp & Hts & Hr & Ht & Hres).
    exists (new_alert ty m p (now_iso o)). simpl.
    split; [apply lookup_insert_eq |].
    repeat (split; [assumption || reflexivity |]).
    split; [| split].
    + intros og Hog. unfold get_firebase_alerts. rewrite Hog. simpl.
      apply lookup_insert_eq.
    + intros Hstamped ol limit Hdb Hlim.
      apply (put_unread_is_listed fb); eauto.
    + intros om fb2 Hmark ol limit a'.
      eapply marked_key_not_listed; [| exact Hmark].
      apply Is_true_true, push_key_is_key.
  - split; [reflexivity | discriminate].
Qed.

(** A stock warning is pushed beside an alert of the sensor monitor. *)
Lemma pushed_alert_is_listed_witness :
  let o1 := working "-Na1" "2026-01-15T10:30:00" in
  let o2 := working "-Na2" "2026-01-15T11:00:00" in
  let fb := snd (create_alert o1 "Low Soil Moisture" "dry" "high" None
                   empty_store) in
  let fb1 := snd (add_firebase_alert o2 "inventory" "feed is low" "high" fb) in
  map fst (get_alerts o1 true 50 fb1) = ["-Na2"; "-Na1"] /\
  notifications fb1 = [("Low Soil Moisture", "dry")] /\
  exists a, ("-Na2", a) ∈ get_alerts o1 true 50 fb1 /\ title a = None.
Proof.
  intros o1 o2 fb fb1.
  destruct (pushed_alert_is_listed o2 "inventory" "feed is low" "high" fb)
    as [_ Hpushed].
  destruct (Hpushed eq_refl)
    as (a & _ & _ & _ & _ & _ & _ & Ht & _ & Hn & _ & Hlisted & _).
  split; [vm_compute; reflexivity |].
  split; [exact Hn |].
  exists a. split; [| exact Ht].
  apply Hlisted; [| reflexivity | vm_compute; reflexivity].
  apply create_alert_timestamped, empty_store_timestamped.
Defined.

End DatabaseManagerFacts.
